(** * translate-services: the resilient translation gateway

    A shallow embedding of the Go sources of XgzK/translate-services:

    - [langutil]    : internal/langutil (DetectLanguage, NormalizeLanguageCode,
                      the script-range predicates, Includes);
    - [translation] : internal/translation (the Response schema);
    - [deeplx]      : internal/translator/deeplx (the retrying HTTP client
                      [doRequest] and the Google-format adapter);
    - [cache]       : internal/cache (KeyGenerator, CachedTranslation and the
                      cache-aside decorator CachedTranslationService).

    Go strings are byte strings, modelled by [string] (a list of 8-bit
    characters).  Go [int], [int64] and [rune] values are modelled in [Z]. *)

From Stdlib Require Import ZArith List Bool Ascii String Lia QArith DecimalString.
Import ListNotations.

Local Open Scope string_scope.
Local Open Scope Z_scope.

(* ================================================================== *)
(** ** The pieces of Go's standard library the sources call            *)
(* ================================================================== *)

Module GoString.

Definition byteZ (c : ascii) : Z := Z.of_N (N_of_ascii c).
Definition byteOf (z : Z) : ascii := ascii_of_N (Z.to_N z).

(** [s == ""], [s != ""] *)
Definition isEmpty (s : string) : bool :=
  match s with EmptyString => true | String _ _ => false end.

Fixpoint skip (n : nat) (s : string) : string :=
  match n, s with
  | O, _ => s
  | S _, EmptyString => EmptyString
  | S n', String _ s' => skip n' s'
  end.

Fixpoint mapBytes (f : ascii -> ascii) (s : string) : string :=
  match s with
  | EmptyString => EmptyString
  | String c s' => String (f c) (mapBytes f s')
  end.

Fixpoint rev_onto (s acc : string) : string :=
  match s with
  | EmptyString => acc
  | String c s' => rev_onto s' (String c acc)
  end.

Definition reverse (s : string) : string := rev_onto s EmptyString.

(** *** unicode/utf8 *)

Definition RuneError : Z := 0xFFFD.

Definition between (lo hi b : Z) : bool := (lo <=? b) && (b <=? hi).

(** utf8.DecodeRuneInString: the rune that starts [s] and its width in
    bytes; an invalid or truncated encoding gives (RuneError, 1). *)
Definition DecodeRuneInString (s : string) : Z * nat :=
  match s with
  | EmptyString => (RuneError, 0%nat)
  | String c0 s1 =>
    let b0 := byteZ c0 in
    if b0 <? 0x80 then (b0, 1%nat)
    else if (b0 <? 0xC2) || (0xF4 <? b0) then (RuneError, 1%nat)
    else
      let lo := if b0 =? 0xE0 then 0xA0 else if b0 =? 0xF0 then 0x90 else 0x80 in
      let hi := if b0 =? 0xED then 0x9F else if b0 =? 0xF4 then 0x8F else 0xBF in
      match s1 with
      | EmptyString => (RuneError, 1%nat)
      | String c1 s2 =>
        let b1 := byteZ c1 in
        if b0 <? 0xE0 then
          if between lo hi b1
          then (Z.lor (Z.shiftl (Z.land b0 0x1F) 6) (Z.land b1 0x3F), 2%nat)
          else (RuneError, 1%nat)
        else
          match s2 with
          | EmptyString => (RuneError, 1%nat)
          | String c2 s3 =>
            let b2 := byteZ c2 in
            if b0 <? 0xF0 then
              if between lo hi b1 && between 0x80 0xBF b2
              then (Z.lor (Z.lor (Z.shiftl (Z.land b0 0x0F) 12)
                                 (Z.shiftl (Z.land b1 0x3F) 6))
                          (Z.land b2 0x3F), 3%nat)
              else (RuneError, 1%nat)
            else
              match s3 with
              | EmptyString => (RuneError, 1%nat)
              | String c3 _ =>
                let b3 := byteZ c3 in
                if between lo hi b1 && between 0x80 0xBF b2 && between 0x80 0xBF b3
                then (Z.lor (Z.lor (Z.lor (Z.shiftl (Z.land b0 0x07) 18)
                                          (Z.shiftl (Z.land b1 0x3F) 12))
                                   (Z.shiftl (Z.land b2 0x3F) 6))
                            (Z.land b3 0x3F), 4%nat)
                else (RuneError, 1%nat)
              end
          end
      end
  end.

(** [for _, r := range s]: the runes the loop body sees, in order.  Every
    iteration consumes at least one byte, so [length s] iterations suffice. *)
Fixpoint rangeLoop (fuel : nat) (s : string) : list Z :=
  match fuel with
  | O => []
  | S fuel' =>
    match s with
    | EmptyString => []
    | String _ _ =>
      let '(r, w) := DecodeRuneInString s in
      r :: rangeLoop fuel' (skip w s)
    end
  end.

Definition runes (s : string) : list Z := rangeLoop (String.length s) s.

(** *** unicode.IsSpace and strings.TrimSpace *)

Definition IsSpace (r : Z) : bool :=
  between 0x09 0x0D r || (r =? 0x20) || (r =? 0x85) || (r =? 0xA0) ||
  (r =? 0x1680) || between 0x2000 0x200A r || (r =? 0x2028) ||
  (r =? 0x2029) || (r =? 0x202F) || (r =? 0x205F) || (r =? 0x3000).

(** strings.TrimLeftFunc(s, unicode.IsSpace) *)
Fixpoint trimLeftLoop (fuel : nat) (s : string) : string :=
  match fuel with
  | O => s
  | S fuel' =>
    match s with
    | EmptyString => s
    | String _ _ =>
      let '(r, w) := DecodeRuneInString s in
      if IsSpace r then trimLeftLoop fuel' (skip w s) else s
    end
  end.

Definition TrimLeftSpace (s : string) : string := trimLeftLoop (String.length s) s.

(** The byte-reversed UTF-8 encodings of the white-space runes: what
    utf8.DecodeLastRuneInString recognises at the end of a string. *)
Definition stripLastSpace (r : string) : option string :=
  match r with
  | EmptyString => None
  | String c0 r1 =>
    let b0 := byteZ c0 in
    if between 0x09 0x0D b0 || (b0 =? 0x20) then Some r1
    else
      match r1 with
      | EmptyString => None
      | String c1 r2 =>
        let b1 := byteZ c1 in
        if (b1 =? 0xC2) && ((b0 =? 0x85) || (b0 =? 0xA0)) then Some r2
        else
          match r2 with
          | EmptyString => None
          | String c2 r3 =>
            let b2 := byteZ c2 in
            if ((b2 =? 0xE1) && (b1 =? 0x9A) && (b0 =? 0x80))
               || ((b2 =? 0xE2) && (b1 =? 0x80) &&
                   (between 0x80 0x8A b0 || (b0 =? 0xA8) || (b0 =? 0xA9) || (b0 =? 0xAF)))
               || ((b2 =? 0xE2) && (b1 =? 0x81) && (b0 =? 0x9F))
               || ((b2 =? 0xE3) && (b1 =? 0x80) && (b0 =? 0x80))
            then Some r3 else None
          end
      end
  end.

(** strings.TrimRightFunc(s, unicode.IsSpace), on the reversed string. *)
Fixpoint trimRightLoop (fuel : nat) (r : string) : string :=
  match fuel with
  | O => r
  | S fuel' =>
    match stripLastSpace r with
    | Some r' => trimRightLoop fuel' r'
    | None => r
    end
  end.

Definition TrimRightSpace (s : string) : string :=
  reverse (trimRightLoop (String.length s) (reverse s)).

(** strings.TrimSpace *)
Definition TrimSpace (s : string) : string := TrimRightSpace (TrimLeftSpace s).

(** *** Case mapping.  strings.ToLower, strings.ToUpper and
    strings.EqualFold on strings of ASCII bytes, where Go maps the letters
    A-Z and a-z byte by byte.  For a rune above U+007F Go consults the
    Unicode case tables, which are not part of this development: there the
    functions below leave the bytes as they are, and a property that shows
    a mapped string is stated for ASCII arguments. *)

Definition lowerByte (c : ascii) : ascii :=
  let b := byteZ c in if between 0x41 0x5A b then byteOf (b + 0x20) else c.

Definition upperByte (c : ascii) : ascii :=
  let b := byteZ c in if between 0x61 0x7A b then byteOf (b - 0x20) else c.

Definition ToLower (s : string) : string := mapBytes lowerByte s.
Definition ToUpper (s : string) : string := mapBytes upperByte s.

(** strings.EqualFold: equality under simple case folding. *)
Definition EqualFold (s t : string) : bool := String.eqb (ToLower s) (ToLower t).

(** strings.TrimSuffix: [s] without the trailing [suffix], if it ends with
    it.  The cut is made at the one position where the rest of [s] is the
    suffix. *)
Fixpoint TrimSuffix (s suffix : string) : string :=
  match s with
  | EmptyString => s
  | String c s' =>
    if String.eqb s suffix then EmptyString else String c (TrimSuffix s' suffix)
  end.

End GoString.

(* ================================================================== *)
(** ** internal/langutil                                               *)
(* ================================================================== *)

Module langutil.
Import GoString.

(** IsCJK *)
Definition IsCJK (r : Z) : bool :=
  ((0x4E00 <=? r) && (r <=? 0x9FFF)) ||
  ((0x3400 <=? r) && (r <=? 0x4DBF)) ||
  ((0x20000 <=? r) && (r <=? 0x2A6DF)).

(** IsCyrillic *)
Definition IsCyrillic (r : Z) : bool := (0x0400 <=? r) && (r <=? 0x04FF).

(** IsJapanese *)
Definition IsJapanese (r : Z) : bool :=
  ((0x3040 <=? r) && (r <=? 0x309F)) || ((0x30A0 <=? r) && (r <=? 0x30FF)).

(** IsKorean *)
Definition IsKorean (r : Z) : bool := (0xAC00 <=? r) && (r <=? 0xD7AF).

(** NormalizeLanguageCode *)
Definition NormalizeLanguageCode (code : string) : string :=
  let code := ToLower code in
  if String.eqb code "zh" || String.eqb code "zh-hans" then "zh-CN"
  else if String.eqb code "zh-hant" then "zh-TW"
  else if String.eqb code "en" || String.eqb code "en-us" then "en"
  else if String.eqb code "en-gb" then "en-GB"
  else if String.eqb code "ja" then "ja"
  else if String.eqb code "ko" then "ko"
  else if String.eqb code "fr" then "fr"
  else if String.eqb code "de" then "de"
  else if String.eqb code "es" then "es"
  else if String.eqb code "ru" then "ru"
  else if String.eqb code "pt" || String.eqb code "pt-br" then "pt"
  else if String.eqb code "it" then "it"
  else if String.eqb code "ar" then "ar"
  else code.

(** The body of the loop of DetectLanguage, over the runes of the text. *)
Fixpoint detectLoop (rs : list Z) : string :=
  match rs with
  | [] => "en"
  | r :: rs' =>
    if IsCJK r then "zh-CN"
    else if IsCyrillic r then "ru"
    else if IsJapanese r then "ja"
    else if IsKorean r then "ko"
    else detectLoop rs'
  end.

(** DetectLanguage *)
Definition DetectLanguage (text requested : string) : string :=
  if negb (isEmpty (TrimSpace requested)) && negb (EqualFold requested "auto")
  then NormalizeLanguageCode requested
  else detectLoop (runes text).

(** Includes *)
Fixpoint Includes (params : list string) (target : string) : bool :=
  match params with
  | [] => false
  | v :: params' => if String.eqb v target then true else Includes params' target
  end.

End langutil.

(* ================================================================== *)
(** ** internal/translation: the response schema                       *)
(* ================================================================== *)

Module translation.

(** Go pointers are [option]s ([None] is nil), slices are lists and
    [float64] constants are rationals. *)

Record Sentence := {
  Orig : string;
  Trans : string;
  Backend : Z;
  SrcTranslit : string;
  Translit : string
}.

Record DictEntry := {
  Word : string;
  ReverseTranslation : list string;
  Score : Q
}.

Record Dictionary := {
  Pos : string;
  Entry : list DictEntry
}.

Record SpellCheck := { SpellRes : string }.

Record LanguageDetectionResult := {
  Srclangs : list string;
  SrclangsConfidences : list Q
}.

Record Alternative := {
  WordPostproc : string;
  AltScore : Q;
  HasPrecedingSpace : bool;
  AttachToNextToken : bool
}.

Record AlternativeTranslation := {
  SrcPhrase : string;
  RawSrcSegment : string;
  Alternatives : list Alternative
}.

Record LabelInfo := { Subject : list string }.

Record Example := {
  Text : string;
  SourceType : Z;
  Label : option LabelInfo
}.

Record Examples := { ExampleList : list Example }.

Record Response := {
  Src : string;
  Sentences : list Sentence;
  Dict : list Dictionary;
  Spell : option SpellCheck;
  LDResult : option LanguageDetectionResult;
  AlternativeTranslations : list AlternativeTranslation;
  ExamplesBlock : option Examples
}.

End translation.

(** A Go call either returns or panics (a nil pointer dereference). *)
Inductive Outcome (A : Type) : Type :=
| Return (a : A)
| Panic (msg : string).
Arguments Return {A} a.
Arguments Panic {A} msg.

(** An [error] value: nil is [None], otherwise its Error() text. *)
Definition error := option string.

(** What a method of the TranslationService interface hands back:
    a pointer to a translation.Response and an error. *)
Definition ServiceResult : Type := option translation.Response * error.

(** [fmt.Sprintf("%d", n)] *)
Definition itoa (n : Z) : string := NilZero.string_of_int (Z.to_int n).

(** Go's [int] and [int64] (64 bits, two's complement). *)
Definition wrap64 (x : Z) : Z := (x + 2 ^ 63) mod 2 ^ 64 - 2 ^ 63.

(** time.Duration counts nanoseconds in an int64. *)
Definition Millisecond : Z := 1000000.
Definition Second : Z := 1000 * Millisecond.

(** context.Context, as far as the sources look at it: what [ctx.Err()]
    answers when the loop of doRequest asks before attempt number [i]. *)
Record Context := { ctx_Err : Z -> error }.

Definition Background : Context := {| ctx_Err := fun _ => None |}.

(* ================================================================== *)
(** ** internal/translator/deeplx: the retrying upstream client        *)
(* ================================================================== *)

Module deeplx.
Import GoString.

(** TranslationRequest *)
Record TranslationRequest := {
  req_Text : string;
  req_SourceLang : string;
  req_TargetLang : string
}.

(** TranslationResponse *)
Record TranslationResponse := {
  resp_Alternatives : list string;
  resp_Code : Z;
  resp_Data : string;
  resp_ID : Z;
  resp_Method : string;
  resp_SourceLang : string;
  resp_TargetLang : string
}.

(** TranslationResult *)
Record TranslationResult := {
  Success : bool;
  TranslatedText : string;
  SourceLang : string;
  TargetLang : string;
  ErrorMessage : string;
  RawResponse : option TranslationResponse
}.

(** DeepLXTranslator; its httpClient is the [Upstream] below. *)
Record DeepLXTranslator := {
  apiKey : string;
  baseURL : string;
  requestTimeout : Z;
  maxRetryAttempt : Z
}.

(** An error of httpClient.Do: its text, and what the type assertion
    [err.(net.Error)] and the methods Timeout and Temporary answer. *)
Record TransportError := {
  te_Error : string;
  te_isNetError : bool;
  te_Timeout : bool;
  te_Temporary : bool
}.

(** One round trip: [httpClient.Do] fails, or answers with a status and
    [io.ReadAll(resp.Body)] gives the body and possibly a read error. *)
Inductive RoundTrip :=
| DoFailed (err : TransportError)
| DoReplied (StatusCode : Z) (body : string) (readErr : error).

Inductive Try (A : Type) : Type :=
| Ok (a : A)
| Err (e : string).
Arguments Ok {A} a.
Arguments Err {A} e.

(** Everything outside the repository that doRequest talks to. *)
Record Upstream := {
  json_Marshal : TranslationRequest -> Try string;
  json_Unmarshal : string -> Try TranslationResponse;
  NewRequestWithContext : string -> string -> error;
  (** attempt number, per-attempt timeout (if any), URL, request body *)
  Do : Z -> option Z -> string -> string -> RoundTrip
}.

(** What doRequest does to the outside, in order. *)
Inductive Event :=
| HttpDo (attempt : Z) (url body : string)
| Sleep (d : Z).

Definition HasPrefix (s prefix : string) : bool := String.prefix prefix s.

(** NewTranslator *)
Definition NewTranslator (key : string) : Try DeepLXTranslator :=
  if isEmpty key || negb (HasPrefix key "sk-")
  then Err "API 密钥必须以 sk- 开头"
  else Ok {| apiKey := key;
             baseURL := "https://deeplx.jayogo.com/translate";
             requestTimeout := 10 * Second;
             maxRetryAttempt := 2 |}.

(** buildURL *)
Definition buildURL (t : DeepLXTranslator) (model : string) : string :=
  if negb (isEmpty model)
  then baseURL t ++ "/" ++ apiKey t ++ "/" ++ model
  else baseURL t ++ "/" ++ apiKey t.

(** shouldRetry *)
Definition shouldRetry (err : option TransportError) : bool :=
  match err with
  | None => false
  | Some e =>
    if te_isNetError e && (te_Timeout e || te_Temporary e) then true else false
  end.

(** shouldRetryStatus *)
Definition shouldRetryStatus (status : Z) : bool :=
  (500 <=? status) && (status <? 600).

(** backoff *)
Definition backoff (attempt : Z) : Z :=
  wrap64 (wrap64 (200 * wrap64 (attempt + 1)) * Millisecond).

Definition failure (msg : string) : TranslationResult :=
  {| Success := false; TranslatedText := ""; SourceLang := ""; TargetLang := "";
     ErrorMessage := msg; RawResponse := None |}.

Section DoRequest.
Variable t : DeepLXTranslator.
Variable up : Upstream.
Variable ctx : Context.
Variables url jsonData : string.

(** The [for attempt := 0; attempt <= t.maxRetryAttempt; attempt++] loop
    of doRequest, from the iteration numbered [attempt] on.  [fuel]
    bounds the iterations; the result is [None] when it runs out. *)
Fixpoint attemptLoop (fuel : nat) (attempt : Z) (lastErr : string)
  : option TranslationResult * list Event :=
  match fuel with
  | O => (None, [])
  | S fuel' =>
    if attempt <=? maxRetryAttempt t then
      match ctx_Err ctx attempt with
      | Some err => (Some (failure ("请求已取消: " ++ err)), [])
      | None =>
        let timeout :=
          if 0 <? requestTimeout t then Some (requestTimeout t) else None in
        match NewRequestWithContext up url jsonData with
        | Some err => (Some (failure ("创建请求失败: " ++ err)), [])
        | None =>
          let retry lastErr :=
            let '(r, tr) := attemptLoop fuel' (attempt + 1) lastErr in
            (r, HttpDo attempt url jsonData :: Sleep (backoff attempt) :: tr) in
          let stop lastErr :=
            (Some (failure lastErr), [HttpDo attempt url jsonData]) in
          match Do up attempt timeout url jsonData with
          | DoFailed err =>
            let lastErr := "请求失败: " ++ te_Error err in
            if shouldRetry (Some err) && (attempt <? maxRetryAttempt t)
            then retry lastErr else stop lastErr
          | DoReplied status body (Some readErr) =>
            let lastErr := "读取响应失败: " ++ readErr in
            if attempt <? maxRetryAttempt t
            then retry lastErr else stop lastErr
          | DoReplied status body None =>
            if negb (status =? 200) then
              let lastErr := "HTTP " ++ itoa status ++ ": " ++ body in
              if shouldRetryStatus status && (attempt <? maxRetryAttempt t)
              then retry lastErr else stop lastErr
            else
              match json_Unmarshal up body with
              | Err err =>
                let lastErr := "解析响应失败: " ++ err in
                if attempt <? maxRetryAttempt t
                then retry lastErr else stop lastErr
              | Ok translationResp =>
                (Some {| Success := true;
                         TranslatedText := resp_Data translationResp;
                         SourceLang := resp_SourceLang translationResp;
                         TargetLang := resp_TargetLang translationResp;
                         ErrorMessage := "";
                         RawResponse := Some translationResp |},
                 [HttpDo attempt url jsonData])
              end
          end
        end
      end
    else (Some (failure lastErr), [])
  end.
End DoRequest.

(** doRequest.  The loop body runs for attempt = 0 .. maxRetryAttempt, and
    the loop condition is looked at once more at most. *)
Definition doRequest (t : DeepLXTranslator) (up : Upstream)
           (ctx : option Context) (req : TranslationRequest) (model : string)
  : option TranslationResult * list Event :=
  let url := buildURL t model in
  match json_Marshal up req with
  | Err err => (Some (failure ("序列化请求失败: " ++ err)), [])
  | Ok jsonData =>
    let ctx := match ctx with None => Background | Some c => c end in
    attemptLoop t up ctx url jsonData
                (S (Z.to_nat (maxRetryAttempt t + 1))) 0 ""
  end.

(** TranslateWithContext; [sourceLang] is the variadic parameter. *)
Definition TranslateWithContext (t : DeepLXTranslator) (up : Upstream)
           (ctx : option Context) (text targetLang : string)
           (sourceLang : list string) :=
  let src := match sourceLang with
             | s0 :: _ => if negb (isEmpty s0) then ToUpper s0 else ""
             | [] => ""
             end in
  doRequest t up ctx
            {| req_Text := text; req_SourceLang := src;
               req_TargetLang := ToUpper targetLang |} "".

(** TranslateWithModelContext *)
Definition TranslateWithModelContext (t : DeepLXTranslator) (up : Upstream)
           (ctx : option Context) (text targetLang model : string)
           (sourceLang : list string) :=
  let src := match sourceLang with
             | s0 :: _ => if negb (isEmpty s0) then ToUpper s0 else ""
             | [] => ""
             end in
  doRequest t up ctx
            {| req_Text := text; req_SourceLang := src;
               req_TargetLang := ToUpper targetLang |} model.

(** The number of HTTP round trips in a trace. *)
Definition isHttpDo (e : Event) : bool :=
  match e with HttpDo _ _ _ => true | Sleep _ => false end.

Definition roundTrips (tr : list Event) : nat :=
  List.length (List.filter isHttpDo tr).

(** *** The Google-format adapter *)

(** TranslationService: the interface every provider implements. *)
Record TranslationService := {
  svc_Translate :
    option Context -> string -> string -> string -> list string ->
    Outcome ServiceResult;
  svc_TranslateWithModel :
    option Context -> string -> string -> string -> list string -> string ->
    Outcome ServiceResult;
  svc_GetName : string;
  svc_IsAvailable : bool
}.

(** GoogleTranslator *)
Record GoogleTranslator := {
  translator : DeepLXTranslator;
  name : string
}.

(** NewGoogleTranslator *)
Definition NewGoogleTranslator (key : string) : Try GoogleTranslator :=
  match NewTranslator key with
  | Err e => Err e
  | Ok t => Ok {| translator := t; name := "DeepLX" |}
  end.

(** translateFunc *)
Definition translateFunc : Type :=
  option Context -> string -> string -> list string ->
  option TranslationResult * list Event.

(** convertToGoogleFormat *)
Definition convertToGoogleFormat (originalText : string)
           (result : TranslationResult) (dt : list string)
  : translation.Response :=
  let detectedLang := langutil.NormalizeLanguageCode (SourceLang result) in
  let detectedLang :=
    if isEmpty detectedLang
    then langutil.DetectLanguage originalText ""
    else detectedLang in
  let sentences := [] in
  let sentences :=
    if langutil.Includes dt "t"
    then (sentences ++
          [ {| translation.Orig := originalText;
               translation.Trans := TranslatedText result;
               translation.Backend := 1;
               translation.SrcTranslit := "";
               translation.Translit := "" |} ])%list
    else sentences in
  let sentences :=
    if langutil.Includes dt "rm"
    then (sentences ++
          [ {| translation.Orig := "";
               translation.Trans := "";
               translation.Backend := 0;
               translation.SrcTranslit := originalText;
               translation.Translit := ToUpper originalText |} ])%list
    else sentences in
  {| translation.Src := detectedLang;
     translation.Sentences := sentences;
     translation.Dict :=
       if langutil.Includes dt "bd"
       then [ {| translation.Pos := "translation";
                 translation.Entry :=
                   [ {| translation.Word := TranslatedText result;
                        translation.ReverseTranslation := [originalText];
                        translation.Score := 95 # 100 |} ] |} ]
       else [];
     translation.Spell :=
       if langutil.Includes dt "qca"
       then Some {| translation.SpellRes := originalText |}
       else None;
     translation.LDResult :=
       Some {| translation.Srclangs := [detectedLang];
               translation.SrclangsConfidences := [99 # 100] |};
     translation.AlternativeTranslations := [];
     translation.ExamplesBlock :=
       if langutil.Includes dt "ex"
       then Some {| translation.ExampleList := [] |}
       else None |}.

(** buildErrorResponse *)
Definition buildErrorResponse (q sl tl : string) : translation.Response :=
  let detectedLang := sl in
  let detectedLang :=
    if isEmpty detectedLang || EqualFold detectedLang "auto"
    then langutil.DetectLanguage q sl
    else detectedLang in
  {| translation.Src := detectedLang;
     translation.Sentences :=
       [ {| translation.Orig := q;
            translation.Trans := q;
            translation.Backend := 0;
            translation.SrcTranslit := "";
            translation.Translit := "" |} ];
     translation.Dict := [];
     translation.Spell := None;
     translation.LDResult :=
       Some {| translation.Srclangs := [detectedLang];
               translation.SrclangsConfidences := [5 # 10] |};
     translation.AlternativeTranslations := [];
     translation.ExamplesBlock := None |}.

(** doTranslate.  [result.Success] dereferences the pointer [fn] returned. *)
Definition doTranslate (g : GoogleTranslator) (ctx : option Context)
           (q sl tl : string) (dt : list string) (fn : translateFunc)
  : Outcome ServiceResult * list Event :=
  let '(result, tr) :=
    if negb (isEmpty sl) && negb (EqualFold sl "auto")
    then fn ctx q tl [sl]
    else fn ctx q tl [] in
  match result with
  | None => (Panic "runtime error: invalid memory address or nil pointer dereference", tr)
  | Some result =>
    if negb (Success result)
    then (Return (Some (buildErrorResponse q sl tl), None), tr)
    else (Return (Some (convertToGoogleFormat q result dt), None), tr)
  end.

(** GoogleTranslator.Translate *)
Definition Translate (g : GoogleTranslator) (up : Upstream)
           (ctx : option Context) (q sl tl : string) (dt : list string) :=
  doTranslate g ctx q sl tl dt (TranslateWithContext (translator g) up).

(** GoogleTranslator.TranslateWithModel *)
Definition TranslateWithModel (g : GoogleTranslator) (up : Upstream)
           (ctx : option Context) (q sl tl : string) (dt : list string)
           (model : string) :=
  let fn : translateFunc := fun ctx text targetLang sourceLang =>
    TranslateWithModelContext (translator g) up ctx text targetLang model
                              sourceLang in
  doTranslate g ctx q sl tl dt fn.

(** GetName *)
Definition GetName (g : GoogleTranslator) : string := name g.

(** IsAvailable; the pointer [g.translator] is never nil here. *)
Definition IsAvailable (g : GoogleTranslator) : bool :=
  negb (isEmpty (apiKey (translator g))).

(** A GoogleTranslator talking to the upstream [up], as a
    TranslationService value. *)
Definition asService (g : GoogleTranslator) (up : Upstream)
  : TranslationService :=
  {| svc_Translate := fun ctx q sl tl dt => fst (Translate g up ctx q sl tl dt);
     svc_TranslateWithModel := fun ctx q sl tl dt model =>
       fst (TranslateWithModel g up ctx q sl tl dt model);
     svc_GetName := GetName g;
     svc_IsAvailable := IsAvailable g |}.

(** SetBaseURL *)
Definition SetBaseURL (t : DeepLXTranslator) (url : string) : DeepLXTranslator :=
  {| apiKey := apiKey t;
     baseURL := TrimSuffix url "/";
     requestTimeout := requestTimeout t;
     maxRetryAttempt := maxRetryAttempt t |}.

(** SetName *)
Definition SetName (g : GoogleTranslator) (newName : string) : GoogleTranslator :=
  {| translator := translator g; name := newName |}.

(** *** The provider factory *)

(** ServiceType and its constants *)
Definition ServiceType : Type := string.
Definition ServiceTypeDeepLX : ServiceType := "deeplx".
Definition ServiceTypeBaidu : ServiceType := "baidu".
Definition ServiceTypeYoudao : ServiceType := "youdao".
Definition ServiceTypeGoogle : ServiceType := "google".
Definition ServiceTypeCustom : ServiceType := "custom".

(** TranslationServiceConfig *)
Record TranslationServiceConfig := {
  cfg_APIKey : string;
  cfg_BaseURL : string;
  cfg_Timeout : Z
}.

Section Factory.
(** NewTranslatorWithConfig is called by the sources but is not among
    them: the factory is modelled over whatever it does. *)
Variable NewTranslatorWithConfig : TranslationServiceConfig -> Try DeepLXTranslator.

(** NewGoogleTranslatorWithConfig *)
Definition NewGoogleTranslatorWithConfig (config : TranslationServiceConfig)
  : Try GoogleTranslator :=
  match NewTranslatorWithConfig config with
  | Err e => Err e
  | Ok t => Ok {| translator := t; name := "DeepLX" |}
  end.

(** createDeepLXService *)
Definition createDeepLXService (config : TranslationServiceConfig)
  : Try GoogleTranslator :=
  match NewGoogleTranslatorWithConfig config with
  | Err e => Err ("创建 DeepLX 服务失败: " ++ e)
  | Ok service => Ok service
  end.

(** CreateService; [config] is a pointer. *)
Definition CreateService (serviceType : ServiceType)
           (config : option TranslationServiceConfig) : Try GoogleTranslator :=
  match config with
  | None => Err "配置不能为空"
  | Some config =>
    if isEmpty (cfg_APIKey config) then Err "API 密钥不能为空"
    else
      let ty := ToLower serviceType in
      if String.eqb ty ServiceTypeDeepLX then createDeepLXService config
      else if String.eqb ty ServiceTypeBaidu
      then Err "百度翻译服务尚未实现，敬请期待喵～"
      else if String.eqb ty ServiceTypeYoudao
      then Err "有道翻译服务尚未实现，敬请期待喵～"
      else if String.eqb ty ServiceTypeGoogle
      then Err "谷歌翻译服务尚未实现，敬请期待喵～"
      else if String.eqb ty ServiceTypeCustom
      then Err "自定义翻译服务需要额外配置，敬请期待喵～"
      else Err ("不支持的服务类型: " ++ serviceType)
  end.

(** CreateServiceSimple *)
Definition CreateServiceSimple (serviceType : ServiceType) (key : string)
  : Try GoogleTranslator :=
  CreateService serviceType
                (Some {| cfg_APIKey := key; cfg_BaseURL := ""; cfg_Timeout := 0 |}).

End Factory.

(** GetSupportedServices *)
Definition GetSupportedServices : list ServiceType := [ServiceTypeDeepLX].

End deeplx.

(* ================================================================== *)
(** ** crypto/sha256 and encoding/hex                                  *)
(* ================================================================== *)

Module sha256.

Definition trunc32 (x : Z) : Z := x mod 2 ^ 32.

Definition plus32 (x y : Z) : Z := trunc32 (x + y).

Definition rotateRight (x : Z) (n : Z) : Z :=
  Z.lor (Z.shiftr x n) (trunc32 (Z.shiftl x (32 - n))).

Definition xor3 (a b c : Z) : Z := Z.lxor (Z.lxor a b) c.

Definition choose (e f g : Z) : Z :=
  Z.lxor (Z.land e f) (Z.land (Z.lxor e (2 ^ 32 - 1)) g).

Definition majority (a b c : Z) : Z :=
  xor3 (Z.land a b) (Z.land a c) (Z.land b c).

Definition bigSigma0 (x : Z) := xor3 (rotateRight x 2) (rotateRight x 13) (rotateRight x 22).
Definition bigSigma1 (x : Z) := xor3 (rotateRight x 6) (rotateRight x 11) (rotateRight x 25).
Definition smallSigma0 (x : Z) := xor3 (rotateRight x 7) (rotateRight x 18) (Z.shiftr x 3).
Definition smallSigma1 (x : Z) := xor3 (rotateRight x 17) (rotateRight x 19) (Z.shiftr x 10).

(** The round constants and the initial hash value. *)
Definition roundConstants : list Z :=
  [ 1116352408; 1899447441; 3049323471; 3921009573; 961987163; 1508970993;
    2453635748; 2870763221; 3624381080; 310598401; 607225278; 1426881987;
    1925078388; 2162078206; 2614888103; 3248222580; 3835390401; 4022224774;
    264347078; 604807628; 770255983; 1249150122; 1555081692; 1996064986;
    2554220882; 2821834349; 2952996808; 3210313671; 3336571891; 3584528711;
    113926993; 338241895; 666307205; 773529912; 1294757372; 1396182291;
    1695183700; 1986661051; 2177026350; 2456956037; 2730485921; 2820302411;
    3259730800; 3345764771; 3516065817; 3600352804; 4094571909; 275423344;
    430227734; 506948616; 659060556; 883997877; 958139571; 1322822218;
    1537002063; 1747873779; 1955562222; 2024104815; 2227730452; 2361852424;
    2428436474; 2756734187; 3204031479; 3329325298 ].

Definition initialState : list Z :=
  [ 1779033703; 3144134277; 1013904242; 2773480762;
    1359893119; 2600822924; 528734635; 1541459225 ].

(** Big-endian bytes of a word, and back. *)
Definition bytesOfWord (n : nat) (x : Z) : list Z :=
  List.map (fun i => Z.shiftr x (8 * Z.of_nat i) mod 256) (List.rev (List.seq 0 n)).

Definition wordOfBytes (bs : list Z) : Z :=
  List.fold_left (fun acc b => acc * 256 + b) bs 0.

(** The message followed by 0x80, zeros, and its bit length in 64 bits. *)
Definition pad (msg : list Z) : list Z :=
  let len := Z.of_nat (List.length msg) in
  (msg ++ 128 :: List.repeat 0 (Z.to_nat ((55 - len) mod 64))
       ++ bytesOfWord 8 (8 * len))%list.

Fixpoint chunks (size : nat) (n : nat) (l : list Z) : list (list Z) :=
  match n with
  | O => []
  | S n' => List.firstn size l :: chunks size n' (List.skipn size l)
  end.

(** The message schedule, most recent word first. *)
Fixpoint schedule (n : nat) (recent : list Z) : list Z :=
  match n with
  | O => recent
  | S n' =>
    let next :=
      plus32 (plus32 (smallSigma1 (List.nth 1 recent 0)) (List.nth 6 recent 0))
             (plus32 (smallSigma0 (List.nth 14 recent 0)) (List.nth 15 recent 0)) in
    schedule n' (next :: recent)
  end.

Definition round (st : list Z) (kw : Z * Z) : list Z :=
  match st with
  | [a; b; c; d; e; f; g; h] =>
    let t1 := plus32 (plus32 (plus32 h (bigSigma1 e)) (choose e f g))
                     (plus32 (fst kw) (snd kw)) in
    let t2 := plus32 (bigSigma0 a) (majority a b c) in
    [plus32 t1 t2; a; b; c; plus32 d t1; e; f; g]
  | _ => st
  end.

Definition compress (st : list Z) (block : list Z) : list Z :=
  let words := List.map wordOfBytes (chunks 4 16 block) in
  let w := List.rev (schedule 48 (List.rev words)) in
  let st' := List.fold_left round (List.combine roundConstants w) st in
  List.map (fun p => plus32 (fst p) (snd p)) (List.combine st st').

(** sha256.Sum256 *)
Definition Sum256 (msg : list Z) : list Z :=
  let padded := pad msg in
  let blocks := chunks 64 (List.length padded / 64) padded in
  List.flat_map (bytesOfWord 4) (List.fold_left compress blocks initialState).

Definition hexDigit (d : Z) : ascii :=
  GoString.byteOf (if d <? 10 then 48 + d else 87 + d).

(** hex.EncodeToString *)
Fixpoint EncodeToString (bs : list Z) : string :=
  match bs with
  | [] => EmptyString
  | b :: bs' => String (hexDigit (b / 16)) (String (hexDigit (b mod 16)) (EncodeToString bs'))
  end.

(** [[]byte(s)] *)
Definition bytesOf (s : string) : list Z :=
  List.map GoString.byteZ (list_ascii_of_string s).

End sha256.

(* ================================================================== *)
(** ** internal/cache: key derivation and the cache-aside decorator    *)
(* ================================================================== *)

Module cache.
Import GoString.

Definition KeyPrefix : string := "translate".
Definition SharedServiceName : string := "shared".

(** KeyGenerator *)
Record KeyGenerator := { shareAcrossServices : bool }.

(** NewKeyGenerator *)
Definition NewKeyGenerator (share : bool) : KeyGenerator :=
  {| shareAcrossServices := share |}.

(** The string computeHash feeds to SHA-256. *)
Definition normalized (text sourceLang targetLang model : string) : string :=
  TrimSpace text ++ "|" ++ ToLower (TrimSpace sourceLang) ++ "|" ++
  ToLower (TrimSpace targetLang) ++ "|" ++ ToLower (TrimSpace model).

(** computeHash: the first 8 bytes of the digest, in hexadecimal. *)
Definition computeHash (g : KeyGenerator)
           (text sourceLang targetLang model : string) : string :=
  let hash := sha256.Sum256 (sha256.bytesOf (normalized text sourceLang targetLang model)) in
  sha256.EncodeToString (List.firstn 8 hash).

(** Generate *)
Definition Generate (g : KeyGenerator)
           (service text sourceLang targetLang model : string) : string :=
  let hash := computeHash g text sourceLang targetLang model in
  if shareAcrossServices g
  then KeyPrefix ++ ":" ++ SharedServiceName ++ ":" ++ hash
  else KeyPrefix ++ ":" ++ ToLower service ++ ":" ++ hash.

(** GenerateCacheKey *)
Definition GenerateCacheKey (service text sourceLang targetLang model : string) :=
  Generate (NewKeyGenerator false) service text sourceLang targetLang model.

(** GenerateSharedCacheKey *)
Definition GenerateSharedCacheKey (text sourceLang targetLang model : string) :=
  Generate (NewKeyGenerator true) "" text sourceLang targetLang model.

(** CachedTranslation *)
Record CachedTranslation := {
  OriginalText : string;
  SourceLang : string;
  TargetLang : string;
  TranslatedText : string;
  Alternatives : list string;
  Service : string;
  Model : string;
  CachedAt : Z;
  Version : Z
}.

(** CacheFormatVersion *)
Definition CacheFormatVersion : Z := 1.

(** Cache, as far as the request path uses it: [Get] answers with the
    stored bytes ([None] is the nil slice of a miss) and an error. *)
Record Cache := { Get : string -> option string * error }.

(** encoding/json on CachedTranslation values. *)
Record Json := {
  json_Unmarshal : string -> deeplx.Try CachedTranslation;
  json_Marshal : CachedTranslation -> deeplx.Try string
}.

(** CachedServiceConfig *)
Record CachedServiceConfig := {
  TTL : Z;
  Enabled : bool;
  ShareAcrossServices : bool;
  WriteTimeout : Z
}.

(** CachedTranslationService (the logger left out: it decides nothing). *)
Record CachedTranslationService := {
  service : deeplx.TranslationService;
  cache : option Cache;
  keyGenerator : KeyGenerator;
  ttl : Z;
  enabled : bool;
  writeTimeout : Z
}.

Definition defaultCacheWriteTimeout : Z := 5 * Second.

(** NewCachedTranslationService *)
Definition NewCachedTranslationService (svc : deeplx.TranslationService)
           (ch : option Cache) (cfg : CachedServiceConfig)
           (opts : list (CachedTranslationService -> CachedTranslationService))
  : CachedTranslationService :=
  let wt := WriteTimeout cfg in
  let wt := if wt <=? 0 then defaultCacheWriteTimeout else wt in
  List.fold_left (fun c opt => opt c) opts
    {| service := svc;
       cache := ch;
       keyGenerator := NewKeyGenerator (ShareAcrossServices cfg);
       ttl := TTL cfg;
       enabled := Enabled cfg;
       writeTimeout := wt |}.

(** The arguments of [go c.saveToCacheWithTimeout(...)]. *)
Record WriteTask := {
  wt_key : string;
  wt_originalText : string;
  wt_sourceLang : string;
  wt_targetLang : string;
  wt_model : string;
  wt_resp : option translation.Response
}.

(** What a call of the decorator does to its collaborators, in order. *)
Inductive Effect :=
| CacheGet (key : string)
| InnerCall (q sl tl : string) (dt : list string) (model : string)
| GoSave (task : WriteTask).

(** getFromCache, on the non-nil [c.cache]. *)
Definition getFromCache (js : Json) (ch : Cache) (key : string)
  : option CachedTranslation * error :=
  match Get ch key with
  | (_, Some err) => (None, Some err)
  | (None, None) => (None, None)
  | (Some data, None) =>
    match json_Unmarshal js data with
    | deeplx.Err err => (None, Some err)
    | deeplx.Ok cached =>
      if negb (Version cached =? CacheFormatVersion)
      then (None, None)
      else (Some cached, None)
    end
  end.

(** The strings the inner loops of buildCachedTranslation append. *)
Definition pickAlternatives (translatedText : string)
           (alts : list translation.AlternativeTranslation) : list string :=
  List.flat_map
    (fun alt =>
       List.flat_map
         (fun a =>
            if negb (isEmpty (translation.WordPostproc a)) &&
               negb (String.eqb (translation.WordPostproc a) translatedText)
            then [translation.WordPostproc a] else [])
         (translation.Alternatives alt))
    alts.

(** buildCachedTranslation; [now] is [time.Now().UnixMilli()]. *)
Definition buildCachedTranslation (c : CachedTranslationService) (now : Z)
           (originalText sourceLang targetLang model : string)
           (resp : translation.Response) : CachedTranslation :=
  let src := translation.Src resp in
  let src := if isEmpty src then sourceLang else src in
  let translatedText :=
    match translation.Sentences resp with
    | [] => ""
    | _ :: _ =>
      List.fold_left (fun acc sentence => acc ++ translation.Trans sentence)
                     (translation.Sentences resp) ""
    end in
  {| OriginalText := originalText;
     SourceLang := src;
     TargetLang := targetLang;
     TranslatedText := translatedText;
     Alternatives :=
       match translation.AlternativeTranslations resp with
       | [] => []
       | _ :: _ =>
         pickAlternatives translatedText (translation.AlternativeTranslations resp)
       end;
     Service := deeplx.svc_GetName (service c);
     Model := model;
     CachedAt := now;
     Version := CacheFormatVersion |}.

(** buildResponseFromCache *)
Definition buildResponseFromCache (cached : CachedTranslation)
  : translation.Response :=
  {| translation.Src := SourceLang cached;
     translation.Sentences :=
       [ {| translation.Orig := OriginalText cached;
            translation.Trans := TranslatedText cached;
            translation.Backend := 0;
            translation.SrcTranslit := "";
            translation.Translit := "" |} ];
     translation.Dict := [];
     translation.Spell := None;
     translation.LDResult := None;
     translation.AlternativeTranslations :=
       match Alternatives cached with
       | [] => []
       | _ :: _ =>
         [ {| translation.SrcPhrase := OriginalText cached;
              translation.RawSrcSegment := "";
              translation.Alternatives :=
                List.map (fun alt =>
                            {| translation.WordPostproc := alt;
                               translation.AltScore := 0;
                               translation.HasPrecedingSpace := false;
                               translation.AttachToNextToken := false |})
                         (Alternatives cached) |} ]
       end;
     translation.ExamplesBlock := None |}.

(** TranslateWithModel *)
Definition TranslateWithModel (c : CachedTranslationService) (js : Json)
           (ctx : option Context) (q sl tl : string) (dt : list string)
           (model : string) : Outcome ServiceResult * list Effect :=
  let inner := deeplx.svc_TranslateWithModel (service c) ctx q sl tl dt model in
  match enabled c, cache c with
  | true, Some ch =>
    let serviceName := deeplx.svc_GetName (service c) in
    let key := Generate (keyGenerator c) serviceName q sl tl model in
    match getFromCache js ch key with
    | (Some cached, None) =>
      (Return (Some (buildResponseFromCache cached), None), [CacheGet key])
    | _ =>
      match inner with
      | Panic msg => (Panic msg, [CacheGet key; InnerCall q sl tl dt model])
      | Return (_, Some err) =>
        (Return (None, Some err), [CacheGet key; InnerCall q sl tl dt model])
      | Return (resp, None) =>
        (Return (resp, None),
         [CacheGet key; InnerCall q sl tl dt model;
          GoSave {| wt_key := key; wt_originalText := q; wt_sourceLang := sl;
                    wt_targetLang := tl; wt_model := model; wt_resp := resp |}])
      end
    end
  | _, _ => (inner, [InnerCall q sl tl dt model])
  end.

(** Translate *)
Definition Translate (c : CachedTranslationService) (js : Json)
           (ctx : option Context) (q sl tl : string) (dt : list string) :=
  TranslateWithModel c js ctx q sl tl dt "".

(** GetName *)
Definition GetName (c : CachedTranslationService) : string :=
  "cached-" ++ deeplx.svc_GetName (service c).

(** IsAvailable *)
Definition IsAvailable (c : CachedTranslationService) : bool :=
  deeplx.svc_IsAvailable (service c).

(** The call [c.cache.Set(ctx, key, data, c.ttl)]. *)
Inductive CacheOp := CacheSet (key data : string) (ttl : Z).

(** saveToCache, run by the goroutine of a [GoSave]: the Set call it
    makes, if any.  [resp.Src] dereferences the response. *)
Definition saveToCache (c : CachedTranslationService) (js : Json) (now : Z)
           (task : WriteTask) : Outcome (list CacheOp) :=
  match wt_resp task with
  | None => Panic "runtime error: invalid memory address or nil pointer dereference"
  | Some resp =>
    let cached := buildCachedTranslation c now (wt_originalText task)
                    (wt_sourceLang task) (wt_targetLang task) (wt_model task) resp in
    match json_Marshal js cached with
    | deeplx.Err _ => Return []
    | deeplx.Ok data => Return [CacheSet (wt_key task) data (ttl c)]
    end
  end.

(** The number of cache writes a call schedules. *)
Definition isGoSave (e : Effect) : bool :=
  match e with GoSave _ => true | _ => false end.

Definition scheduledWrites (tr : list Effect) : nat :=
  List.length (List.filter isGoSave tr).

Definition isInnerCall (e : Effect) : bool :=
  match e with InnerCall _ _ _ _ _ => true | _ => false end.

Definition innerCalls (tr : list Effect) : nat :=
  List.length (List.filter isInnerCall tr).

(** WithWriteTimeout *)
Definition WithWriteTimeout (timeout : Z)
  : CachedTranslationService -> CachedTranslationService :=
  fun c =>
    {| service := service c;
       cache := cache c;
       keyGenerator := keyGenerator c;
       ttl := ttl c;
       enabled := enabled c;
       writeTimeout := timeout |}.

End cache.

(* ================================================================== *)
(** ** internal/server: the handler of POST /translate_a/single         *)
(* ================================================================== *)

Module server.
Import GoString.

(** translateRequest *)
Record translateRequest := {
  Q : string;
  SL : string;
  TL : string;
  DT : list string;
  Model : string
}.

(** APIError, with its details as text. *)
Record APIError := {
  Code : string;
  Message : string;
  Details : option string
}.

Definition ErrCodeInvalidRequest : string := "INVALID_REQUEST".
Definition ErrCodeMissingParameter : string := "MISSING_PARAMETER".
Definition ErrCodeServiceUnavailable : string := "SERVICE_UNAVAILABLE".
Definition ErrCodeTranslationFailed : string := "TRANSLATION_FAILED".

(** What the handler writes: [c.JSON(status, body)]. *)
Inductive Reply :=
| ReplyError (status : Z) (e : APIError)
| ReplyOK (status : Z) (resp : translation.Response).

Definition StatusOK : Z := 200.
Definition StatusBadRequest : Z := 400.
Definition StatusBadGateway : Z := 502.

(** BadRequest *)
Definition BadRequest (code message : string) : Reply :=
  ReplyError StatusBadRequest {| Code := code; Message := message; Details := None |}.

(** BadRequestWithDetails *)
Definition BadRequestWithDetails (code message details : string) : Reply :=
  ReplyError StatusBadRequest {| Code := code; Message := message; Details := Some details |}.

(** BadGatewayWithDetails *)
Definition BadGatewayWithDetails (code message details : string) : Reply :=
  ReplyError StatusBadGateway {| Code := code; Message := message; Details := Some details |}.

(** A call of the handler on its translation service. *)
Inductive ServiceCall :=
| CallTranslate (q sl tl : string) (dt : list string)
| CallTranslateWithModel (q sl tl : string) (dt : list string) (model : string).

(** translateHandler, from the decoded payload on ([decoded] is what
    decodeTranslateRequest returned).  [defaultModel] is
    [s.config.Translation.Model], [ctx] the request context under the
    request timeout. *)
Definition translateHandler (service : deeplx.TranslationService)
           (defaultModel : string) (ctx : option Context)
           (decoded : deeplx.Try translateRequest)
  : Outcome Reply * list ServiceCall :=
  match decoded with
  | deeplx.Err err =>
    (Return (BadRequestWithDetails ErrCodeInvalidRequest "invalid request payload" err), [])
  | deeplx.Ok payload =>
    let q := Q payload in
    if isEmpty (TrimSpace q)
    then (Return (BadRequest ErrCodeMissingParameter "missing required parameter: q"), [])
    else
      let sl := SL payload in
      let tl := TL payload in
      let dt := DT payload in
      let model := Model payload in
      let model :=
        if isEmpty model && negb (isEmpty defaultModel) then defaultModel else model in
      if isEmpty (TrimSpace tl)
      then (Return (BadRequest ErrCodeMissingParameter "missing required parameter: tl"), [])
      else
        let dt := match dt with [] => ["t"] | _ :: _ => dt end in
        let '(result, call) :=
          if negb (isEmpty model)
          then (deeplx.svc_TranslateWithModel service ctx q sl tl dt model,
                CallTranslateWithModel q sl tl dt model)
          else (deeplx.svc_Translate service ctx q sl tl dt,
                CallTranslate q sl tl dt) in
        match result with
        | Panic msg => (Panic msg, [call])
        | Return (_, Some err) =>
          (Return (BadGatewayWithDetails ErrCodeTranslationFailed
                     "translation service unavailable" err), [call])
        | Return (None, None) =>
          (Return (BadGatewayWithDetails ErrCodeServiceUnavailable
                     "translation service unavailable"
                     "empty response from translation provider"), [call])
        | Return (Some resp, None) => (Return (ReplyOK StatusOK resp), [call])
        end
  end.

(** The part of config.Config that selectTranslationService reads. *)
Record TranslationConfig := {
  ServiceType : string;
  APIKey : string;
  BaseURL : string
}.

(** selectTranslationService; [deps] is the injected service, if any.  The
    result is the injected service or the adapter the factory built. *)
Definition selectTranslationService
           (NewTranslatorWithConfig :
              deeplx.TranslationServiceConfig -> deeplx.Try deeplx.DeepLXTranslator)
           (cfg : TranslationConfig) (deps : option deeplx.TranslationService)
  : deeplx.Try (deeplx.TranslationService + deeplx.GoogleTranslator) :=
  match deps with
  | Some service => deeplx.Ok (inl service)
  | None =>
    let serviceType := ServiceType cfg in
    let serviceType :=
      if isEmpty (TrimSpace serviceType) then deeplx.ServiceTypeDeepLX else serviceType in
    match deeplx.CreateService NewTranslatorWithConfig (ToLower serviceType)
            (Some {| deeplx.cfg_APIKey := APIKey cfg;
                     deeplx.cfg_BaseURL := BaseURL cfg;
                     deeplx.cfg_Timeout := 0 |}) with
    | deeplx.Err err => deeplx.Err err
    | deeplx.Ok service => deeplx.Ok (inr service)
    end
  end.

End server.

(* ================================================================== *)
(** ** Vocabulary of the statements and the stubs of the examples      *)
(* ================================================================== *)

(** A rune that belongs to none of the four script ranges. *)
Definition unrecognized (r : Z) : Prop :=
  langutil.IsCJK r = false /\ langutil.IsCyrillic r = false /\
  langutil.IsJapanese r = false /\ langutil.IsKorean r = false.

(** Iterations left when the loop of doRequest is at [attempt]. *)
Definition iterationsLeft (t : deeplx.DeepLXTranslator) (attempt : Z) : nat :=
  Z.to_nat (deeplx.maxRetryAttempt t + 1 - attempt).

(** The events of [k] failed attempts in a row, the first numbered
    [attempt]: each a round trip followed by the back-off sleep. *)
Fixpoint retryTrace (url body : string) (attempt : Z) (k : nat) : list deeplx.Event :=
  match k with
  | O => []
  | S k' =>
    deeplx.HttpDo attempt url body :: deeplx.Sleep (deeplx.backoff attempt)
      :: retryTrace url body (attempt + 1) k'
  end.

(** The translator NewTranslator builds from the key of the test suite. *)
Definition testAPIKey : string := "sk-test-key-123456".

Definition testTranslator : deeplx.DeepLXTranslator :=
  {| deeplx.apiKey := testAPIKey;
     deeplx.baseURL := "https://deeplx.jayogo.com/translate";
     deeplx.requestTimeout := 10 * Second;
     deeplx.maxRetryAttempt := 2 |}.

Definition testURL : string :=
  "https://deeplx.jayogo.com/translate/sk-test-key-123456".

(** A provider payload the stub decoder accepts, and what it decodes to. *)
Definition goodBody : string := "{data:你好，世界！,source_lang:EN,target_lang:ZH}".

Definition goodResponse : deeplx.TranslationResponse :=
  {| deeplx.resp_Alternatives := [];
     deeplx.resp_Code := 200;
     deeplx.resp_Data := "你好，世界！";
     deeplx.resp_ID := 1;
     deeplx.resp_Method := "Free";
     deeplx.resp_SourceLang := "EN";
     deeplx.resp_TargetLang := "ZH" |}.

Definition stubMarshal (req : deeplx.TranslationRequest) : deeplx.Try string :=
  deeplx.Ok ("{text:" ++ deeplx.req_Text req ++ ",source_lang:" ++ deeplx.req_SourceLang req
             ++ ",target_lang:" ++ deeplx.req_TargetLang req ++ "}").

Definition stubUnmarshal (body : string) : deeplx.Try deeplx.TranslationResponse :=
  if String.eqb body goodBody then deeplx.Ok goodResponse
  else deeplx.Err "invalid character '<' looking for beginning of value".

(** The provider stub of Scenario C: every round trip answers HTTP 500. *)
Definition always500 : deeplx.Upstream :=
  {| deeplx.json_Marshal := stubMarshal;
     deeplx.json_Unmarshal := stubUnmarshal;
     deeplx.NewRequestWithContext := fun _ _ => None;
     deeplx.Do := fun _ _ _ _ => deeplx.DoReplied 500 "Internal Server Error" None |}.

(** A provider whose first answer is 200 with a body that is no JSON and
    whose later answers are well-formed. *)
Definition malformedOnce : deeplx.Upstream :=
  {| deeplx.json_Marshal := stubMarshal;
     deeplx.json_Unmarshal := stubUnmarshal;
     deeplx.NewRequestWithContext := fun _ _ => None;
     deeplx.Do := fun attempt _ _ _ =>
       if attempt =? 0 then deeplx.DoReplied 200 "<html>" None
       else deeplx.DoReplied 200 goodBody None |}.

(** A provider that never answers with JSON. *)
Definition alwaysMalformed : deeplx.Upstream :=
  {| deeplx.json_Marshal := stubMarshal;
     deeplx.json_Unmarshal := stubUnmarshal;
     deeplx.NewRequestWithContext := fun _ _ => None;
     deeplx.Do := fun _ _ _ _ => deeplx.DoReplied 200 "<html>" None |}.

Definition testRequest : deeplx.TranslationRequest :=
  {| deeplx.req_Text := "Test"; deeplx.req_SourceLang := ""; deeplx.req_TargetLang := "ZH" |}.

Definition testBody : string := "{text:Test,source_lang:,target_lang:ZH}".

(** The adapter of the test suite, and the decorator around it. *)
Definition testGoogle : deeplx.GoogleTranslator :=
  {| deeplx.translator := testTranslator; deeplx.name := "DeepLX" |}.

Definition entryV1 : cache.CachedTranslation :=
  {| cache.OriginalText := "Hello, world!";
     cache.SourceLang := "en";
     cache.TargetLang := "ZH";
     cache.TranslatedText := "你好，世界！";
     cache.Alternatives := [];
     cache.Service := "DeepLX";
     cache.Model := "";
     cache.CachedAt := 1700000000000;
     cache.Version := 1 |}.

(** The same entry as an older writer (format version 0) left it. *)
Definition entryV0 : cache.CachedTranslation :=
  {| cache.OriginalText := "Hello, world!";
     cache.SourceLang := "en";
     cache.TargetLang := "ZH";
     cache.TranslatedText := "你好，世界！";
     cache.Alternatives := [];
     cache.Service := "DeepLX";
     cache.Model := "";
     cache.CachedAt := 1600000000000;
     cache.Version := 0 |}.

(** A stand-in for encoding/json on the two entries above. *)
Definition stubJson : cache.Json :=
  {| cache.json_Unmarshal := fun data =>
       if String.eqb data "{entry,version:1}" then deeplx.Ok entryV1
       else if String.eqb data "{entry,version:0}" then deeplx.Ok entryV0
       else deeplx.Err "unexpected end of JSON input";
     cache.json_Marshal := fun cached =>
       deeplx.Ok ("{entry,version:" ++ itoa (cache.Version cached) ++ "}") |}.

Definition emptyCache : cache.Cache := {| cache.Get := fun _ => (None, None) |}.

Definition cacheHolding (key data : string) : cache.Cache :=
  {| cache.Get := fun k => if String.eqb k key then (Some data, None) else (None, None) |}.

Definition cachedService (up : deeplx.Upstream) (ch : cache.Cache)
  : cache.CachedTranslationService :=
  cache.NewCachedTranslationService
    (deeplx.asService testGoogle up) (Some ch)
    {| cache.TTL := 0; cache.Enabled := true;
       cache.ShareAcrossServices := false; cache.WriteTimeout := 0 |} [].

(** The key of the request ("Hello, world!", "EN", "ZH", no model). *)
Definition helloKey : string :=
  cache.GenerateCacheKey "DeepLX" "Hello, world!" "EN" "ZH" "".

(** A context that is never cancelled. *)
Definition neverDone (ctx : option Context) : Prop :=
  forall c, ctx = Some c -> forall attempt, ctx_Err c attempt = None.

(** An inner service that fails with a hard error. *)
Definition failingService : deeplx.TranslationService :=
  {| deeplx.svc_Translate := fun _ _ _ _ _ => Return (None, Some "upstream unavailable");
     deeplx.svc_TranslateWithModel := fun _ _ _ _ _ _ => Return (None, Some "upstream unavailable");
     deeplx.svc_GetName := "failing";
     deeplx.svc_IsAvailable := true |}.

(** The decorator [c] with its cache replaced by [ch]. *)
Definition withCache (c : cache.CachedTranslationService) (ch : cache.Cache)
  : cache.CachedTranslationService :=
  {| cache.service := cache.service c;
     cache.cache := Some ch;
     cache.keyGenerator := cache.keyGenerator c;
     cache.ttl := cache.ttl c;
     cache.enabled := cache.enabled c;
     cache.writeTimeout := cache.writeTimeout c |}.

(** The key under which the decorator [c] looks a request up. *)
Definition requestKey (c : cache.CachedTranslationService) (q sl tl model : string) : string :=
  cache.Generate (cache.keyGenerator c) (deeplx.svc_GetName (cache.service c)) q sl tl model.

(** What the decorator hands back on a miss, given what the inner service
    returned. *)
Definition passedOn (inner : Outcome ServiceResult) : Outcome ServiceResult :=
  match inner with
  | Return (_, Some err) => Return (None, Some err)
  | other => other
  end.

(** The sentence pair of a translation, and the one of a transliteration. *)
Definition translationSentence (orig trans : string) : translation.Sentence :=
  {| translation.Orig := orig; translation.Trans := trans; translation.Backend := 1;
     translation.SrcTranslit := ""; translation.Translit := "" |}.

Definition translitSentence (orig translit : string) : translation.Sentence :=
  {| translation.Orig := ""; translation.Trans := ""; translation.Backend := 0;
     translation.SrcTranslit := orig; translation.Translit := translit |}.

(** The sentence pair of the degraded and of the cache-hit response. *)
Definition plainSentence (orig trans : string) : translation.Sentence :=
  {| translation.Orig := orig; translation.Trans := trans; translation.Backend := 0;
     translation.SrcTranslit := ""; translation.Translit := "" |}.

(** The decorator, cache enabled and empty, around the failing service. *)
Definition failingCached : cache.CachedTranslationService :=
  cache.NewCachedTranslationService failingService (Some emptyCache)
    {| cache.TTL := 0; cache.Enabled := true;
       cache.ShareAcrossServices := false; cache.WriteTimeout := 0 |} [].

(** A service that returns neither a response nor an error, and the
    decorator around it. *)
Definition silentService : deeplx.TranslationService :=
  {| deeplx.svc_Translate := fun _ _ _ _ _ => Return (None, None);
     deeplx.svc_TranslateWithModel := fun _ _ _ _ _ _ => Return (None, None);
     deeplx.svc_GetName := "silent";
     deeplx.svc_IsAvailable := true |}.

Definition silentCached : cache.CachedTranslationService :=
  cache.NewCachedTranslationService silentService (Some emptyCache)
    {| cache.TTL := 0; cache.Enabled := true;
       cache.ShareAcrossServices := false; cache.WriteTimeout := 0 |} [].

(** The entry the decorator builds from the adapter's degraded response. *)
Definition degradedEntry (c : cache.CachedTranslationService) (now : Z)
           (q sl tl model : string) : cache.CachedTranslation :=
  cache.buildCachedTranslation c now q sl tl model (deeplx.buildErrorResponse q sl tl).

(** A stand-in for encoding/json that knows the one entry [entry]. *)
Definition codecOf (entry : cache.CachedTranslation) : cache.Json :=
  {| cache.json_Unmarshal := fun data =>
       if String.eqb data "{entry}" then deeplx.Ok entry
       else deeplx.Err "unexpected end of JSON input";
     cache.json_Marshal := fun _ => deeplx.Ok "{entry}" |}.

(** The scope segment of a key: the shared sentinel, or the provider name
    in lower case. *)
Definition scopeSegment (g : cache.KeyGenerator) (service : string) : string :=
  if cache.shareAcrossServices g then cache.SharedServiceName
  else GoString.ToLower service.

(** The part of the SHA-256 digest that ends up in a key. *)
Definition digestPrefix (text sourceLang targetLang model : string) : list Z :=
  List.firstn 8
    (sha256.Sum256 (sha256.bytesOf (cache.normalized text sourceLang targetLang model))).

(** The value of a hexadecimal digit. *)
Definition unhex (c : ascii) : Z :=
  let b := GoString.byteZ c in if b <? 58 then b - 48 else b - 87.


(** *** Vocabulary for runs of the retrying client *)

(** The per-attempt timeout doRequest layers under the caller's context. *)
Definition attemptTimeout (t : deeplx.DeepLXTranslator) : option Z :=
  if 0 <? deeplx.requestTimeout t then Some (deeplx.requestTimeout t) else None.

(** How doRequest judges one round trip: the result it returns at once, or
    the error message it keeps and whether the failure counts as
    transient. *)
Inductive Verdict :=
| Done (r : deeplx.TranslationResult)
| Failed (msg : string) (transient : bool).

Definition verdict (up : deeplx.Upstream) (rt : deeplx.RoundTrip) : Verdict :=
  match rt with
  | deeplx.DoFailed err =>
    Failed ("请求失败: " ++ deeplx.te_Error err) (deeplx.shouldRetry (Some err))
  | deeplx.DoReplied status body (Some readErr) =>
    Failed ("读取响应失败: " ++ readErr) true
  | deeplx.DoReplied status body None =>
    if negb (status =? 200)
    then Failed ("HTTP " ++ itoa status ++ ": " ++ body) (deeplx.shouldRetryStatus status)
    else
      match deeplx.json_Unmarshal up body with
      | deeplx.Err err => Failed ("解析响应失败: " ++ err) true
      | deeplx.Ok translationResp =>
        Done {| deeplx.Success := true;
                deeplx.TranslatedText := deeplx.resp_Data translationResp;
                deeplx.SourceLang := deeplx.resp_SourceLang translationResp;
                deeplx.TargetLang := deeplx.resp_TargetLang translationResp;
                deeplx.ErrorMessage := "";
                deeplx.RawResponse := Some translationResp |}
      end
  end.

(** The runs of the loop of doRequest, as a big-step relation:
    [Run t up ctx url body attempt lastErr r tr] when the loop, entered at
    [attempt] with [lastErr], returns [r] after the events [tr]. *)
Inductive Run (t : deeplx.DeepLXTranslator) (up : deeplx.Upstream) (ctx : Context)
          (url body : string)
  : Z -> string -> deeplx.TranslationResult -> list deeplx.Event -> Prop :=
| Run_exhausted attempt lastErr :
    deeplx.maxRetryAttempt t < attempt ->
    Run t up ctx url body attempt lastErr (deeplx.failure lastErr) []
| Run_cancelled attempt lastErr err :
    attempt <= deeplx.maxRetryAttempt t ->
    ctx_Err ctx attempt = Some err ->
    Run t up ctx url body attempt lastErr (deeplx.failure ("请求已取消: " ++ err)) []
| Run_no_request attempt lastErr err :
    attempt <= deeplx.maxRetryAttempt t ->
    ctx_Err ctx attempt = None ->
    deeplx.NewRequestWithContext up url body = Some err ->
    Run t up ctx url body attempt lastErr (deeplx.failure ("创建请求失败: " ++ err)) []
| Run_done attempt lastErr r :
    attempt <= deeplx.maxRetryAttempt t ->
    ctx_Err ctx attempt = None ->
    deeplx.NewRequestWithContext up url body = None ->
    verdict up (deeplx.Do up attempt (attemptTimeout t) url body) = Done r ->
    Run t up ctx url body attempt lastErr r [deeplx.HttpDo attempt url body]
| Run_failed attempt lastErr msg transient :
    attempt <= deeplx.maxRetryAttempt t ->
    ctx_Err ctx attempt = None ->
    deeplx.NewRequestWithContext up url body = None ->
    verdict up (deeplx.Do up attempt (attemptTimeout t) url body) = Failed msg transient ->
    transient && (attempt <? deeplx.maxRetryAttempt t) = false ->
    Run t up ctx url body attempt lastErr (deeplx.failure msg)
        [deeplx.HttpDo attempt url body]
| Run_retry attempt lastErr msg r tr :
    attempt < deeplx.maxRetryAttempt t ->
    ctx_Err ctx attempt = None ->
    deeplx.NewRequestWithContext up url body = None ->
    verdict up (deeplx.Do up attempt (attemptTimeout t) url body) = Failed msg true ->
    Run t up ctx url body (attempt + 1) msg r tr ->
    Run t up ctx url body attempt lastErr r
        (deeplx.HttpDo attempt url body :: deeplx.Sleep (deeplx.backoff attempt) :: tr).

(** The time a run spends asleep. *)
Fixpoint totalSleep (tr : list deeplx.Event) : Z :=
  match tr with
  | [] => 0
  | deeplx.Sleep d :: tr' => d + totalSleep tr'
  | deeplx.HttpDo _ _ _ :: tr' => totalSleep tr'
  end.

(** The request the adapter hands to the client for (q, sl, tl). *)
Definition upstreamRequest (q sl tl : string) : deeplx.TranslationRequest :=
  {| deeplx.req_Text := q;
     deeplx.req_SourceLang :=
       if GoString.isEmpty sl || GoString.EqualFold sl "auto" then ""
       else GoString.ToUpper sl;
     deeplx.req_TargetLang := GoString.ToUpper tl |}.

(** The five codes the scan of DetectLanguage can answer. *)
Definition scanCodes : list string := ["zh-CN"; "ru"; "ja"; "ko"; "en"].

(** A text of ASCII bytes only. *)
Fixpoint isASCII (s : string) : bool :=
  match s with
  | EmptyString => true
  | String c s' => (GoString.byteZ c <? 128) && isASCII s'
  end.

(** The lower-cased codes NormalizeLanguageCode rewrites. *)
Definition rewrittenCodes : list (string * string) :=
  [("zh", "zh-CN"); ("zh-hans", "zh-CN"); ("zh-hant", "zh-TW");
   ("en-us", "en"); ("en-gb", "en-GB"); ("pt-br", "pt")].

(** A provider that rejects every request, one that always translates,
    and one whose transport fails for good. *)
Definition alwaysRejects : deeplx.Upstream :=
  {| deeplx.json_Marshal := stubMarshal;
     deeplx.json_Unmarshal := stubUnmarshal;
     deeplx.NewRequestWithContext := fun _ _ => None;
     deeplx.Do := fun _ _ _ _ => deeplx.DoReplied 403 "Forbidden" None |}.

Definition alwaysTranslates : deeplx.Upstream :=
  {| deeplx.json_Marshal := stubMarshal;
     deeplx.json_Unmarshal := stubUnmarshal;
     deeplx.NewRequestWithContext := fun _ _ => None;
     deeplx.Do := fun _ _ _ _ => deeplx.DoReplied 200 goodBody None |}.

(** A context cancelled from the second attempt on. *)
Definition cancelledLater : Context :=
  {| ctx_Err := fun attempt => if attempt <? 1 then None else Some "context canceled" |}.

(** The hexadecimal digits of encoding/hex. *)
Definition isHexDigit (c : ascii) : bool :=
  let b := GoString.byteZ c in
  ((48 <=? b) && (b <=? 57)) || ((97 <=? b) && (b <=? 102)).

Fixpoint allHex (s : string) : bool :=
  match s with
  | EmptyString => true
  | String c s' => isHexDigit c && allHex s'
  end.

(** The status of a handler reply. *)
Definition replyStatus (r : server.Reply) : Z :=
  match r with
  | server.ReplyError status _ => status
  | server.ReplyOK status _ => status
  end.

(** The call the handler makes for a payload that passed its checks. *)
Definition callFor (defaultModel : string) (payload : server.translateRequest)
  : server.ServiceCall :=
  let dt := match server.DT payload with [] => ["t"] | _ :: _ => server.DT payload end in
  let model := if GoString.isEmpty (server.Model payload) then defaultModel
               else server.Model payload in
  if GoString.isEmpty model
  then server.CallTranslate (server.Q payload) (server.SL payload) (server.TL payload) dt
  else server.CallTranslateWithModel (server.Q payload) (server.SL payload)
                                     (server.TL payload) dt model.

(** What the service answers to a call. *)
Definition answer (service : deeplx.TranslationService) (ctx : option Context)
           (c : server.ServiceCall) : Outcome ServiceResult :=
  match c with
  | server.CallTranslate q sl tl dt => deeplx.svc_Translate service ctx q sl tl dt
  | server.CallTranslateWithModel q sl tl dt model =>
    deeplx.svc_TranslateWithModel service ctx q sl tl dt model
  end.

(* ================================================================== *)
(** * Properties                                                       *)
(* ================================================================== *)

(** ** The language heuristic *)

Section DetectLanguageFacts.
Import GoString langutil.

Ltac ranges :=
  unfold IsCJK, IsCyrillic, IsJapanese, IsKorean in *;
  repeat match goal with
         | H : _ && _ = true |- _ => apply andb_prop in H; destruct H
         | H : _ || _ = true |- _ => apply orb_prop in H; destruct H
         | H : (_ <=? _) = true |- _ => apply Z.leb_le in H
         end.

Lemma cyrillic_not_cjk r : IsCyrillic r = true -> IsCJK r = false.
Proof.
  intros H. destruct (IsCJK r) eqn:E; [|reflexivity]. ranges; lia.
Qed.

Lemma japanese_not_earlier r :
  IsJapanese r = true -> IsCJK r = false /\ IsCyrillic r = false.
Proof.
  intros H. destruct (IsCJK r) eqn:E1; destruct (IsCyrillic r) eqn:E2;
    try (split; reflexivity); ranges; lia.
Qed.

Lemma korean_not_earlier r :
  IsKorean r = true ->
  IsCJK r = false /\ IsCyrillic r = false /\ IsJapanese r = false.
Proof.
  intros H.
  destruct (IsCJK r) eqn:E1; destruct (IsCyrillic r) eqn:E2;
    destruct (IsJapanese r) eqn:E3;
    try (repeat split; reflexivity); ranges; lia.
Qed.

Lemma detectLoop_skip pre rest :
  (forall x, In x pre -> unrecognized x) ->
  detectLoop (pre ++ rest) = detectLoop rest.
Proof.
  induction pre as [|x pre IH]; intros Hpre; [reflexivity|].
  destruct (Hpre x (or_introl eq_refl)) as (H1 & H2 & H3 & H4).
  cbn [app detectLoop]. rewrite H1, H2, H3, H4.
  apply IH. intros y Hy. apply Hpre. now right.
Qed.

Lemma detectLoop_none rs :
  (forall x, In x rs -> unrecognized x) -> detectLoop rs = "en".
Proof.
  intros H. rewrite <- (app_nil_r rs). now rewrite detectLoop_skip.
Qed.

Lemma detectLoop_first pre r post :
  (forall x, In x pre -> unrecognized x) ->
  (IsCJK r = true -> detectLoop (pre ++ r :: post) = "zh-CN") /\
  (IsCyrillic r = true -> detectLoop (pre ++ r :: post) = "ru") /\
  (IsJapanese r = true -> detectLoop (pre ++ r :: post) = "ja") /\
  (IsKorean r = true -> detectLoop (pre ++ r :: post) = "ko").
Proof.
  intros Hpre. rewrite detectLoop_skip by assumption. cbn [detectLoop].
  repeat split; intros H.
  - now rewrite H.
  - now rewrite (cyrillic_not_cjk r H), H.
  - destruct (japanese_not_earlier r H) as [-> ->]. now rewrite H.
  - destruct (korean_not_earlier r H) as (-> & -> & ->). now rewrite H.
Qed.

End DetectLanguageFacts.

(** C9 (as amended).  DetectLanguage is a function of its two arguments.
    When the requested language is not blank (not empty once white space is
    trimmed) and is not "auto" in any letter case, the result is its
    normalized form.  Otherwise the runes of the text are scanned in order:
    the first rune in a recognized range decides ("zh-CN" for CJK
    ideographs, "ru" for Cyrillic, "ja" for Hiragana and Katakana, "ko" for
    Hangul), and the result is "en" when no rune is in any range. *)
Theorem DetectLanguage_spec (text requested : string) :
  (GoString.isEmpty (GoString.TrimSpace requested) = false ->
   GoString.EqualFold requested "auto" = false ->
   langutil.DetectLanguage text requested = langutil.NormalizeLanguageCode requested)
  /\
  (GoString.isEmpty (GoString.TrimSpace requested) = true \/
   GoString.EqualFold requested "auto" = true ->
   (forall pre r post,
       GoString.runes text = (pre ++ r :: post)%list ->
       (forall x, In x pre -> unrecognized x) ->
       (langutil.IsCJK r = true -> langutil.DetectLanguage text requested = "zh-CN") /\
       (langutil.IsCyrillic r = true -> langutil.DetectLanguage text requested = "ru") /\
       (langutil.IsJapanese r = true -> langutil.DetectLanguage text requested = "ja") /\
       (langutil.IsKorean r = true -> langutil.DetectLanguage text requested = "ko"))
   /\
   ((forall x, In x (GoString.runes text) -> unrecognized x) ->
    langutil.DetectLanguage text requested = "en")).
Proof.
  unfold langutil.DetectLanguage. split.
  - intros -> ->. reflexivity.
  - intros Hscan.
    assert (negb (GoString.isEmpty (GoString.TrimSpace requested)) &&
            negb (GoString.EqualFold requested "auto") = false) as ->.
    { destruct Hscan as [-> | ->]; [reflexivity | apply andb_false_r]. }
    split.
    + intros pre r post -> Hpre. now apply detectLoop_first.
    + apply detectLoop_none.
Qed.

(** The amended C9 at work: a blank request and a Cyrillic text after two
    Latin letters; an explicit request. *)
Lemma DetectLanguage_spec_witness :
  langutil.DetectLanguage "ok Привет" "  " = "ru" /\
  langutil.DetectLanguage "任意文本" "FR" = "fr".
Proof.
  split.
  - refine (proj1 (proj2 (proj1 (proj2 (DetectLanguage_spec "ok Привет" "  ")
                                       (or_introl eq_refl))
                                [111; 107; 32] 1055 _ eq_refl _)) eq_refl).
    intros x [<- | [<- | [<- | []]]]; repeat split; reflexivity.
  - exact (proj1 (DetectLanguage_spec "任意文本" "FR") eq_refl eq_refl).
Defined.

(** C9 as stated fails: a requested language of one space is non-empty and
    is not the auto sentinel, yet the text is scanned and its normalized
    form (the space itself) is not what comes back. *)
Lemma DetectLanguage_blank_request_counterexample :
  let requested := " " in
  requested <> "" /\
  GoString.EqualFold requested "auto" = false /\
  langutil.NormalizeLanguageCode requested = " " /\
  langutil.DetectLanguage "Hello" requested = "en" /\
  langutil.DetectLanguage "Hello" requested <> langutil.NormalizeLanguageCode requested.
Proof.
  cbv zeta. repeat split; try reflexivity; discriminate.
Qed.

(** ** The retrying client *)

Section AttemptLoopFacts.
Import deeplx.
Variable t : DeepLXTranslator.
Variable up : Upstream.
Variable ctx : Context.
Variables url jsonData : string.

Lemma roundTrips_app tr1 tr2 :
  roundTrips (tr1 ++ tr2) = (roundTrips tr1 + roundTrips tr2)%nat.
Proof.
  unfold roundTrips. now rewrite filter_app, length_app.
Qed.

Lemma roundTrips_retryTrace u b attempt k :
  roundTrips (retryTrace u b attempt k) = k.
Proof.
  revert attempt. induction k as [|k IH]; intros attempt; [reflexivity|].
  cbn [retryTrace]. change (S (roundTrips (retryTrace u b (attempt + 1) k)) = S k).
  now rewrite IH.
Qed.

(** The shape of every run of the loop: with more fuel than iterations
    left it returns a result, after [k] failed attempts that were retried
    and at most one final round trip, the one numbered [attempt + k]. *)
Lemma attemptLoop_shape fuel :
  forall attempt lastErr,
    (iterationsLeft t attempt < fuel)%nat ->
    exists r k final,
      attemptLoop t up ctx url jsonData fuel attempt lastErr
      = (Some r, (retryTrace url jsonData attempt k ++ final)%list) /\
      (final = [] \/ final = [HttpDo (attempt + Z.of_nat k) url jsonData]) /\
      (k + List.length final <= iterationsLeft t attempt)%nat.
Proof.
  unfold iterationsLeft.
  induction fuel as [|fuel IH]; intros attempt lastErr Hfuel; [lia|].
  cbn [attemptLoop].
  destruct (attempt <=? maxRetryAttempt t) eqn:Hle; [apply Z.leb_le in Hle|].
  2:{ exists (failure lastErr), 0%nat, []. cbn. repeat split; auto; lia. }
  assert (forall e, (attempt <? maxRetryAttempt t) = true ->
            exists r k final,
              (let '(r, tr) := attemptLoop t up ctx url jsonData fuel (attempt + 1) e in
               (r, HttpDo attempt url jsonData :: Sleep (backoff attempt) :: tr))
              = (Some r, (retryTrace url jsonData attempt k ++ final)%list) /\
              (final = [] \/ final = [HttpDo (attempt + Z.of_nat k) url jsonData]) /\
              (k + List.length final <= Z.to_nat (maxRetryAttempt t + 1 - attempt))%nat)
    as Hretry.
  { intros e Hlt. apply Z.ltb_lt in Hlt.
    destruct (IH (attempt + 1) e) as (r & k & final & -> & Hfinal & Hb); [lia|].
    exists r, (S k), final. repeat split.
    - replace (attempt + Z.of_nat (S k)) with (attempt + 1 + Z.of_nat k) by lia.
      exact Hfinal.
    - lia. }
  assert (forall r0 : TranslationResult,
            exists r k final,
              (Some r0, [HttpDo attempt url jsonData])
              = (Some r, (retryTrace url jsonData attempt k ++ final)%list) /\
              (final = [] \/ final = [HttpDo (attempt + Z.of_nat k) url jsonData]) /\
              (k + List.length final <= Z.to_nat (maxRetryAttempt t + 1 - attempt))%nat)
    as Hstop.
  { intros r0. exists r0, 0%nat, [HttpDo attempt url jsonData]. cbn.
    rewrite Z.add_0_r. repeat split; auto; lia. }
  destruct (ctx_Err ctx attempt).
  { eexists _, 0%nat, []. cbn. repeat split; auto; lia. }
  destruct (NewRequestWithContext up url jsonData).
  { eexists _, 0%nat, []. cbn. repeat split; auto; lia. }
  destruct (Do up attempt _ url jsonData) as [err | status body [readErr|]].
  - destruct (attempt <? maxRetryAttempt t) eqn:Hlt; rewrite ?andb_false_r;
      [destruct (shouldRetry (Some err))|]; cbn [andb]; auto.
  - destruct (attempt <? maxRetryAttempt t) eqn:Hlt; auto.
  - destruct (negb (status =? 200)).
    + destruct (attempt <? maxRetryAttempt t) eqn:Hlt; rewrite ?andb_false_r;
        [destruct (shouldRetryStatus status)|]; cbn [andb]; auto.
    + destruct (json_Unmarshal up body); [auto|].
      destruct (attempt <? maxRetryAttempt t) eqn:Hlt; auto.
Qed.

End AttemptLoopFacts.

(** doRequest always returns a result: the fuel it starts the loop with is
    never used up. *)
Lemma doRequest_shape t up ctx req model :
  exists r k final,
    deeplx.doRequest t up ctx req model
    = (Some r, (retryTrace (deeplx.buildURL t model)
                           match deeplx.json_Marshal up req with
                           | deeplx.Ok d => d | deeplx.Err _ => "" end 0 k ++ final)%list) /\
    (k + List.length final <= Z.to_nat (deeplx.maxRetryAttempt t + 1))%nat.
Proof.
  unfold deeplx.doRequest.
  destruct (deeplx.json_Marshal up req) as [jsonData | err].
  - destruct (attemptLoop_shape t up (match ctx with None => Background | Some c => c end)
                (deeplx.buildURL t model) jsonData
                (S (Z.to_nat (deeplx.maxRetryAttempt t + 1))) 0 "")
      as (r & k & final & -> & _ & Hb).
    + unfold iterationsLeft. rewrite Z.sub_0_r. lia.
    + exists r, k, final. split; [reflexivity|].
      unfold iterationsLeft in Hb. now rewrite Z.sub_0_r in Hb.
  - exists (deeplx.failure ("序列化请求失败: " ++ err)), 0%nat, []. split; [reflexivity|].
    cbn. lia.
Qed.

(** C4.  NewTranslator configures two retries.  Whatever the translator,
    the upstream, the context, the request and the model, doRequest returns
    a result that is not nil, after at most [maxRetryAttempt + 1] round trips
    (none at all when that count is not positive). *)
Theorem doRequest_terminates_within_retries :
  (forall key t, deeplx.NewTranslator key = deeplx.Ok t -> deeplx.maxRetryAttempt t = 2) /\
  (forall t up ctx req model,
      exists r tr,
        deeplx.doRequest t up ctx req model = (Some r, tr) /\
        (deeplx.roundTrips tr <= Z.to_nat (deeplx.maxRetryAttempt t + 1))%nat /\
        (0 <= deeplx.maxRetryAttempt t ->
         Z.of_nat (deeplx.roundTrips tr) <= deeplx.maxRetryAttempt t + 1)).
Proof.
  split.
  - intros key t. unfold deeplx.NewTranslator.
    destruct (_ || _); [discriminate|]. now intros [= <-].
  - intros t up ctx req model.
    destruct (doRequest_shape t up ctx req model) as (r & k & final & -> & Hb).
    exists r. eexists. split; [reflexivity|].
    assert (deeplx.roundTrips final <= List.length final)%nat as Hf
        by apply List.filter_length_le.
    rewrite roundTrips_app, roundTrips_retryTrace. split; lia.
Qed.

(** The default translator against a provider that always fails: three
    round trips, and a result. *)
Lemma doRequest_terminates_within_retries_witness :
  deeplx.NewTranslator testAPIKey = deeplx.Ok testTranslator /\
  exists r tr,
    deeplx.doRequest testTranslator always500 None testRequest "" = (Some r, tr) /\
    Z.of_nat (deeplx.roundTrips tr) <= 2 + 1.
Proof.
  split; [reflexivity|].
  destruct (proj2 doRequest_terminates_within_retries
                  testTranslator always500 None testRequest "")
    as (r & tr & E & _ & H).
  exists r, tr. split; [exact E|]. apply H. cbn. lia.
Defined.

(** *** Back-off *)

Lemma wrap64_small x : - 2 ^ 63 <= x < 2 ^ 63 -> wrap64 x = x.
Proof.
  intros H. unfold wrap64. rewrite Z.mod_small; lia.
Qed.

(** Below 46116860184 attempts nothing overflows, and the back-off is 200ms
    times the number of attempts made so far. *)
Lemma backoff_no_overflow attempt :
  0 <= attempt < 46116860184 ->
  deeplx.backoff attempt = (attempt + 1) * (200 * Millisecond).
Proof.
  intros H. unfold deeplx.backoff, Millisecond.
  rewrite (wrap64_small (attempt + 1)) by lia.
  rewrite (wrap64_small (200 * (attempt + 1))) by lia.
  rewrite wrap64_small; lia.
Qed.

(** Every sleep of a run comes after as many round trips as the number of
    the attempt that failed, plus one. *)
Lemma retryTrace_sleep u b final :
  (forall d, ~ In (deeplx.Sleep d) final) ->
  forall k attempt pre d post,
    (retryTrace u b attempt k ++ final)%list = (pre ++ deeplx.Sleep d :: post)%list ->
    (1 <= deeplx.roundTrips pre <= k)%nat /\
    d = deeplx.backoff (attempt + Z.of_nat (deeplx.roundTrips pre) - 1).
Proof.
  intros Hfinal. induction k as [|k IH]; intros attempt pre d post E.
  - exfalso. apply (Hfinal d). cbn in E. rewrite E. apply in_elt.
  - cbn [retryTrace app] in E.
    destruct pre as [|x [|y pre]]; cbn [app] in E.
    + discriminate.
    + injection E as <- <- _. cbn. split; [lia|]. f_equal. lia.
    + injection E as <- <- E. apply IH in E. destruct E as [Hk ->].
      change (deeplx.roundTrips (deeplx.HttpDo attempt u b
                :: deeplx.Sleep (deeplx.backoff attempt) :: pre))
        with (S (deeplx.roundTrips pre)).
      split; [lia|]. f_equal. lia.
Qed.

Lemma doRequest_shape_final t up ctx req model :
  exists r k final,
    deeplx.doRequest t up ctx req model
    = (Some r, (retryTrace (deeplx.buildURL t model)
                           match deeplx.json_Marshal up req with
                           | deeplx.Ok d => d | deeplx.Err _ => "" end 0 k ++ final)%list) /\
    (forall d, ~ In (deeplx.Sleep d) final) /\
    (k <= Z.to_nat (deeplx.maxRetryAttempt t + 1))%nat.
Proof.
  unfold deeplx.doRequest.
  destruct (deeplx.json_Marshal up req) as [jsonData | err].
  - destruct (attemptLoop_shape t up (match ctx with None => Background | Some c => c end)
                (deeplx.buildURL t model) jsonData
                (S (Z.to_nat (deeplx.maxRetryAttempt t + 1))) 0 "")
      as (r & k & final & -> & Hfinal & Hb).
    + unfold iterationsLeft. rewrite Z.sub_0_r. lia.
    + exists r, k, final. split; [reflexivity|].
      unfold iterationsLeft in Hb. rewrite Z.sub_0_r in Hb. split; [|lia].
      intros d. destruct Hfinal as [-> | ->]; cbn; intuition discriminate.
  - exists (deeplx.failure ("序列化请求失败: " ++ err)), 0%nat, []. split; [reflexivity|].
    split; [intros d []|lia].
Qed.

(** What follows an attempt in a run: nothing, or the sleep of its
    back-off and then, unless the run ends there, the next attempt. *)
Lemma retryTrace_attempt u b final :
  forall k attempt,
    (final = [] \/ final = [deeplx.HttpDo (attempt + Z.of_nat k) u b]) ->
    forall pre a u' b' post,
      (retryTrace u b attempt k ++ final)%list
      = (pre ++ deeplx.HttpDo a u' b' :: post)%list ->
      a = attempt + Z.of_nat (deeplx.roundTrips pre) /\
      u' = u /\ b' = b /\
      (post = [] \/
       (deeplx.roundTrips pre < k)%nat /\
       exists post',
         post = deeplx.Sleep (deeplx.backoff a) :: post' /\
         (post' = [] \/ exists post'', post' = deeplx.HttpDo (a + 1) u b :: post'')).
Proof.
  induction k as [|k IH]; intros attempt Hfinal pre a u' b' post E.
  - cbn [retryTrace app] in E. destruct Hfinal as [-> | ->].
    + destruct pre; discriminate E.
    + destruct pre as [|x pre]; cbn [app] in E.
      * injection E as <- <- <- <-. split; [cbn; lia|].
        do 2 (split; [reflexivity|]). now left.
      * injection E as _ E. destruct pre; discriminate E.
  - cbn [retryTrace app] in E.
    assert (final = [] \/ final = [deeplx.HttpDo (attempt + 1 + Z.of_nat k) u b]) as Hfinal'.
    { destruct Hfinal as [-> | ->]; [now left | right]. do 2 f_equal. lia. }
    destruct pre as [|x [|y pre]]; cbn [app] in E.
    + injection E as <- <- <- <-. split; [cbn; lia|]. do 2 (split; [reflexivity|]). right.
      split; [cbn; lia|]. eexists. split; [reflexivity|].
      destruct k as [|k]; cbn [retryTrace app].
      * destruct Hfinal' as [-> | ->]; [now left | right].
        eexists. do 2 f_equal. lia.
      * right. eexists. reflexivity.
    + discriminate E.
    + injection E as <- <- E.
      destruct (IH (attempt + 1) Hfinal' pre a u' b' post E) as (-> & -> & -> & Hpost).
      change (deeplx.roundTrips (deeplx.HttpDo attempt u b
                :: deeplx.Sleep (deeplx.backoff attempt) :: pre))
        with (S (deeplx.roundTrips pre)).
      split; [lia|]. do 2 (split; [reflexivity|]).
      destruct Hpost as [-> | (Hlt & post' & -> & Hnext)]; [now left | right].
      split; [lia|]. exists post'. split; [reflexivity | exact Hnext].
Qed.

Lemma doRequest_shape_attempts t up ctx req model :
  exists r k final,
    deeplx.doRequest t up ctx req model
    = (Some r, (retryTrace (deeplx.buildURL t model)
                           match deeplx.json_Marshal up req with
                           | deeplx.Ok d => d | deeplx.Err _ => "" end 0 k ++ final)%list) /\
    (final = [] \/
     final = [deeplx.HttpDo (0 + Z.of_nat k) (deeplx.buildURL t model)
                match deeplx.json_Marshal up req with
                | deeplx.Ok d => d | deeplx.Err _ => "" end]) /\
    (k <= Z.to_nat (deeplx.maxRetryAttempt t + 1))%nat.
Proof.
  unfold deeplx.doRequest.
  destruct (deeplx.json_Marshal up req) as [jsonData | err].
  - destruct (attemptLoop_shape t up (match ctx with None => Background | Some c => c end)
                (deeplx.buildURL t model) jsonData
                (S (Z.to_nat (deeplx.maxRetryAttempt t + 1))) 0 "")
      as (r & k & final & -> & Hfinal & Hb).
    + unfold iterationsLeft. rewrite Z.sub_0_r. lia.
    + exists r, k, final. split; [reflexivity|].
      unfold iterationsLeft in Hb. rewrite Z.sub_0_r in Hb. split; [exact Hfinal | lia].
  - exists (deeplx.failure ("序列化请求失败: " ++ err)), 0%nat, []. split; [reflexivity|].
    split; [now left | lia].
Qed.

(** C5.  In every run of doRequest (with a retry count below the bound at
    which 64-bit durations overflow) each attempt is numbered by the
    attempts made before it, and an attempt that is not the end of the run
    is followed at once by one sleep that lasts the number of attempts
    made so far times 200ms; only after that sleep comes the next attempt
    (or the run ends, the context being done).  So two attempts are never
    made without that delay between them, and every sleep of the run lasts
    the number of attempts already made times 200ms. *)
Theorem backoff_is_linear t up ctx req model r tr :
  deeplx.maxRetryAttempt t < 46116860184 ->
  deeplx.doRequest t up ctx req model = (r, tr) ->
  (forall pre d post,
      tr = (pre ++ deeplx.Sleep d :: post)%list ->
      d = Z.of_nat (deeplx.roundTrips pre) * (200 * Millisecond)) /\
  (forall pre a u b post,
      tr = (pre ++ deeplx.HttpDo a u b :: post)%list ->
      a = Z.of_nat (deeplx.roundTrips pre) /\
      (post = [] \/
       exists post',
         post = deeplx.Sleep ((a + 1) * (200 * Millisecond)) :: post' /\
         (post' = [] \/ exists post'', post' = deeplx.HttpDo (a + 1) u b :: post''))).
Proof.
  intros Hmax Hrun. split.
  - intros pre d post ->.
    destruct (doRequest_shape_final t up ctx req model)
      as (r' & k & final & E & Hfinal & Hk).
    rewrite E in Hrun. injection Hrun as _ Htr.
    destruct (retryTrace_sleep _ _ final Hfinal k 0 pre d post Htr) as [Hpre ->].
    rewrite backoff_no_overflow by lia. f_equal. lia.
  - intros pre a u b post ->.
    destruct (doRequest_shape_attempts t up ctx req model)
      as (r' & k & final & E & Hfinal & Hk).
    rewrite E in Hrun. injection Hrun as _ Htr.
    destruct (retryTrace_attempt _ _ final k 0 Hfinal pre a u b post Htr)
      as (Ha & -> & -> & Hpost).
    split; [lia|].
    destruct Hpost as [-> | (Hlt & post' & -> & Hnext)]; [now left | right].
    exists post'. rewrite backoff_no_overflow by lia. split; [reflexivity | exact Hnext].
Qed.

(** The default translator against the always-500 stub: the run; its
    second sleep, which comes after two attempts and lasts 400ms; and what
    follows its first attempt. *)
Lemma backoff_is_linear_witness :
  deeplx.doRequest testTranslator always500 None testRequest ""
  = (Some (deeplx.failure "HTTP 500: Internal Server Error"),
     [deeplx.HttpDo 0 testURL testBody; deeplx.Sleep (200 * Millisecond);
      deeplx.HttpDo 1 testURL testBody; deeplx.Sleep (400 * Millisecond);
      deeplx.HttpDo 2 testURL testBody]) /\
  400 * Millisecond = Z.of_nat 2 * (200 * Millisecond) /\
  (0 = Z.of_nat (deeplx.roundTrips []) /\
   ([deeplx.Sleep (200 * Millisecond); deeplx.HttpDo 1 testURL testBody;
     deeplx.Sleep (400 * Millisecond); deeplx.HttpDo 2 testURL testBody] = [] \/
    exists post',
      [deeplx.Sleep (200 * Millisecond); deeplx.HttpDo 1 testURL testBody;
       deeplx.Sleep (400 * Millisecond); deeplx.HttpDo 2 testURL testBody]
      = deeplx.Sleep ((0 + 1) * (200 * Millisecond)) :: post' /\
      (post' = [] \/
       exists post'', post' = deeplx.HttpDo (0 + 1) testURL testBody :: post''))).
Proof.
  split; [reflexivity|].
  pose proof (backoff_is_linear testTranslator always500 None testRequest "" _ _
                                eq_refl eq_refl) as [Hsleep Hattempt].
  split.
  - exact (Hsleep [deeplx.HttpDo 0 testURL testBody; deeplx.Sleep (200 * Millisecond);
                   deeplx.HttpDo 1 testURL testBody]
                  (400 * Millisecond)
                  [deeplx.HttpDo 2 testURL testBody] eq_refl).
  - exact (Hattempt [] 0 testURL testBody
                    [deeplx.Sleep (200 * Millisecond);
                     deeplx.HttpDo 1 testURL testBody;
                     deeplx.Sleep (400 * Millisecond);
                     deeplx.HttpDo 2 testURL testBody] eq_refl).
Defined.

(** *** Malformed provider payloads *)

(** C3 (as amended).  An attempt that is answered with status 200 and a body
    that fails to deserialize is retried after the back-off sleep as long as
    attempts remain; on the last attempt (the one numbered maxRetryAttempt)
    the client stops with an unsuccessful result carrying the decode
    error. *)
Theorem malformed_body_retried_until_last_attempt
        t up ctx url jsonData fuel attempt lastErr timeout body err :
  attempt <= deeplx.maxRetryAttempt t ->
  ctx_Err ctx attempt = None ->
  deeplx.NewRequestWithContext up url jsonData = None ->
  timeout = (if 0 <? deeplx.requestTimeout t then Some (deeplx.requestTimeout t) else None) ->
  deeplx.Do up attempt timeout url jsonData = deeplx.DoReplied 200 body None ->
  deeplx.json_Unmarshal up body = deeplx.Err err ->
  (attempt < deeplx.maxRetryAttempt t ->
   exists r tr,
     deeplx.attemptLoop t up ctx url jsonData fuel (attempt + 1) ("解析响应失败: " ++ err)
     = (r, tr) /\
     deeplx.attemptLoop t up ctx url jsonData (S fuel) attempt lastErr
     = (r, deeplx.HttpDo attempt url jsonData :: deeplx.Sleep (deeplx.backoff attempt) :: tr))
  /\
  (attempt = deeplx.maxRetryAttempt t ->
   deeplx.attemptLoop t up ctx url jsonData (S fuel) attempt lastErr
   = (Some (deeplx.failure ("解析响应失败: " ++ err)), [deeplx.HttpDo attempt url jsonData])).
Proof.
  intros Hle Hctx Hnew -> Hdo Hjson.
  cbn [deeplx.attemptLoop].
  apply Z.leb_le in Hle. rewrite Hle, Hctx, Hnew, Hdo. cbn [Z.eqb Pos.eqb negb].
  rewrite Hjson. split.
  - intros Hlt. apply Z.ltb_lt in Hlt. rewrite Hlt.
    destruct (deeplx.attemptLoop t up ctx url jsonData fuel (attempt + 1) _) as [r tr].
    now exists r, tr.
  - intros ->. now rewrite Z.ltb_irrefl.
Qed.

(** The first attempt against [malformedOnce] is retried; the last attempt
    against [alwaysMalformed] ends the call. *)
Lemma malformed_body_retried_until_last_attempt_witness :
  (exists r tr,
      deeplx.attemptLoop testTranslator malformedOnce Background testURL testBody
                         3 1 "解析响应失败: invalid character '<' looking for beginning of value"
      = (r, tr) /\
      deeplx.attemptLoop testTranslator malformedOnce Background testURL testBody 4 0 ""
      = (r, deeplx.HttpDo 0 testURL testBody :: deeplx.Sleep (deeplx.backoff 0) :: tr)) /\
  deeplx.attemptLoop testTranslator alwaysMalformed Background testURL testBody 1 2 ""
  = (Some (deeplx.failure "解析响应失败: invalid character '<' looking for beginning of value"),
     [deeplx.HttpDo 2 testURL testBody]).
Proof.
  split.
  - apply (proj1 (malformed_body_retried_until_last_attempt
                    testTranslator malformedOnce Background testURL testBody 3 0 ""
                    (Some (10 * Second)) "<html>" _
                    ltac:(cbn; lia) eq_refl eq_refl eq_refl eq_refl eq_refl)).
    cbn; lia.
  - apply (proj2 (malformed_body_retried_until_last_attempt
                    testTranslator alwaysMalformed Background testURL testBody 0 2 ""
                    (Some (10 * Second)) "<html>" _
                    ltac:(cbn; lia) eq_refl eq_refl eq_refl eq_refl eq_refl)).
    reflexivity.
Defined.

(** C3 as stated fails: the first attempt is answered 200 with a body that
    does not deserialize, and the client sleeps, asks again and succeeds. *)
Lemma malformed_body_counterexample :
  deeplx.Do malformedOnce 0 (Some (10 * Second)) testURL testBody
  = deeplx.DoReplied 200 "<html>" None /\
  deeplx.json_Unmarshal malformedOnce "<html>"
  = deeplx.Err "invalid character '<' looking for beginning of value" /\
  deeplx.doRequest testTranslator malformedOnce None testRequest ""
  = (Some {| deeplx.Success := true;
             deeplx.TranslatedText := "你好，世界！";
             deeplx.SourceLang := "EN";
             deeplx.TargetLang := "ZH";
             deeplx.ErrorMessage := "";
             deeplx.RawResponse := Some goodResponse |},
     [deeplx.HttpDo 0 testURL testBody; deeplx.Sleep (200 * Millisecond);
      deeplx.HttpDo 1 testURL testBody]).
Proof.
  repeat split.
Qed.

(** *** An upstream that always answers 5xx *)

Section Always5xx.
Import deeplx.
Variable t : DeepLXTranslator.
Variable up : Upstream.
Variable ctx : Context.
Variables url jsonData : string.
Variable status : Z.
Variable body : string.

Hypothesis Hstatus : 500 <= status < 600.
Hypothesis Hdo : forall attempt timeout u d, Do up attempt timeout u d = DoReplied status body None.
Hypothesis Hnew : forall u d, NewRequestWithContext up u d = None.
Hypothesis Hctx : forall attempt, ctx_Err ctx attempt = None.

Lemma attemptLoop_5xx fuel :
  forall attempt lastErr,
    0 <= attempt <= maxRetryAttempt t ->
    (iterationsLeft t attempt < fuel)%nat ->
    attemptLoop t up ctx url jsonData fuel attempt lastErr
    = (Some (failure ("HTTP " ++ itoa status ++ ": " ++ body)),
       (retryTrace url jsonData attempt (Z.to_nat (maxRetryAttempt t - attempt))
          ++ [HttpDo (maxRetryAttempt t) url jsonData])%list).
Proof.
  unfold iterationsLeft.
  induction fuel as [|fuel IH]; intros attempt lastErr Hrange Hfuel; [lia|].
  cbn [attemptLoop].
  assert ((attempt <=? maxRetryAttempt t) = true) as -> by (apply Z.leb_le; lia).
  rewrite Hctx, Hnew, Hdo.
  assert ((status =? 200) = false) as -> by (apply Z.eqb_neq; lia).
  assert (shouldRetryStatus status = true) as ->.
  { unfold shouldRetryStatus. apply andb_true_intro.
    split; [apply Z.leb_le | apply Z.ltb_lt]; lia. }
  cbn [negb andb].
  destruct (attempt <? maxRetryAttempt t) eqn:Hlt.
  - apply Z.ltb_lt in Hlt. rewrite IH by lia.
    replace (Z.to_nat (maxRetryAttempt t - attempt))
      with (S (Z.to_nat (maxRetryAttempt t - (attempt + 1)))) by lia.
    reflexivity.
  - apply Z.ltb_ge in Hlt. replace attempt with (maxRetryAttempt t) by lia.
    now rewrite Z.sub_diag.
Qed.

End Always5xx.

Lemma doRequest_5xx t up ctx req model status body :
  0 <= deeplx.maxRetryAttempt t ->
  500 <= status < 600 ->
  (forall attempt timeout u d,
      deeplx.Do up attempt timeout u d = deeplx.DoReplied status body None) ->
  (forall u d, deeplx.NewRequestWithContext up u d = None) ->
  (forall rq, exists d, deeplx.json_Marshal up rq = deeplx.Ok d) ->
  neverDone ctx ->
  exists tr,
    deeplx.doRequest t up ctx req model
    = (Some (deeplx.failure ("HTTP " ++ itoa status ++ ": " ++ body)), tr) /\
    Z.of_nat (deeplx.roundTrips tr) = deeplx.maxRetryAttempt t + 1.
Proof.
  intros Hmax Hstatus Hdo Hnew Hmarshal Hctx.
  unfold deeplx.doRequest. destruct (Hmarshal req) as [d ->].
  rewrite (attemptLoop_5xx t up _ _ d status body Hstatus Hdo Hnew).
  - eexists. split; [reflexivity|].
    rewrite roundTrips_app, roundTrips_retryTrace. cbn. lia.
  - destruct ctx as [c|]; [now apply Hctx | reflexivity].
  - lia.
  - unfold iterationsLeft. lia.
Qed.

(** C2 (as amended).  Against an upstream that answers every round trip
    with the same 5xx status (500 in particular), doRequest makes
    [maxRetryAttempt + 1] round trips and returns an unsuccessful result
    whose message is that last HTTP error.  The adapter turns this result
    into the degraded response that echoes the original text, with a nil
    error.  When the inner service of the decorator returns an error, the
    decorator schedules no cache write, and whenever it called the inner
    service it returns that error. *)
Theorem upstream_5xx_exhausts_retries_then_degrades :
  (forall t up ctx req model status body,
      0 <= deeplx.maxRetryAttempt t ->
      500 <= status < 600 ->
      (forall attempt timeout u d,
          deeplx.Do up attempt timeout u d = deeplx.DoReplied status body None) ->
      (forall u d, deeplx.NewRequestWithContext up u d = None) ->
      (forall rq, exists d, deeplx.json_Marshal up rq = deeplx.Ok d) ->
      neverDone ctx ->
      (exists tr,
          deeplx.doRequest t up ctx req model
          = (Some (deeplx.failure ("HTTP " ++ itoa status ++ ": " ++ body)), tr) /\
          Z.of_nat (deeplx.roundTrips tr) = deeplx.maxRetryAttempt t + 1) /\
      (forall g q sl tl dt,
          deeplx.translator g = t ->
          fst (deeplx.Translate g up ctx q sl tl dt)
          = Return (Some (deeplx.buildErrorResponse q sl tl), None) /\
          fst (deeplx.TranslateWithModel g up ctx q sl tl dt model)
          = Return (Some (deeplx.buildErrorResponse q sl tl), None)))
  /\
  (forall c js ctx q sl tl dt model resp err,
      deeplx.svc_TranslateWithModel (cache.service c) ctx q sl tl dt model
      = Return (resp, Some err) ->
      cache.scheduledWrites (snd (cache.TranslateWithModel c js ctx q sl tl dt model)) = 0%nat /\
      (cache.innerCalls (snd (cache.TranslateWithModel c js ctx q sl tl dt model)) = 1%nat ->
       exists resp',
         fst (cache.TranslateWithModel c js ctx q sl tl dt model)
         = Return (resp', Some err))).
Proof.
  split.
  - intros t up ctx req model status body Hmax Hstatus Hdo Hnew Hmarshal Hctx.
    split; [now apply doRequest_5xx|].
    intros g q sl tl dt Hg. subst t.
    unfold deeplx.Translate, deeplx.TranslateWithModel, deeplx.doTranslate,
      deeplx.TranslateWithContext, deeplx.TranslateWithModelContext.
    split; destruct (_ && _);
      match goal with
      | |- context [deeplx.doRequest ?t ?u ?c ?r ?m] =>
        destruct (doRequest_5xx t u c r m status body Hmax Hstatus Hdo Hnew Hmarshal Hctx)
          as (tr & -> & _)
      end; reflexivity.
  - intros c js ctx q sl tl dt model resp err Hinner.
    unfold cache.TranslateWithModel. rewrite Hinner.
    destruct (cache.enabled c); [|split; [reflexivity | now exists resp]].
    destruct (cache.cache c) as [ch|]; [|split; [reflexivity | now exists resp]].
    destruct (cache.getFromCache js ch _) as [[cached|] [e|]];
      (split; [reflexivity | cbn; try discriminate; now exists None]).
Qed.

(** The default translator against the always-500 stub, and the decorator
    around an inner service that fails. *)
Lemma upstream_5xx_exhausts_retries_then_degrades_witness :
  fst (deeplx.Translate testGoogle always500 None "Test" "" "ZH" ["t"])
  = Return (Some (deeplx.buildErrorResponse "Test" "" "ZH"), None) /\
  cache.scheduledWrites
    (snd (cache.TranslateWithModel failingCached stubJson None "Test" "" "ZH" ["t"] ""))
  = 0%nat.
Proof.
  split.
  - refine (proj1 (proj2 (proj1 upstream_5xx_exhausts_retries_then_degrades
                            testTranslator always500 None testRequest ""
                            500 "Internal Server Error" _ _ _ _ _ _)
                         testGoogle "Test" "" "ZH" ["t"] eq_refl)).
    + cbn; lia.
    + lia.
    + reflexivity.
    + reflexivity.
    + intros rq. eexists. reflexivity.
    + intros c H. discriminate H.
  - exact (proj1 (proj2 upstream_5xx_exhausts_retries_then_degrades
                    failingCached stubJson None "Test" "" "ZH" ["t"] "" None "upstream unavailable"
                    eq_refl)).
Defined.

(** C2 as stated fails.  Scenario C, run through the adapter and the
    decorator with an empty cache: after the three round trips the caller
    gets the degraded response and a nil error, and the decorator has
    scheduled a cache write, whose goroutine stores the echoed text. *)
Lemma upstream_500_counterexample :
  let c := cachedService always500 emptyCache in
  let key := cache.GenerateCacheKey "DeepLX" "Test" "" "ZH" "" in
  let task := {| cache.wt_key := key; cache.wt_originalText := "Test";
                 cache.wt_sourceLang := ""; cache.wt_targetLang := "ZH";
                 cache.wt_model := "";
                 cache.wt_resp := Some (deeplx.buildErrorResponse "Test" "" "ZH") |} in
  deeplx.roundTrips (snd (deeplx.doRequest testTranslator always500 None testRequest "")) = 3%nat /\
  cache.TranslateWithModel c stubJson None "Test" "" "ZH" ["t"] ""
  = (Return (Some (deeplx.buildErrorResponse "Test" "" "ZH"), None),
     [cache.CacheGet key; cache.InnerCall "Test" "" "ZH" ["t"] ""; cache.GoSave task]) /\
  cache.scheduledWrites (snd (cache.TranslateWithModel c stubJson None "Test" "" "ZH" ["t"] ""))
  = 1%nat /\
  cache.saveToCache c stubJson 1700000000000 task
  = Return [cache.CacheSet key "{entry,version:1}" 0].
Proof.
  vm_compute. repeat split.
Qed.

(** ** The cache-aside decorator *)

(** The adapter itself always reports a language-detection block and never
    an error, whatever the upstream does. *)
Lemma adapter_reports_detection g up ctx q sl tl dt :
  exists resp,
    fst (deeplx.Translate g up ctx q sl tl dt) = Return (Some resp, None) /\
    translation.LDResult resp <> None.
Proof.
  unfold deeplx.Translate, deeplx.doTranslate, deeplx.TranslateWithContext.
  destruct (_ && _);
    match goal with
    | |- context [deeplx.doRequest ?t ?u ?c ?r ?m] =>
      destruct (doRequest_shape t u c r m) as (res & k & final & -> & _)
    end;
    (destruct (deeplx.Success res); cbn;
     eexists; (split; [reflexivity | discriminate])).
Qed.

(** C1 fails on the cache-hit path.  The decorator around the adapter, with
    a cache that holds a current-version entry for the request
    ("Hello, world!", "EN", "ZH"): the call returns the response rebuilt
    from the entry, whose language-detection block is nil, together with a
    nil error. *)
Theorem cache_hit_response_has_no_LDResult :
  let c := cachedService always500 (cacheHolding helloKey "{entry,version:1}") in
  exists resp,
    cache.TranslateWithModel c stubJson None "Hello, world!" "EN" "ZH" ["t"] ""
    = (Return (Some resp, None), [cache.CacheGet helloKey]) /\
    resp = cache.buildResponseFromCache entryV1 /\
    translation.LDResult resp = None.
Proof.
  cbv zeta. eexists. split; [vm_compute; reflexivity|]. split; reflexivity.
Qed.

Lemma getFromCache_stale js ch key data cached :
  cache.Get ch key = (Some data, None) ->
  cache.json_Unmarshal js data = deeplx.Ok cached ->
  cache.Version cached <> cache.CacheFormatVersion ->
  cache.getFromCache js ch key = (None, None).
Proof.
  intros Hget Hjson Hver. unfold cache.getFromCache. rewrite Hget, Hjson.
  apply Z.eqb_neq in Hver. now rewrite Hver.
Qed.

Lemma getFromCache_absent js ch key :
  cache.Get ch key = (None, None) -> cache.getFromCache js ch key = (None, None).
Proof.
  intros Hget. unfold cache.getFromCache. now rewrite Hget.
Qed.

(** C7.  A cached entry whose version is not the current format version is
    never handed to the caller: the lookup answers as for an absent key, the
    inner service is called once, what it returns is what the caller gets,
    and the whole call is the one the decorator makes when the key is
    absent. *)
Theorem stale_version_is_a_miss c js ch ctx q sl tl dt model data cached :
  cache.enabled c = true ->
  cache.cache c = Some ch ->
  cache.Get ch (requestKey c q sl tl model) = (Some data, None) ->
  cache.json_Unmarshal js data = deeplx.Ok cached ->
  cache.Version cached <> cache.CacheFormatVersion ->
  cache.getFromCache js ch (requestKey c q sl tl model) = (None, None) /\
  cache.innerCalls (snd (cache.TranslateWithModel c js ctx q sl tl dt model)) = 1%nat /\
  fst (cache.TranslateWithModel c js ctx q sl tl dt model)
  = passedOn (deeplx.svc_TranslateWithModel (cache.service c) ctx q sl tl dt model) /\
  (forall absent,
      cache.Get absent (requestKey c q sl tl model) = (None, None) ->
      cache.TranslateWithModel c js ctx q sl tl dt model
      = cache.TranslateWithModel (withCache c absent) js ctx q sl tl dt model).
Proof.
  intros Hen Hch Hget Hjson Hver.
  pose proof (getFromCache_stale js ch _ data cached Hget Hjson Hver) as Hmiss.
  split; [exact Hmiss|].
  unfold cache.TranslateWithModel, requestKey in *. cbn [withCache cache.enabled cache.cache
    cache.service cache.keyGenerator].
  rewrite Hen, Hch, Hmiss.
  repeat split.
  - destruct (deeplx.svc_TranslateWithModel _ _ _ _ _ _ _) as [[resp [err|]]|msg]; reflexivity.
  - destruct (deeplx.svc_TranslateWithModel _ _ _ _ _ _ _) as [[resp [err|]]|msg]; reflexivity.
  - intros absent Habsent. now rewrite (getFromCache_absent js absent _ Habsent).
Qed.

(** Scenario E: the entry stored under the key carries version 0. *)
Lemma stale_version_is_a_miss_witness :
  let c := cachedService malformedOnce (cacheHolding helloKey "{entry,version:0}") in
  cache.innerCalls (snd (cache.TranslateWithModel c stubJson None "Hello, world!" "EN" "ZH" ["t"] ""))
  = 1%nat /\
  cache.TranslateWithModel c stubJson None "Hello, world!" "EN" "ZH" ["t"] ""
  = cache.TranslateWithModel (withCache c emptyCache) stubJson None "Hello, world!" "EN" "ZH" ["t"] "".
Proof.
  cbv zeta.
  pose proof (stale_version_is_a_miss
                (cachedService malformedOnce (cacheHolding helloKey "{entry,version:0}"))
                stubJson (cacheHolding helloKey "{entry,version:0}")
                None "Hello, world!" "EN" "ZH" ["t"] "" "{entry,version:0}" entryV0
                eq_refl eq_refl
                ltac:(vm_compute; reflexivity) eq_refl ltac:(discriminate)) as H.
  split.
  - exact (proj1 (proj2 H)).
  - exact (proj2 (proj2 (proj2 H)) emptyCache eq_refl).
Defined.

(** *** Round trip through the cached shape *)

Lemma str_app_nil_r (s : string) : s ++ "" = s.
Proof. induction s as [|c s IH]; cbn; [reflexivity | now rewrite IH]. Qed.

Lemma str_app_assoc (a b c : string) : (a ++ b) ++ c = a ++ b ++ c.
Proof. induction a as [|x a IH]; cbn; [reflexivity | now rewrite IH]. Qed.

Lemma concat_empty_sep_cons (x : string) (l : list string) :
  String.concat "" (x :: l) = x ++ String.concat "" l.
Proof.
  destruct l as [|y l]; cbn [String.concat]; [now rewrite str_app_nil_r | reflexivity].
Qed.

(** The loop [translatedText += sentence.Trans] computes the concatenation. *)
Lemma accumulate_translations (l : list translation.Sentence) (acc : string) :
  List.fold_left (fun acc sentence => acc ++ translation.Trans sentence) l acc
  = acc ++ String.concat "" (List.map translation.Trans l).
Proof.
  revert acc. induction l as [|x l IH]; intros acc.
  - cbn. now rewrite str_app_nil_r.
  - cbn [List.fold_left List.map]. rewrite IH, concat_empty_sep_cons.
    apply str_app_assoc.
Qed.

(** C8.  The response rebuilt from the entry that buildCachedTranslation
    makes of a response starts with a sentence pair whose translated text
    is the entry's stored translated text, which is the concatenation of the
    translations of the sentences of the original response. *)
Theorem cached_translation_round_trip c now originalText sourceLang targetLang model resp :
  let cached :=
    cache.buildCachedTranslation c now originalText sourceLang targetLang model resp in
  exists first rest,
    translation.Sentences (cache.buildResponseFromCache cached) = first :: rest /\
    translation.Trans first = cache.TranslatedText cached /\
    cache.TranslatedText cached
    = String.concat "" (List.map translation.Trans (translation.Sentences resp)).
Proof.
  cbv zeta. eexists _, _. split; [reflexivity|]. split; [reflexivity|].
  cbn [cache.buildCachedTranslation cache.TranslatedText].
  destruct (translation.Sentences resp) as [|x l] eqn:E; [reflexivity|].
  now rewrite accumulate_translations.
Qed.

(** *** Which blocks a response carries *)

(** C10 (as amended).  On the live path (convertToGoogleFormat) the
    sentence block holds the translation pair exactly when "t" is requested
    and the transliteration pair exactly when "rm" is (for a text of ASCII
    bytes its transliteration is the text in upper case), the dictionary,
    spell-check and examples blocks are present exactly when "bd", "qca"
    and "ex" are requested, and there are no alternative translations.  The
    degraded response and the response rebuilt from the cache do not look
    at the requested fields: both carry exactly one sentence pair and no
    dictionary, spell-check or examples block. *)
Theorem blocks_follow_requested_fields :
  (forall q result dt,
      let resp := deeplx.convertToGoogleFormat q result dt in
      (exists translit,
          translation.Sentences resp
          = ((if langutil.Includes dt "t"
              then [translationSentence q (deeplx.TranslatedText result)] else [])
               ++ (if langutil.Includes dt "rm"
                   then [translitSentence q translit] else []))%list /\
          (isASCII q = true -> translit = GoString.ToUpper q)) /\
      (translation.Sentences resp <> [] <->
       langutil.Includes dt "t" = true \/ langutil.Includes dt "rm" = true) /\
      (translation.Dict resp <> [] <-> langutil.Includes dt "bd" = true) /\
      (translation.Spell resp <> None <-> langutil.Includes dt "qca" = true) /\
      (translation.ExamplesBlock resp <> None <-> langutil.Includes dt "ex" = true) /\
      translation.AlternativeTranslations resp = [])
  /\
  (forall q sl tl,
      let resp := deeplx.buildErrorResponse q sl tl in
      translation.Sentences resp = [plainSentence q q] /\
      translation.Dict resp = [] /\
      translation.Spell resp = None /\
      translation.ExamplesBlock resp = None /\
      translation.AlternativeTranslations resp = [])
  /\
  (forall cached,
      let resp := cache.buildResponseFromCache cached in
      translation.Sentences resp
      = [plainSentence (cache.OriginalText cached) (cache.TranslatedText cached)] /\
      translation.Dict resp = [] /\
      translation.Spell resp = None /\
      translation.ExamplesBlock resp = None).
Proof.
  split; [|split].
  - intros q result dt. cbv zeta.
    unfold deeplx.convertToGoogleFormat.
    cbn [translation.Sentences translation.Dict translation.Spell
         translation.ExamplesBlock translation.AlternativeTranslations].
    split; [exists (GoString.ToUpper q); split; [|reflexivity];
            destruct (langutil.Includes dt "t"), (langutil.Includes dt "rm");
            reflexivity|].
    destruct (langutil.Includes dt "t"), (langutil.Includes dt "rm"),
      (langutil.Includes dt "bd"), (langutil.Includes dt "qca"),
      (langutil.Includes dt "ex"); cbn [app];
      repeat split; intros; try reflexivity; try discriminate; try tauto;
      try (destruct H; discriminate); try (exfalso; apply H; reflexivity).
  - intros q sl tl. cbv zeta. repeat split.
  - intros cached. cbv zeta. repeat split.
Qed.

(** C10 as stated fails on both paths that ignore the requested fields.
    Only the dictionary is requested: the degraded response of the adapter
    (the upstream answers 500) and the response rebuilt from a cached entry
    each carry a sentence pair. *)
Lemma unrequested_sentence_counterexample :
  let dt := ["bd"] in
  langutil.Includes dt "t" = false /\
  langutil.Includes dt "rm" = false /\
  (exists resp,
      fst (deeplx.Translate testGoogle always500 None "Test" "EN" "ZH" dt)
      = Return (Some resp, None) /\
      translation.Sentences resp = [plainSentence "Test" "Test"]) /\
  (exists resp,
      fst (cache.TranslateWithModel
             (cachedService always500 (cacheHolding helloKey "{entry,version:1}"))
             stubJson None "Hello, world!" "EN" "ZH" dt "")
      = Return (Some resp, None) /\
      translation.Sentences resp = [plainSentence "Hello, world!" "你好，世界！"]).
Proof.
  cbv zeta. split; [reflexivity|]. split; [reflexivity|].
  split; eexists; (split; [vm_compute; reflexivity | reflexivity]).
Qed.

(** ** Cache keys *)

(** *** Strings as lists *)



Lemma str_app_inv_head (a b c : string) : a ++ b = a ++ c -> b = c.
Proof. induction a as [|x a IH]; cbn; [auto | intros [= H]; auto]. Qed.


Lemma str_length_app (a b : string) :
  String.length (a ++ b) = (String.length a + String.length b)%nat.
Proof. induction a as [|x a IH]; cbn; [reflexivity | now rewrite IH]. Qed.

(** Two concatenations with tails of one length agree part by part. *)
Lemma str_app_same_tail_length (a b c d : string) :
  a ++ c = b ++ d -> String.length c = String.length d -> a = b /\ c = d.
Proof.
  revert b. induction a as [|x a IH]; intros [|y b] H Hlen; cbn in H.
  - auto.
  - apply (f_equal String.length) in H. cbn in H. rewrite str_length_app in H. lia.
  - apply (f_equal String.length) in H. cbn in H. rewrite str_length_app in H. lia.
  - injection H as -> H. destruct (IH b H Hlen) as [-> ->]. auto.
Qed.

(** *** The digest *)

Lemma round_length st kw : List.length (sha256.round st kw) = List.length st.
Proof.
  destruct st as [|a [|b [|c [|d [|e [|f [|g [|h [|i l]]]]]]]]]; reflexivity.
Qed.

Lemma rounds_length kws : forall st,
    List.length (List.fold_left sha256.round kws st) = List.length st.
Proof.
  induction kws as [|kw kws IH]; intros st; cbn [List.fold_left]; [reflexivity|].
  now rewrite IH, round_length.
Qed.

Lemma compress_length st block :
  List.length (sha256.compress st block) = List.length st.
Proof.
  unfold sha256.compress.
  rewrite length_map, length_combine, rounds_length. apply Nat.min_id.
Qed.

Lemma blocks_length blocks : forall st,
    List.length (List.fold_left sha256.compress blocks st) = List.length st.
Proof.
  induction blocks as [|b blocks IH]; intros st; cbn [List.fold_left]; [reflexivity|].
  now rewrite IH, compress_length.
Qed.

Lemma bytesOfWord_length n x : List.length (sha256.bytesOfWord n x) = n.
Proof.
  unfold sha256.bytesOfWord. now rewrite length_map, length_rev, length_seq.
Qed.

Lemma flat_map_bytes_length (ws : list Z) :
  List.length (List.flat_map (sha256.bytesOfWord 4) ws) = (4 * List.length ws)%nat.
Proof.
  induction ws as [|w ws IH]; [reflexivity|].
  cbn [List.flat_map]. rewrite length_app, bytesOfWord_length, IH. cbn [List.length]. lia.
Qed.

(** A digest has 32 bytes. *)
Lemma Sum256_length msg : List.length (sha256.Sum256 msg) = 32%nat.
Proof.
  unfold sha256.Sum256. rewrite flat_map_bytes_length, blocks_length. reflexivity.
Qed.

Lemma Sum256_bytes msg : Forall (fun b => 0 <= b < 256) (sha256.Sum256 msg).
Proof.
  unfold sha256.Sum256. apply Forall_forall. intros b Hb.
  apply in_flat_map in Hb. destruct Hb as (w & _ & Hb).
  unfold sha256.bytesOfWord in Hb. apply in_map_iff in Hb.
  destruct Hb as (i & <- & _). apply Z.mod_pos_bound. lia.
Qed.

Lemma digestPrefix_length text sl tl model :
  List.length (digestPrefix text sl tl model) = 8%nat.
Proof.
  unfold digestPrefix. rewrite length_firstn, Sum256_length. reflexivity.
Qed.

Lemma digestPrefix_bytes text sl tl model :
  Forall (fun b => 0 <= b < 256) (digestPrefix text sl tl model).
Proof.
  unfold digestPrefix. apply Forall_forall. intros b Hb.
  pose proof (Sum256_bytes (sha256.bytesOf (cache.normalized text sl tl model))) as H.
  rewrite Forall_forall in H. apply H.
  rewrite <- (firstn_skipn 8). apply in_or_app. now left.
Qed.

(** *** Hexadecimal *)

Lemma unhex_hexDigit d : 0 <= d < 16 -> unhex (sha256.hexDigit d) = d.
Proof.
  intros H.
  assert (d = 0 \/ d = 1 \/ d = 2 \/ d = 3 \/ d = 4 \/ d = 5 \/ d = 6 \/ d = 7 \/
          d = 8 \/ d = 9 \/ d = 10 \/ d = 11 \/ d = 12 \/ d = 13 \/ d = 14 \/ d = 15)
    as Hd by lia.
  repeat (destruct Hd as [-> | Hd]; [reflexivity|]). now subst d.
Qed.

Lemma EncodeToString_length bs :
  String.length (sha256.EncodeToString bs) = (2 * List.length bs)%nat.
Proof.
  induction bs as [|b bs IH]; [reflexivity|].
  cbn [sha256.EncodeToString String.length List.length]. rewrite IH. lia.
Qed.

Lemma EncodeToString_inj bs1 :
  forall bs2,
    Forall (fun b => 0 <= b < 256) bs1 ->
    Forall (fun b => 0 <= b < 256) bs2 ->
    sha256.EncodeToString bs1 = sha256.EncodeToString bs2 -> bs1 = bs2.
Proof.
  induction bs1 as [|b1 bs1 IH]; intros [|b2 bs2] H1 H2 E; cbn in E;
    try reflexivity; try discriminate.
  inversion H1 as [|? ? Hb1 H1']; subst. inversion H2 as [|? ? Hb2 H2']; subst.
  injection E as Ehi Elo E.
  apply (f_equal unhex) in Ehi, Elo.
  assert (forall b, 0 <= b < 256 -> 0 <= b / 16 < 16) as Hhi
      by (intros b Hb; split; [apply Z.div_pos | apply Z.div_lt_upper_bound]; lia).
  assert (forall b, 0 <= b mod 16 < 16) as Hlo
      by (intros b; apply Z.mod_pos_bound; lia).
  rewrite !unhex_hexDigit in Ehi, Elo by auto.
  f_equal; [|now apply IH].
  rewrite (Z.div_mod b1 16), (Z.div_mod b2 16) by lia. now rewrite Ehi, Elo.
Qed.

(** *** The key *)

Lemma Generate_unfold g service text sl tl model :
  cache.Generate g service text sl tl model
  = ("translate:" ++ scopeSegment g service)
      ++ ":" ++ sha256.EncodeToString (digestPrefix text sl tl model).
Proof.
  unfold cache.Generate, scopeSegment, cache.computeHash, digestPrefix, cache.KeyPrefix.
  destruct (cache.shareAcrossServices g); now rewrite !str_app_assoc.
Qed.

Lemma Generate_eq_iff g1 g2 service1 service2 text1 text2 sl1 sl2 tl1 tl2 model1 model2 :
  cache.Generate g1 service1 text1 sl1 tl1 model1
  = cache.Generate g2 service2 text2 sl2 tl2 model2
  <->
  scopeSegment g1 service1 = scopeSegment g2 service2 /\
  digestPrefix text1 sl1 tl1 model1 = digestPrefix text2 sl2 tl2 model2.
Proof.
  rewrite !Generate_unfold. split.
  - intros H. apply str_app_same_tail_length in H.
    + destruct H as [Hscope Hhex]. split.
      * now apply str_app_inv_head in Hscope.
      * injection Hhex as Hhex.
        apply EncodeToString_inj in Hhex; auto using digestPrefix_bytes.
    + cbn [String.append String.length].
      now rewrite !EncodeToString_length, !digestPrefix_length.
  - now intros [-> ->].
Qed.





(* ================================================================== *)
(** * Further properties of the code                                   *)
(* ================================================================== *)

(** ** Runs of the retrying client *)

Section RunFacts.
Import deeplx.
Variable t : DeepLXTranslator.
Variable up : Upstream.
Variable ctx : Context.
Variables url jsonData : string.

(** One iteration of the loop, by the verdict on its round trip. *)
Lemma attemptLoop_step fuel attempt lastErr :
  attemptLoop t up ctx url jsonData (S fuel) attempt lastErr
  = if attempt <=? maxRetryAttempt t then
      match ctx_Err ctx attempt with
      | Some err => (Some (failure ("请求已取消: " ++ err)), [])
      | None =>
        match NewRequestWithContext up url jsonData with
        | Some err => (Some (failure ("创建请求失败: " ++ err)), [])
        | None =>
          match verdict up (Do up attempt (attemptTimeout t) url jsonData) with
          | Done r => (Some r, [HttpDo attempt url jsonData])
          | Failed msg transient =>
            if transient && (attempt <? maxRetryAttempt t)
            then
              let '(r, tr) :=
                attemptLoop t up ctx url jsonData fuel (attempt + 1) msg in
              (r, HttpDo attempt url jsonData :: Sleep (backoff attempt) :: tr)
            else (Some (failure msg), [HttpDo attempt url jsonData])
          end
        end
      end
    else (Some (failure lastErr), []).
Proof.
  cbn [attemptLoop]. unfold verdict, attemptTimeout.
  destruct (attempt <=? maxRetryAttempt t); [|reflexivity].
  destruct (ctx_Err ctx attempt); [reflexivity|].
  destruct (NewRequestWithContext up url jsonData); [reflexivity|].
  destruct (Do up attempt _ url jsonData) as [err | status body [readErr|]];
    try reflexivity.
  destruct (negb (status =? 200)); [reflexivity|].
  destruct (json_Unmarshal up body); reflexivity.
Qed.

(** Whatever the loop returns, it returns by a run. *)
Lemma attemptLoop_Run fuel :
  forall attempt lastErr r tr,
    attemptLoop t up ctx url jsonData fuel attempt lastErr = (Some r, tr) ->
    Run t up ctx url jsonData attempt lastErr r tr.
Proof.
  induction fuel as [|fuel IH]; intros attempt lastErr r tr E; [discriminate|].
  rewrite attemptLoop_step in E.
  destruct (attempt <=? maxRetryAttempt t) eqn:Hle.
  2:{ apply Z.leb_gt in Hle. injection E as <- <-. now constructor. }
  apply Z.leb_le in Hle.
  destruct (ctx_Err ctx attempt) as [err|] eqn:Hctx.
  { injection E as <- <-. now constructor. }
  destruct (NewRequestWithContext up url jsonData) as [err|] eqn:Hnew.
  { injection E as <- <-. now constructor. }
  destruct (verdict up _) as [r0 | msg transient] eqn:Hv.
  { injection E as <- <-. now constructor. }
  destruct (transient && (attempt <? maxRetryAttempt t)) eqn:Hretry.
  - apply andb_prop in Hretry. destruct Hretry as [-> Hlt]. apply Z.ltb_lt in Hlt.
    destruct (attemptLoop t up ctx url jsonData fuel (attempt + 1) msg) as [r' tr'] eqn:E'.
    injection E as -> <-. eapply Run_retry; eauto.
  - injection E as <- <-. eapply Run_failed; eauto.
Qed.

(** A run sends a request only while the context is live, numbers its
    attempts within 0 .. maxRetryAttempt from where it starts, and always
    sends the same URL and body. *)
Lemma Run_requests attempt lastErr r tr :
  Run t up ctx url jsonData attempt lastErr r tr ->
  forall a u b,
    In (HttpDo a u b) tr ->
    attempt <= a <= maxRetryAttempt t /\ ctx_Err ctx a = None /\
    u = url /\ b = jsonData.
Proof.
  induction 1 as [ | | | attempt e r Hle Hctx Hnew Hv
                   | attempt e msg tr Hle Hctx Hnew Hv Hstop
                   | attempt e msg r tr Hlt Hctx Hnew Hv Hrun IH ];
    intros a u b Hin; cbn in Hin.
  - contradiction.
  - contradiction.
  - contradiction.
  - destruct Hin as [[= <- <- <-] | []]. repeat split; auto; lia.
  - destruct Hin as [[= <- <- <-] | []]. repeat split; auto; lia.
  - destruct Hin as [[= <- <- <-] | [Hin | Hin]].
    + repeat split; auto; lia.
    + discriminate.
    + destruct (IH a u b Hin) as (Ha & Hrest). split; [lia | exact Hrest].
Qed.

(** An attempt is followed by a sleep, and so by another attempt, only
    when its round trip failed in a way that counts as transient and
    retries were left. *)
Lemma Run_retried attempt lastErr r tr :
  Run t up ctx url jsonData attempt lastErr r tr ->
  forall pre a u b d post,
    tr = (pre ++ HttpDo a u b :: Sleep d :: post)%list ->
    a < maxRetryAttempt t /\
    exists msg, verdict up (Do up a (attemptTimeout t) url jsonData) = Failed msg true.
Proof.
  induction 1 as [ | | | attempt e r Hle Hctx Hnew Hv
                   | attempt e msg tr Hle Hctx Hnew Hv Hstop
                   | attempt e msg r tr Hlt Hctx Hnew Hv Hrun IH ];
    intros pre a u b d post E.
  - now destruct pre.
  - now destruct pre.
  - now destruct pre.
  - destruct pre as [|x [|y pre]]; discriminate.
  - destruct pre as [|x [|y pre]]; discriminate.
  - destruct pre as [|x [|y pre]]; cbn [app] in E.
    + injection E as <- _ _ _ _. split; [assumption | now exists msg].
    + discriminate.
    + injection E as _ _ E. now apply (IH pre a u b d post).
Qed.

(** A successful result is the decoded body of a 200 answer to the last
    request of the run, and carries no error message. *)
Lemma Run_success attempt lastErr r tr :
  Run t up ctx url jsonData attempt lastErr r tr ->
  Success r = true ->
  exists a pre body translationResp,
    tr = (pre ++ [HttpDo a url jsonData])%list /\
    Do up a (attemptTimeout t) url jsonData = DoReplied 200 body None /\
    json_Unmarshal up body = Ok translationResp /\
    TranslatedText r = resp_Data translationResp /\
    SourceLang r = resp_SourceLang translationResp /\
    TargetLang r = resp_TargetLang translationResp /\
    RawResponse r = Some translationResp /\
    ErrorMessage r = "".
Proof.
  induction 1 as [ | | | attempt e r Hle Hctx Hnew Hv
                   | attempt e msg tr Hle Hctx Hnew Hv Hstop
                   | attempt e msg r tr Hlt Hctx Hnew Hv Hrun IH ];
    intros Hok; try discriminate.
  - unfold verdict in Hv.
    destruct (Do up attempt _ url jsonData) as [err | status body [readErr|]] eqn:Hdo;
      try discriminate.
    destruct (negb (status =? 200)) eqn:Hs; [discriminate|].
    apply negb_false_iff, Z.eqb_eq in Hs. subst status.
    destruct (json_Unmarshal up body) as [translationResp | err] eqn:Hj; [|discriminate].
    injection Hv as <-.
    exists attempt, [], body, translationResp. repeat split; auto.
  - destruct (IH Hok) as (a & pre & body & translationResp & -> & Hrest).
    exists a, (HttpDo attempt url jsonData :: Sleep (backoff attempt) :: pre),
      body, translationResp.
    split; [reflexivity | exact Hrest].
Qed.

Lemma verdict_message rt msg transient :
  verdict up rt = Failed msg transient -> msg <> "".
Proof.
  unfold verdict.
  destruct rt as [err | status body [readErr|]]; try (intros [= <- _]; discriminate).
  destruct (negb (status =? 200)); [intros [= <- _]; discriminate|].
  destruct (json_Unmarshal up body); [discriminate | intros [= <- _]; discriminate].
Qed.

(** A run entered within the retry budget never fails without saying why,
    and a failed result carries no translation. *)
Lemma Run_failure attempt lastErr r tr :
  Run t up ctx url jsonData attempt lastErr r tr ->
  attempt <= maxRetryAttempt t ->
  Success r = false ->
  ErrorMessage r <> "" /\ TranslatedText r = "" /\ RawResponse r = None.
Proof.
  induction 1 as [ | | | attempt e r Hle Hctx Hnew Hv
                   | attempt e msg tr Hle Hctx Hnew Hv Hstop
                   | attempt e msg r tr Hlt Hctx Hnew Hv Hrun IH ];
    intros Hin Hfail.
  - lia.
  - repeat split. discriminate.
  - repeat split. discriminate.
  - exfalso. unfold verdict in Hv.
    destruct (Do up attempt _ url jsonData) as [err | status body [readErr|]];
      try discriminate.
    destruct (negb (status =? 200)); [discriminate|].
    destruct (json_Unmarshal up body); [|discriminate].
    injection Hv as <-. discriminate.
  - repeat split. now apply verdict_message in Hv.
  - apply IH; [lia | assumption].
Qed.

(** The sleeps of a run add up to 100ms times
    N(N+1) - attempt(attempt+1) at most, N the retry count. *)
Lemma Run_totalSleep attempt lastErr r tr :
  Run t up ctx url jsonData attempt lastErr r tr ->
  0 <= attempt <= maxRetryAttempt t ->
  maxRetryAttempt t < 46116860184 ->
  0 <= totalSleep tr
  <= 100 * Millisecond
     * (maxRetryAttempt t * (maxRetryAttempt t + 1) - attempt * (attempt + 1)).
Proof.
  unfold Millisecond.
  induction 1 as [ | | | attempt e r Hle Hctx Hnew Hv
                   | attempt e msg tr Hle Hctx Hnew Hv Hstop
                   | attempt e msg r tr Hlt Hctx Hnew Hv Hrun IH ];
    intros Hin Hmax; cbn [totalSleep]; try nia.
  rewrite backoff_no_overflow by lia. unfold Millisecond.
  specialize (IH ltac:(lia) Hmax). nia.
Qed.

End RunFacts.

(** Every result of doRequest comes from a run of its loop from attempt 0,
    on the marshalled request. *)
Lemma doRequest_Run t up ctx req model jsonData r tr :
  deeplx.json_Marshal up req = deeplx.Ok jsonData ->
  deeplx.doRequest t up ctx req model = (Some r, tr) ->
  Run t up (match ctx with None => Background | Some c => c end)
      (deeplx.buildURL t model) jsonData 0 "" r tr.
Proof.
  unfold deeplx.doRequest. intros -> E. now apply attemptLoop_Run in E.
Qed.

(** X1.  doRequest sends a request only for an attempt numbered within
    0 .. maxRetryAttempt before which the context was not done, always to
    the URL buildURL gives for the model, and always with the one marshalled
    request as its body. *)
Theorem doRequest_requests_are_live t up ctx req model r tr a u b :
  deeplx.doRequest t up ctx req model = (r, tr) ->
  In (deeplx.HttpDo a u b) tr ->
  0 <= a <= deeplx.maxRetryAttempt t /\
  ctx_Err (match ctx with None => Background | Some c => c end) a = None /\
  u = deeplx.buildURL t model /\
  deeplx.json_Marshal up req = deeplx.Ok b.
Proof.
  intros E Hin.
  destruct (deeplx.json_Marshal up req) as [jsonData | err] eqn:Hm.
  - destruct (doRequest_shape t up ctx req model) as (r' & k & final & E' & _).
    rewrite E in E'. injection E' as -> _.
    pose proof (doRequest_Run t up ctx req model jsonData r' tr Hm E) as Hrun.
    destruct (Run_requests _ _ _ _ _ _ _ _ _ Hrun a u b Hin) as (Ha & Hc & -> & ->).
    auto.
  - unfold deeplx.doRequest in E. rewrite Hm in E. injection E as _ <-. contradiction.
Qed.

(** The default translator under a context cancelled after the first
    attempt: the one request sent is attempt 0. *)
Lemma doRequest_requests_are_live_witness :
  deeplx.doRequest testTranslator always500 (Some cancelledLater) testRequest ""
  = (Some (deeplx.failure "请求已取消: context canceled"),
     [deeplx.HttpDo 0 testURL testBody; deeplx.Sleep (200 * Millisecond)]) /\
  ctx_Err cancelledLater 0 = None.
Proof.
  split; [reflexivity|].
  exact (proj1 (proj2 (doRequest_requests_are_live
                         testTranslator always500 (Some cancelledLater) testRequest ""
                         _ _ 0 testURL testBody eq_refl (or_introl eq_refl)))).
Defined.

(** X2.  doRequest retries an attempt (sleeps and sends again) only when
    retries are left and the round trip failed as a transient failure: a
    transport error that is a net.Error with Timeout or Temporary, a failed
    read of the body, a 5xx status, or a 200 whose body does not
    deserialize.  It never retries after any other status or transport
    error, nor after a success. *)
Theorem doRequest_retries_transient_failures_only
        t up ctx req model r tr pre a u b d post :
  deeplx.doRequest t up ctx req model = (r, tr) ->
  tr = (pre ++ deeplx.HttpDo a u b :: deeplx.Sleep d :: post)%list ->
  a < deeplx.maxRetryAttempt t /\
  match deeplx.Do up a (attemptTimeout t) u b with
  | deeplx.DoFailed err =>
    deeplx.te_isNetError err = true /\
    (deeplx.te_Timeout err = true \/ deeplx.te_Temporary err = true)
  | deeplx.DoReplied status body (Some readErr) => True
  | deeplx.DoReplied status body None =>
    500 <= status < 600 \/
    (status = 200 /\ exists err, deeplx.json_Unmarshal up body = deeplx.Err err)
  end.
Proof.
  intros E ->.
  destruct (deeplx.json_Marshal up req) as [jsonData | err] eqn:Hm.
  2:{ unfold deeplx.doRequest in E. rewrite Hm in E. injection E as _ E.
      now destruct pre. }
  destruct (doRequest_shape t up ctx req model) as (r' & k & final & E' & _).
  rewrite E in E'. injection E' as -> _.
  pose proof (doRequest_Run t up ctx req model jsonData r' _ Hm E) as Hrun.
  assert (In (deeplx.HttpDo a u b)
             (pre ++ deeplx.HttpDo a u b :: deeplx.Sleep d :: post)) as Hin
      by (apply in_elt).
  destruct (Run_requests _ _ _ _ _ _ _ _ _ Hrun a u b Hin) as (_ & _ & -> & ->).
  destruct (Run_retried _ _ _ _ _ _ _ _ _ Hrun pre a _ _ d post eq_refl)
    as (Ha & msg & Hv).
  split; [exact Ha|].
  unfold verdict in Hv.
  destruct (deeplx.Do up a _ _ _) as [e | status body [readErr|]]; [| exact I |].
  - injection Hv as _ Hretry. unfold deeplx.shouldRetry in Hretry.
    destruct (deeplx.te_isNetError e); [|discriminate].
    destruct (deeplx.te_Timeout e); [auto|].
    destruct (deeplx.te_Temporary e); [auto | discriminate].
  - destruct (negb (status =? 200)) eqn:Hs.
    + injection Hv as _ Hretry. left. unfold deeplx.shouldRetryStatus in Hretry.
      apply andb_prop in Hretry. destruct Hretry as [H1 H2].
      apply Z.leb_le in H1. apply Z.ltb_lt in H2. lia.
    + right. apply negb_false_iff, Z.eqb_eq in Hs. split; [exact Hs|].
      destruct (deeplx.json_Unmarshal up body) as [x | e]; [discriminate | now exists e].
Qed.

(** The first attempt against the always-500 stub is retried: its status is
    a 5xx and two retries are left. *)
Lemma doRequest_retries_transient_failures_only_witness :
  0 < deeplx.maxRetryAttempt testTranslator /\
  match deeplx.Do always500 0 (attemptTimeout testTranslator) testURL testBody with
  | deeplx.DoFailed err =>
    deeplx.te_isNetError err = true /\
    (deeplx.te_Timeout err = true \/ deeplx.te_Temporary err = true)
  | deeplx.DoReplied status body (Some readErr) => True
  | deeplx.DoReplied status body None =>
    500 <= status < 600 \/
    (status = 200 /\ exists err, deeplx.json_Unmarshal always500 body = deeplx.Err err)
  end.
Proof.
  exact (doRequest_retries_transient_failures_only
           testTranslator always500 None testRequest "" _ _
           [] 0 testURL testBody (200 * Millisecond)
           [deeplx.HttpDo 1 testURL testBody; deeplx.Sleep (400 * Millisecond);
            deeplx.HttpDo 2 testURL testBody]
           eq_refl eq_refl).
Defined.

(** X3.  A successful result of doRequest is the decoded body of a 200
    answer to the last request of the call: its translated text, source and
    target language are the Data, SourceLang and TargetLang of that
    payload, which it also carries as RawResponse. *)
Theorem doRequest_success_is_decoded_answer t up ctx req model r tr :
  deeplx.doRequest t up ctx req model = (Some r, tr) ->
  deeplx.Success r = true ->
  exists a pre jsonData body translationResp,
    deeplx.json_Marshal up req = deeplx.Ok jsonData /\
    tr = (pre ++ [deeplx.HttpDo a (deeplx.buildURL t model) jsonData])%list /\
    deeplx.Do up a (attemptTimeout t) (deeplx.buildURL t model) jsonData
    = deeplx.DoReplied 200 body None /\
    deeplx.json_Unmarshal up body = deeplx.Ok translationResp /\
    deeplx.TranslatedText r = deeplx.resp_Data translationResp /\
    deeplx.SourceLang r = deeplx.resp_SourceLang translationResp /\
    deeplx.TargetLang r = deeplx.resp_TargetLang translationResp /\
    deeplx.RawResponse r = Some translationResp.
Proof.
  intros E Hok.
  destruct (deeplx.json_Marshal up req) as [jsonData | err] eqn:Hm.
  - pose proof (doRequest_Run t up ctx req model jsonData r tr Hm E) as Hrun.
    destruct (Run_success _ _ _ _ _ _ _ _ _ Hrun Hok)
      as (a & pre & body & translationResp & Htr & Hdo & Hj & H1 & H2 & H3 & H4 & _).
    exists a, pre, jsonData, body, translationResp. repeat split; assumption.
  - unfold deeplx.doRequest in E. rewrite Hm in E. injection E as <- _. discriminate.
Qed.

(** The second answer of [malformedOnce] is the one the result decodes. *)
Lemma doRequest_success_is_decoded_answer_witness :
  exists a pre jsonData body translationResp,
    deeplx.json_Marshal malformedOnce testRequest = deeplx.Ok jsonData /\
    snd (deeplx.doRequest testTranslator malformedOnce None testRequest "")
    = (pre ++ [deeplx.HttpDo a testURL jsonData])%list /\
    deeplx.Do malformedOnce a (attemptTimeout testTranslator) testURL jsonData
    = deeplx.DoReplied 200 body None /\
    deeplx.json_Unmarshal malformedOnce body = deeplx.Ok translationResp /\
    "你好，世界！" = deeplx.resp_Data translationResp /\
    "EN" = deeplx.resp_SourceLang translationResp /\
    "ZH" = deeplx.resp_TargetLang translationResp /\
    Some goodResponse = Some translationResp.
Proof.
  exact (doRequest_success_is_decoded_answer
           testTranslator malformedOnce None testRequest "" _ _ eq_refl eq_refl).
Defined.

(** X4.  With a retry count that is not negative, a result of doRequest
    says exactly one thing: a successful one has a raw response and an empty
    error message, a failed one has an error message that is not empty, no
    translated text and no raw response. *)
Theorem doRequest_result_is_translation_or_error t up ctx req model r tr :
  0 <= deeplx.maxRetryAttempt t ->
  deeplx.doRequest t up ctx req model = (Some r, tr) ->
  (deeplx.Success r = true ->
   deeplx.ErrorMessage r = "" /\ deeplx.RawResponse r <> None) /\
  (deeplx.Success r = false ->
   deeplx.ErrorMessage r <> "" /\ deeplx.TranslatedText r = "" /\
   deeplx.RawResponse r = None).
Proof.
  intros Hmax E.
  destruct (deeplx.json_Marshal up req) as [jsonData | err] eqn:Hm.
  - pose proof (doRequest_Run t up ctx req model jsonData r tr Hm E) as Hrun. split.
    + intros Hok.
      destruct (Run_success _ _ _ _ _ _ _ _ _ Hrun Hok)
        as (a & pre & body & translationResp & _ & _ & _ & _ & _ & _ & Hraw & Herr).
      split; [exact Herr | now rewrite Hraw].
    + intros Hfail. now apply (Run_failure _ _ _ _ _ _ _ _ _ Hrun).
  - unfold deeplx.doRequest in E. rewrite Hm in E. injection E as <- _.
    split; [discriminate|]. intros _. repeat split. discriminate.
Qed.

(** The two kinds of result, from the stubs. *)
Lemma doRequest_result_is_translation_or_error_witness :
  (deeplx.ErrorMessage
     {| deeplx.Success := true; deeplx.TranslatedText := "你好，世界！";
        deeplx.SourceLang := "EN"; deeplx.TargetLang := "ZH";
        deeplx.ErrorMessage := ""; deeplx.RawResponse := Some goodResponse |} = "" /\
   Some goodResponse <> None) /\
  (deeplx.ErrorMessage (deeplx.failure "HTTP 403: Forbidden") <> "" /\
   deeplx.TranslatedText (deeplx.failure "HTTP 403: Forbidden") = "" /\
   deeplx.RawResponse (deeplx.failure "HTTP 403: Forbidden") = None).
Proof.
  split.
  - exact (proj1 (doRequest_result_is_translation_or_error
                    testTranslator alwaysTranslates None testRequest "" _ _
                    ltac:(cbn; lia) eq_refl) eq_refl).
  - exact (proj2 (doRequest_result_is_translation_or_error
                    testTranslator alwaysRejects None testRequest "" _ _
                    ltac:(cbn; lia) eq_refl) eq_refl).
Defined.

(** X5.  The time one call of doRequest spends in back-off sleeps is at
    most 100ms * N * (N + 1) for a retry count N (below the overflow bound):
    600ms with the two retries NewTranslator configures. *)
Theorem doRequest_total_backoff_bounded t up ctx req model r tr :
  0 <= deeplx.maxRetryAttempt t < 46116860184 ->
  deeplx.doRequest t up ctx req model = (r, tr) ->
  0 <= totalSleep tr
  <= 100 * Millisecond * (deeplx.maxRetryAttempt t * (deeplx.maxRetryAttempt t + 1)).
Proof.
  intros Hmax E.
  destruct (deeplx.json_Marshal up req) as [jsonData | err] eqn:Hm.
  - destruct (doRequest_shape t up ctx req model) as (r' & k & final & E' & _).
    rewrite E in E'. injection E' as -> _.
    pose proof (doRequest_Run t up ctx req model jsonData r' tr Hm E) as Hrun.
    apply Run_totalSleep in Hrun; lia.
  - unfold deeplx.doRequest in E. rewrite Hm in E. injection E as _ <-.
    cbn [totalSleep]. unfold Millisecond. nia.
Qed.

(** The worst case of the default translator: 200ms + 400ms. *)
Lemma doRequest_total_backoff_bounded_witness :
  totalSleep (snd (deeplx.doRequest testTranslator always500 None testRequest ""))
  = 600 * Millisecond /\
  0 <= totalSleep (snd (deeplx.doRequest testTranslator always500 None testRequest ""))
  <= 100 * Millisecond * (2 * (2 + 1)).
Proof.
  split; [reflexivity|].
  exact (doRequest_total_backoff_bounded
           testTranslator always500 None testRequest "" _ _
           ltac:(cbn; lia) eq_refl).
Defined.

(** ** The language helpers *)

(** X6.  The four script ranges of DetectLanguage are pairwise disjoint: a
    rune is in at most one of them, so the order of the four tests in the
    loop decides nothing. *)
Theorem script_ranges_are_disjoint (r : Z) :
  (langutil.IsCJK r = true ->
   langutil.IsCyrillic r = false /\ langutil.IsJapanese r = false /\
   langutil.IsKorean r = false) /\
  (langutil.IsCyrillic r = true ->
   langutil.IsCJK r = false /\ langutil.IsJapanese r = false /\
   langutil.IsKorean r = false) /\
  (langutil.IsJapanese r = true ->
   langutil.IsCJK r = false /\ langutil.IsCyrillic r = false /\
   langutil.IsKorean r = false) /\
  (langutil.IsKorean r = true ->
   langutil.IsCJK r = false /\ langutil.IsCyrillic r = false /\
   langutil.IsJapanese r = false).
Proof.
  unfold langutil.IsCJK, langutil.IsCyrillic, langutil.IsJapanese, langutil.IsKorean.
  repeat split; intros;
    repeat match goal with
           | H : _ && _ = true |- _ => apply andb_prop in H; destruct H
           | H : _ || _ = true |- _ => apply orb_prop in H; destruct H
           | H : (_ <=? _) = true |- _ => apply Z.leb_le in H
           end;
    repeat match goal with
           | |- _ || _ = false => apply orb_false_intro
           end;
    apply andb_false_iff;
    rewrite !Z.leb_gt; lia.
Qed.

Lemma detectLoop_code rs : In (langutil.detectLoop rs) scanCodes.
Proof.
  induction rs as [|r rs IH]; cbn [langutil.detectLoop]; [cbn; tauto|].
  destruct (langutil.IsCJK r); [cbn; tauto|].
  destruct (langutil.IsCyrillic r); [cbn; tauto|].
  destruct (langutil.IsJapanese r); [cbn; tauto|].
  destruct (langutil.IsKorean r); [cbn; tauto | exact IH].
Qed.

Lemma DetectLanguage_scan text requested :
  GoString.isEmpty (GoString.TrimSpace requested) = true \/
  GoString.EqualFold requested "auto" = true ->
  langutil.DetectLanguage text requested = langutil.detectLoop (GoString.runes text).
Proof.
  intros H. unfold langutil.DetectLanguage.
  destruct H as [-> | ->]; [reflexivity | now rewrite andb_false_r].
Qed.

(** X7.  When the requested language is blank or "auto" (in any letter
    case), DetectLanguage answers one of the five codes "zh-CN", "ru",
    "ja", "ko", "en", whatever the text, invalid UTF-8 included. *)
Theorem DetectLanguage_scan_answers_five_codes text requested :
  GoString.isEmpty (GoString.TrimSpace requested) = true \/
  GoString.EqualFold requested "auto" = true ->
  In (langutil.DetectLanguage text requested) scanCodes.
Proof.
  intros H. rewrite DetectLanguage_scan by exact H. apply detectLoop_code.
Qed.

(** A text that is no valid UTF-8, under "AUTO". *)
Lemma DetectLanguage_scan_answers_five_codes_witness :
  In (langutil.DetectLanguage (String (GoString.byteOf 255) "x") "AUTO") scanCodes.
Proof.
  exact (DetectLanguage_scan_answers_five_codes _ "AUTO" (or_intror eq_refl)).
Defined.

Lemma rangeLoop_ascii fuel : forall s,
    isASCII s = true ->
    forall x, In x (GoString.rangeLoop fuel s) -> 0 <= x < 128.
Proof.
  induction fuel as [|fuel IH]; intros s Hs x Hx; [contradiction|].
  destruct s as [|c s]; [contradiction|].
  cbn [isASCII] in Hs. apply andb_prop in Hs. destruct Hs as [Hc Hs].
  cbn [GoString.rangeLoop GoString.DecodeRuneInString] in Hx.
  rewrite Hc in Hx. cbn [GoString.skip] in Hx.
  destruct Hx as [<- | Hx].
  - apply Z.ltb_lt in Hc. split; [|exact Hc].
    unfold GoString.byteZ. lia.
  - now apply (IH s).
Qed.

(** X8.  For a text of ASCII bytes only and a requested language that is
    blank or "auto", DetectLanguage answers "en". *)
Theorem DetectLanguage_ascii_text_is_en text requested :
  isASCII text = true ->
  GoString.isEmpty (GoString.TrimSpace requested) = true \/
  GoString.EqualFold requested "auto" = true ->
  langutil.DetectLanguage text requested = "en".
Proof.
  intros Hascii H. rewrite DetectLanguage_scan by exact H.
  apply detectLoop_none. intros x Hx.
  apply (rangeLoop_ascii _ _ Hascii) in Hx.
  unfold unrecognized, langutil.IsCJK, langutil.IsCyrillic, langutil.IsJapanese,
    langutil.IsKorean.
  repeat split;
    repeat match goal with
           | |- _ || _ = false => apply orb_false_intro
           end;
    apply andb_false_iff; left; apply Z.leb_gt; lia.
Qed.

Lemma DetectLanguage_ascii_text_is_en_witness :
  langutil.DetectLanguage "Hello, world!" "" = "en".
Proof.
  exact (DetectLanguage_ascii_text_is_en "Hello, world!" "" eq_refl (or_introl eq_refl)).
Defined.

Lemma lowerByte_idempotent c : GoString.lowerByte (GoString.lowerByte c) = GoString.lowerByte c.
Proof.
  destruct c as [b0 b1 b2 b3 b4 b5 b6 b7].
  destruct b0, b1, b2, b3, b4, b5, b6, b7; reflexivity.
Qed.

Lemma ToLower_idempotent s : GoString.ToLower (GoString.ToLower s) = GoString.ToLower s.
Proof.
  unfold GoString.ToLower. induction s as [|c s IH]; [reflexivity|].
  cbn [GoString.mapBytes]. now rewrite lowerByte_idempotent, IH.
Qed.

Lemma lowerByte_ascii c :
  (GoString.byteZ c <? 128) = true -> (GoString.byteZ (GoString.lowerByte c) <? 128) = true.
Proof.
  destruct c as [b0 b1 b2 b3 b4 b5 b6 b7].
  destruct b0, b1, b2, b3, b4, b5, b6, b7; intros H; try discriminate H; reflexivity.
Qed.

Lemma ToLower_ascii s : isASCII s = true -> isASCII (GoString.ToLower s) = true.
Proof.
  unfold GoString.ToLower. induction s as [|c s IH]; [reflexivity|].
  cbn [isASCII GoString.mapBytes]. intros H. apply andb_true_iff in H.
  destruct H as [Hc Hs]. now rewrite lowerByte_ascii, IH.
Qed.

Lemma NormalizeLanguageCode_cases (code : string) :
  (exists p, In p rewrittenCodes /\
             GoString.ToLower code = fst p /\
             langutil.NormalizeLanguageCode code = snd p) \/
  langutil.NormalizeLanguageCode code = GoString.ToLower code.
Proof.
  unfold langutil.NormalizeLanguageCode.
  set (c := GoString.ToLower code).
  repeat match goal with
         | |- context [String.eqb c ?l] =>
           let E := fresh "E" in
           destruct (String.eqb c l) eqn:E;
             [apply String.eqb_eq in E |]
         end;
    cbn [orb];
    first
      [ right; solve [reflexivity | symmetry; assumption]
      | left;
        match goal with
        | E : c = ?l |- exists p, _ /\ _ /\ ?res = _ =>
          exists (l, res); split; [cbn; tauto | split; [exact E | reflexivity]]
        end ].
Qed.

(** X9.  On a code of ASCII bytes NormalizeLanguageCode lower-cases its
    argument and rewrites only six lower-cased codes (zh, zh-hans, zh-hant,
    en-us, en-gb, pt-br); any other code comes back just lower-cased.  It
    does not tell such codes apart when they differ in letter case only.
    It is not idempotent: its own results "zh-CN" and "zh-TW" come back in
    lower case when normalized again; every other result is a fixed
    point. *)
Theorem NormalizeLanguageCode_rewrites_six_codes (code : string) :
  isASCII code = true ->
  ((exists p, In p rewrittenCodes /\
              GoString.ToLower code = fst p /\
              langutil.NormalizeLanguageCode code = snd p) \/
   langutil.NormalizeLanguageCode code = GoString.ToLower code) /\
  isASCII (langutil.NormalizeLanguageCode code) = true /\
  (forall other,
      isASCII other = true ->
      GoString.EqualFold code other = true ->
      langutil.NormalizeLanguageCode other = langutil.NormalizeLanguageCode code) /\
  (In (langutil.NormalizeLanguageCode code) ["zh-CN"; "zh-TW"] ->
   langutil.NormalizeLanguageCode (langutil.NormalizeLanguageCode code)
   = GoString.ToLower (langutil.NormalizeLanguageCode code)) /\
  (langutil.NormalizeLanguageCode (langutil.NormalizeLanguageCode code)
   = langutil.NormalizeLanguageCode code
   <-> ~ In (langutil.NormalizeLanguageCode code) ["zh-CN"; "zh-TW"]).
Proof.
  intros Hascii.
  assert (forall a, langutil.NormalizeLanguageCode (GoString.ToLower a)
                    = langutil.NormalizeLanguageCode a) as Hlower.
  { intros a. unfold langutil.NormalizeLanguageCode.
    now rewrite ToLower_idempotent. }
  split; [apply NormalizeLanguageCode_cases|]. split; [|split; [|split]].
  - destruct (NormalizeLanguageCode_cases code) as [(p & Hin & _ & ->) | ->].
    + cbn [rewrittenCodes In] in Hin.
      repeat (destruct Hin as [<- | Hin]; [reflexivity|]). contradiction.
    + now apply ToLower_ascii.
  - intros other _ Hfold. unfold GoString.EqualFold in Hfold.
    apply String.eqb_eq in Hfold.
    now rewrite <- (Hlower other), <- Hfold, Hlower.
  - intros [E | [E | []]]; rewrite <- E; reflexivity.
  - destruct (NormalizeLanguageCode_cases code) as [(p & Hin & _ & ->) | Hn].
    + cbn [rewrittenCodes In] in Hin.
      repeat (destruct Hin as [<- | Hin];
              [cbn [snd]; split;
               [intros H; first [discriminate H | intros [E | [E | []]]; discriminate E]
               |intros H; first [reflexivity | exfalso; apply H; cbn; tauto]]|]).
      contradiction.
    + rewrite Hn, Hlower. split; [|intros _; exact Hn].
      intros _ Hin. cbn [In] in Hin.
      assert (GoString.ToLower (GoString.ToLower code) <> GoString.ToLower code) as Habs;
        [|apply Habs, ToLower_idempotent].
      destruct Hin as [E | [E | []]]; rewrite <- E; discriminate.
Qed.

(** The code "ZH-Hans": rewritten to "zh-CN", which a second pass turns
    into "zh-cn". *)
Lemma NormalizeLanguageCode_rewrites_six_codes_witness :
  langutil.NormalizeLanguageCode "ZH-Hans" = "zh-CN" /\
  langutil.NormalizeLanguageCode (langutil.NormalizeLanguageCode "ZH-Hans") = "zh-cn".
Proof.
  pose proof (NormalizeLanguageCode_rewrites_six_codes "ZH-Hans" eq_refl)
    as (_ & _ & _ & Htwice & _).
  split; [reflexivity|].
  exact (Htwice (or_introl eq_refl)).
Defined.

(** X10.  Includes answers true exactly for the members of the slice. *)
Theorem Includes_iff_member (params : list string) (target : string) :
  langutil.Includes params target = true <-> In target params.
Proof.
  induction params as [|v params IH]; cbn [langutil.Includes In].
  - split; [discriminate | contradiction].
  - destruct (String.eqb v target) eqn:E.
    + apply String.eqb_eq in E. split; auto.
    + apply String.eqb_neq in E. rewrite IH. split; [auto | intros [H | H]; tauto].
Qed.

(** ** The adapter *)

(** What the adapter passes to doRequest. *)
Lemma adapter_calls_doRequest g up ctx q sl tl dt model :
  exists r tr,
    deeplx.doRequest (deeplx.translator g) up ctx (upstreamRequest q sl tl) model
    = (Some r, tr) /\
    deeplx.TranslateWithModel g up ctx q sl tl dt model
    = (Return (Some (if negb (deeplx.Success r)
                     then deeplx.buildErrorResponse q sl tl
                     else deeplx.convertToGoogleFormat q r dt), None), tr).
Proof.
  destruct (doRequest_shape (deeplx.translator g) up ctx (upstreamRequest q sl tl) model)
    as (r & k & final & E & _).
  remember (retryTrace _ _ 0 k ++ final)%list as tr eqn:Htr. clear Htr.
  exists r, tr. split; [exact E|].
  unfold deeplx.TranslateWithModel, deeplx.doTranslate, deeplx.TranslateWithModelContext.
  unfold upstreamRequest in E.
  destruct (GoString.isEmpty sl) eqn:Hsl; cbn [negb andb orb] in *.
  - rewrite E. now destruct (deeplx.Success r).
  - destruct (GoString.EqualFold sl "auto"); cbn [negb] in *; rewrite ?Hsl; cbn [negb];
      rewrite E; now destruct (deeplx.Success r).
Qed.

Lemma mapBytes_nonempty f s : s <> "" -> GoString.mapBytes f s <> "".
Proof. destruct s; [contradiction | discriminate]. Qed.

(** X11.  Every request the adapter sends goes to the URL of the requested
    model and carries the text as it came and no source language exactly
    when the caller gave none or gave "auto" (in any letter case).
    Language codes of ASCII bytes are sent in upper case: the target
    language always, the source language when it is sent.  Translate is
    TranslateWithModel with the empty model. *)
Theorem adapter_requests_carry_upper_cased_languages g up ctx q sl tl dt model :
  deeplx.Translate g up ctx q sl tl dt = deeplx.TranslateWithModel g up ctx q sl tl dt "" /\
  (forall a u b,
      In (deeplx.HttpDo a u b) (snd (deeplx.TranslateWithModel g up ctx q sl tl dt model)) ->
      u = deeplx.buildURL (deeplx.translator g) model /\
      exists request,
        deeplx.json_Marshal up request = deeplx.Ok b /\
        deeplx.req_Text request = q /\
        (deeplx.req_SourceLang request = ""
         <-> GoString.isEmpty sl || GoString.EqualFold sl "auto" = true) /\
        (isASCII sl = true ->
         GoString.isEmpty sl || GoString.EqualFold sl "auto" = false ->
         deeplx.req_SourceLang request = GoString.ToUpper sl) /\
        (isASCII tl = true -> deeplx.req_TargetLang request = GoString.ToUpper tl)).
Proof.
  split; [reflexivity|].
  intros a u b Hin.
  destruct (adapter_calls_doRequest g up ctx q sl tl dt model) as (r & tr & E & Hrun).
  rewrite Hrun in Hin. cbn [snd] in Hin.
  destruct (deeplx.json_Marshal up (upstreamRequest q sl tl)) as [jsonData | err] eqn:Hm.
  - pose proof (doRequest_Run _ up ctx _ model jsonData r tr Hm E) as HR.
    destruct (Run_requests _ _ _ _ _ _ _ _ _ HR a u b Hin) as (_ & _ & -> & ->).
    split; [reflexivity|]. exists (upstreamRequest q sl tl).
    split; [exact Hm|]. split; [reflexivity|].
    unfold upstreamRequest. cbn [deeplx.req_SourceLang deeplx.req_TargetLang].
    destruct (GoString.isEmpty sl || GoString.EqualFold sl "auto") eqn:Hauto.
    + repeat split; auto; discriminate.
    + apply orb_false_iff in Hauto. destruct Hauto as [Hsl _].
      repeat split; auto; try discriminate.
      intros Hup. exfalso. revert Hup. apply mapBytes_nonempty.
      destruct sl; [discriminate Hsl | discriminate].
  - unfold deeplx.doRequest in E. rewrite Hm in E. injection E as _ <-. contradiction.
Qed.

Lemma detectLoop_nonempty rs : langutil.detectLoop rs <> "".
Proof.
  pose proof (detectLoop_code rs) as H. cbn in H.
  intros E. rewrite E in H. intuition discriminate.
Qed.

Lemma isEmpty_false s : GoString.isEmpty s = false -> s <> "".
Proof. destruct s; [discriminate | intros _; discriminate]. Qed.

Lemma convertToGoogleFormat_Src q result dt :
  translation.Src (deeplx.convertToGoogleFormat q result dt) <> "" /\
  translation.LDResult (deeplx.convertToGoogleFormat q result dt)
  = Some {| translation.Srclangs :=
              [translation.Src (deeplx.convertToGoogleFormat q result dt)];
            translation.SrclangsConfidences := [99 # 100] |}.
Proof.
  unfold deeplx.convertToGoogleFormat.
  cbn [translation.Src translation.LDResult]. split; [|reflexivity].
  destruct (GoString.isEmpty (langutil.NormalizeLanguageCode (deeplx.SourceLang result)))
    eqn:E.
  - rewrite DetectLanguage_scan by (left; reflexivity). apply detectLoop_nonempty.
  - now apply isEmpty_false.
Qed.

Lemma buildErrorResponse_Src q sl tl :
  translation.Src (deeplx.buildErrorResponse q sl tl) <> "" /\
  translation.LDResult (deeplx.buildErrorResponse q sl tl)
  = Some {| translation.Srclangs := [translation.Src (deeplx.buildErrorResponse q sl tl)];
            translation.SrclangsConfidences := [5 # 10] |}.
Proof.
  unfold deeplx.buildErrorResponse.
  cbn [translation.Src translation.LDResult]. split; [|reflexivity].
  destruct (GoString.isEmpty sl) eqn:Hsl; cbn [orb].
  - destruct sl; [|discriminate].
    rewrite DetectLanguage_scan by (left; reflexivity). apply detectLoop_nonempty.
  - destruct (GoString.EqualFold sl "auto") eqn:Hauto.
    + rewrite DetectLanguage_scan by (right; exact Hauto). apply detectLoop_nonempty.
    + now apply isEmpty_false.
Qed.

(** X12.  Whatever the upstream does, the adapter returns a response and a
    nil error.  The response names a source language that is not empty,
    and its language-detection block lists exactly that language with
    exactly one confidence: 0.5 when the response is the degraded echo of a
    failed upstream call, 0.99 when it was converted from a successful
    one. *)
Theorem adapter_response_names_one_source_language g up ctx q sl tl dt model :
  exists resp conf,
    fst (deeplx.TranslateWithModel g up ctx q sl tl dt model) = Return (Some resp, None) /\
    translation.Src resp <> "" /\
    translation.LDResult resp
    = Some {| translation.Srclangs := [translation.Src resp];
              translation.SrclangsConfidences := [conf] |} /\
    ((conf = 5 # 10 /\ resp = deeplx.buildErrorResponse q sl tl) \/
     (conf = 99 # 100 /\
      exists result, deeplx.Success result = true /\
                     resp = deeplx.convertToGoogleFormat q result dt)).
Proof.
  destruct (adapter_calls_doRequest g up ctx q sl tl dt model) as (r & tr & _ & ->).
  cbn [fst]. destruct (deeplx.Success r) eqn:Hok; cbn [negb].
  - exists (deeplx.convertToGoogleFormat q r dt), (99 # 100).
    destruct (convertToGoogleFormat_Src q r dt) as [H1 H2].
    repeat split; auto. right. split; [reflexivity|]. now exists r.
  - exists (deeplx.buildErrorResponse q sl tl), (5 # 10).
    destruct (buildErrorResponse_Src q sl tl) as [H1 H2].
    repeat split; auto.
Qed.

(** X13.  SetBaseURL drops one trailing slash and nothing else: a URL
    given with a trailing slash is stored without it, a URL that does not
    end in a slash is stored as it is, and the API key, the timeout and the
    retry count are kept. *)
Theorem SetBaseURL_drops_one_trailing_slash (t : deeplx.DeepLXTranslator) (url : string) :
  deeplx.baseURL (deeplx.SetBaseURL t (url ++ "/")) = url /\
  ((forall v, url <> v ++ "/") -> deeplx.baseURL (deeplx.SetBaseURL t url) = url) /\
  deeplx.apiKey (deeplx.SetBaseURL t url) = deeplx.apiKey t /\
  deeplx.requestTimeout (deeplx.SetBaseURL t url) = deeplx.requestTimeout t /\
  deeplx.maxRetryAttempt (deeplx.SetBaseURL t url) = deeplx.maxRetryAttempt t.
Proof.
  cbn [deeplx.SetBaseURL deeplx.baseURL deeplx.apiKey deeplx.requestTimeout
       deeplx.maxRetryAttempt].
  repeat split.
  - induction url as [|c url IH]; [reflexivity|].
    cbn [String.append GoString.TrimSuffix].
    assert (String.eqb (String c (url ++ "/")) "/" = false) as ->.
    { apply String.eqb_neq. intros [= _ H]. now destruct url. }
    now rewrite IH.
  - induction url as [|c url IH]; intros Hno; [reflexivity|].
    cbn [GoString.TrimSuffix].
    assert (String.eqb (String c url) "/" = false) as ->.
    { apply String.eqb_neq. intros E. now apply (Hno ""). }
    rewrite IH; [reflexivity|].
    intros v E. apply (Hno (String c v)). cbn. now rewrite E.
Qed.

Lemma rev_onto_app (a b acc : string) :
  GoString.rev_onto (a ++ b) acc = GoString.rev_onto b (GoString.rev_onto a acc).
Proof.
  revert acc. induction a as [|c a IH]; intros acc; [reflexivity|]. cbn. apply IH.
Qed.

(** The URL of the test suite, given with and without the slash. *)
Lemma SetBaseURL_drops_one_trailing_slash_witness :
  deeplx.buildURL (deeplx.SetBaseURL testTranslator "https://custom.example.com/api/") "gpt-4"
  = "https://custom.example.com/api/sk-test-key-123456/gpt-4" /\
  deeplx.baseURL (deeplx.SetBaseURL testTranslator "https://custom.example.com/api")
  = "https://custom.example.com/api".
Proof.
  split.
  - pose proof (proj1 (SetBaseURL_drops_one_trailing_slash
                         testTranslator "https://custom.example.com/api")) as H.
    change ("https://custom.example.com/api" ++ "/")
      with "https://custom.example.com/api/" in H.
    unfold deeplx.buildURL. rewrite H. reflexivity.
  - apply (proj1 (proj2 (SetBaseURL_drops_one_trailing_slash
                           testTranslator "https://custom.example.com/api"))).
    intros v E. apply (f_equal GoString.reverse) in E.
    unfold GoString.reverse in E. rewrite rev_onto_app in E. discriminate E.
Defined.

(** ** The decorator *)

(** X14.  With caching disabled, or with no cache configured, the decorator
    only forwards the call: it makes no cache read, schedules no cache
    write, and hands back what the inner service returned, untouched. *)
Theorem disabled_cache_is_pass_through c js ctx q sl tl dt model :
  cache.enabled c = false \/ cache.cache c = None ->
  cache.TranslateWithModel c js ctx q sl tl dt model
  = (deeplx.svc_TranslateWithModel (cache.service c) ctx q sl tl dt model,
     [cache.InnerCall q sl tl dt model]).
Proof.
  unfold cache.TranslateWithModel. intros [-> | ->]; [reflexivity|].
  now destruct (cache.enabled c).
Qed.

(** The failing service behind a decorator built with Enabled = false. *)
Lemma disabled_cache_is_pass_through_witness :
  cache.TranslateWithModel
    (cache.NewCachedTranslationService failingService (Some emptyCache)
       {| cache.TTL := 0; cache.Enabled := false;
          cache.ShareAcrossServices := false; cache.WriteTimeout := 0 |} [])
    stubJson None "Test" "" "ZH" ["t"] ""
  = (Return (None, Some "upstream unavailable"), [cache.InnerCall "Test" "" "ZH" ["t"] ""]).
Proof.
  exact (disabled_cache_is_pass_through
           (cache.NewCachedTranslationService failingService (Some emptyCache)
              {| cache.TTL := 0; cache.Enabled := false;
                 cache.ShareAcrossServices := false; cache.WriteTimeout := 0 |} [])
           stubJson None "Test" "" "ZH" ["t"] "" (or_introl eq_refl)).
Defined.

Lemma decorator_hit c js ch ctx q sl tl dt model data cached :
  cache.enabled c = true ->
  cache.cache c = Some ch ->
  cache.Get ch (requestKey c q sl tl model) = (Some data, None) ->
  cache.json_Unmarshal js data = deeplx.Ok cached ->
  cache.Version cached = cache.CacheFormatVersion ->
  cache.TranslateWithModel c js ctx q sl tl dt model
  = (Return (Some (cache.buildResponseFromCache cached), None),
     [cache.CacheGet (requestKey c q sl tl model)]).
Proof.
  intros Hen Hch Hget Hjson Hver.
  unfold cache.TranslateWithModel, requestKey in *. rewrite Hen, Hch.
  unfold cache.getFromCache. rewrite Hget, Hjson, Hver. reflexivity.
Qed.

(** X15.  When the cache holds, under the key of the request, bytes that
    decode to an entry of the current format version, the decorator answers
    from the entry: the inner service is not called, no write is scheduled,
    and the answer is the same whatever fields were requested. *)
Theorem cache_hit_skips_inner_service c js ch ctx q sl tl dt dt' model data cached :
  cache.enabled c = true ->
  cache.cache c = Some ch ->
  cache.Get ch (requestKey c q sl tl model) = (Some data, None) ->
  cache.json_Unmarshal js data = deeplx.Ok cached ->
  cache.Version cached = cache.CacheFormatVersion ->
  cache.TranslateWithModel c js ctx q sl tl dt model
  = (Return (Some (cache.buildResponseFromCache cached), None),
     [cache.CacheGet (requestKey c q sl tl model)]) /\
  cache.innerCalls (snd (cache.TranslateWithModel c js ctx q sl tl dt model)) = 0%nat /\
  cache.scheduledWrites (snd (cache.TranslateWithModel c js ctx q sl tl dt model)) = 0%nat /\
  cache.TranslateWithModel c js ctx q sl tl dt' model
  = cache.TranslateWithModel c js ctx q sl tl dt model.
Proof.
  intros Hen Hch Hget Hjson Hver.
  rewrite !(decorator_hit c js ch ctx q sl tl _ model data cached Hen Hch Hget Hjson Hver).
  repeat split.
Qed.

(** Scenario D, second call: the provider (which would answer 500) is not
    asked. *)
Lemma cache_hit_skips_inner_service_witness :
  let c := cachedService always500 (cacheHolding helloKey "{entry,version:1}") in
  cache.TranslateWithModel c stubJson None "Hello, world!" "EN" "ZH" ["t"; "bd"; "ex"] ""
  = (Return (Some (cache.buildResponseFromCache entryV1), None),
     [cache.CacheGet (requestKey c "Hello, world!" "EN" "ZH" "")]) /\
  cache.innerCalls
    (snd (cache.TranslateWithModel c stubJson None "Hello, world!" "EN" "ZH"
                                   ["t"; "bd"; "ex"] "")) = 0%nat.
Proof.
  cbv zeta.
  pose proof (cache_hit_skips_inner_service
                (cachedService always500 (cacheHolding helloKey "{entry,version:1}"))
                stubJson (cacheHolding helloKey "{entry,version:1}")
                None "Hello, world!" "EN" "ZH" ["t"; "bd"; "ex"] ["t"] ""
                "{entry,version:1}" entryV1
                eq_refl eq_refl ltac:(vm_compute; reflexivity) eq_refl eq_refl) as H.
  exact (conj (proj1 H) (proj1 (proj2 H))).
Defined.

(** X16.  A failed cache read never reaches the caller.  When Get returns
    an error, or returns bytes that do not decode, the call is the one the
    decorator makes when the key is absent: the inner service is called and
    what it returns is what the caller gets. *)
Theorem cache_read_failure_is_a_miss c js ch ctx q sl tl dt model :
  cache.enabled c = true ->
  cache.cache c = Some ch ->
  (exists data err, cache.Get ch (requestKey c q sl tl model) = (data, Some err)) \/
  (exists data err,
      cache.Get ch (requestKey c q sl tl model) = (Some data, None) /\
      cache.json_Unmarshal js data = deeplx.Err err) ->
  fst (cache.TranslateWithModel c js ctx q sl tl dt model)
  = passedOn (deeplx.svc_TranslateWithModel (cache.service c) ctx q sl tl dt model) /\
  (forall absent,
      cache.Get absent (requestKey c q sl tl model) = (None, None) ->
      cache.TranslateWithModel c js ctx q sl tl dt model
      = cache.TranslateWithModel (withCache c absent) js ctx q sl tl dt model).
Proof.
  intros Hen Hch Hfail.
  assert (exists err, cache.getFromCache js ch (requestKey c q sl tl model)
                      = (None, Some err)) as [err Hmiss].
  { unfold cache.getFromCache.
    destruct Hfail as [(data & err & ->) | (data & err & -> & ->)];
      [destruct data|]; now exists err. }
  unfold cache.TranslateWithModel, requestKey in *.
  cbn [withCache cache.enabled cache.cache cache.service cache.keyGenerator].
  rewrite Hen, Hch, Hmiss. split.
  - destruct (deeplx.svc_TranslateWithModel _ _ _ _ _ _ _) as [[resp [e|]]|msg]; reflexivity.
  - intros absent Habsent. now rewrite (getFromCache_absent js absent _ Habsent).
Qed.

(** Bytes under the key that are no entry at all. *)
Lemma cache_read_failure_is_a_miss_witness :
  let c := cachedService alwaysTranslates (cacheHolding helloKey "not json") in
  cache.TranslateWithModel c stubJson None "Hello, world!" "EN" "ZH" ["t"] ""
  = cache.TranslateWithModel (withCache c emptyCache) stubJson None
                             "Hello, world!" "EN" "ZH" ["t"] "".
Proof.
  cbv zeta.
  refine (proj2 (cache_read_failure_is_a_miss
                   (cachedService alwaysTranslates (cacheHolding helloKey "not json"))
                   stubJson (cacheHolding helloKey "not json")
                   None "Hello, world!" "EN" "ZH" ["t"] "" eq_refl eq_refl _)
                emptyCache eq_refl).
  right. exists "not json", "unexpected end of JSON input".
  split; [vm_compute; reflexivity | reflexivity].
Defined.

(** X17.  Write then read.  When a call scheduled a cache write for a
    response, and the JSON codec gives back the entry it encoded, then the
    goroutine stores, under the key of the request and with the configured
    TTL, an entry of the current format version, and once the cache holds
    those bytes every later call with the same text, languages and model
    (whatever its requested fields) is answered from that entry without
    calling the inner service. *)
Theorem write_then_read_is_a_hit c js ctx q sl tl dt model task resp now data :
  In (cache.GoSave task) (snd (cache.TranslateWithModel c js ctx q sl tl dt model)) ->
  cache.wt_resp task = Some resp ->
  cache.json_Marshal js (cache.buildCachedTranslation c now q sl tl model resp)
  = deeplx.Ok data ->
  cache.json_Unmarshal js data
  = deeplx.Ok (cache.buildCachedTranslation c now q sl tl model resp) ->
  fst (cache.TranslateWithModel c js ctx q sl tl dt model) = Return (Some resp, None) /\
  cache.saveToCache c js now task
  = Return [cache.CacheSet (requestKey c q sl tl model) data (cache.ttl c)] /\
  (forall ch' ctx' dt',
      cache.Get ch' (requestKey c q sl tl model) = (Some data, None) ->
      cache.TranslateWithModel (withCache c ch') js ctx' q sl tl dt' model
      = (Return (Some (cache.buildResponseFromCache
                         (cache.buildCachedTranslation c now q sl tl model resp)), None),
         [cache.CacheGet (requestKey c q sl tl model)])).
Proof.
  intros Hin Hresp Hmarshal Hunmarshal.
  assert (cache.enabled c = true /\
          task = {| cache.wt_key := requestKey c q sl tl model;
                    cache.wt_originalText := q; cache.wt_sourceLang := sl;
                    cache.wt_targetLang := tl; cache.wt_model := model;
                    cache.wt_resp := Some resp |} /\
          fst (cache.TranslateWithModel c js ctx q sl tl dt model)
          = Return (Some resp, None)) as (Hen & -> & Hfst).
  { unfold cache.TranslateWithModel, requestKey in *.
    destruct (cache.enabled c); [|cbn in Hin; intuition discriminate].
    destruct (cache.cache c) as [ch|]; [|cbn in Hin; intuition discriminate].
    destruct (cache.getFromCache js ch _) as [[cached|] [e|]];
      try (cbn in Hin; intuition discriminate);
      destruct (deeplx.svc_TranslateWithModel _ _ _ _ _ _ _) as [[r [err|]]|msg];
      cbn in Hin; try (intuition discriminate);
      (destruct Hin as [H | [H | [H | []]]]; try discriminate H;
       injection H as <-; cbn in Hresp; subst r; auto). }
  split; [exact Hfst|]. split.
  - unfold cache.saveToCache. cbn. now rewrite Hmarshal.
  - intros ch' ctx' dt' Hget.
    apply (decorator_hit (withCache c ch') js ch' ctx' q sl tl dt' model
             data _ Hen eq_refl Hget Hunmarshal eq_refl).
Qed.

(** Scenario D: the first call misses and schedules the write; with the
    bytes in the cache, a second call (asking for other fields) hits. *)
Lemma write_then_read_is_a_hit_witness :
  let c := cachedService alwaysTranslates emptyCache in
  let resp :=
    deeplx.convertToGoogleFormat "Hello, world!"
      {| deeplx.Success := true; deeplx.TranslatedText := "你好，世界！";
         deeplx.SourceLang := "EN"; deeplx.TargetLang := "ZH";
         deeplx.ErrorMessage := ""; deeplx.RawResponse := Some goodResponse |} ["t"] in
  fst (cache.TranslateWithModel c stubJson None "Hello, world!" "EN" "ZH" ["t"] "")
  = Return (Some resp, None) /\
  cache.buildCachedTranslation c 1700000000000 "Hello, world!" "EN" "ZH" "" resp = entryV1 /\
  cache.TranslateWithModel (withCache c (cacheHolding helloKey "{entry,version:1}"))
                           stubJson None "Hello, world!" "EN" "ZH" ["bd"] ""
  = (Return (Some (cache.buildResponseFromCache entryV1), None), [cache.CacheGet helloKey]).
Proof.
  cbv zeta.
  pose proof (write_then_read_is_a_hit
                (cachedService alwaysTranslates emptyCache) stubJson None
                "Hello, world!" "EN" "ZH" ["t"] ""
                {| cache.wt_key := helloKey; cache.wt_originalText := "Hello, world!";
                   cache.wt_sourceLang := "EN"; cache.wt_targetLang := "ZH";
                   cache.wt_model := "";
                   cache.wt_resp :=
                     Some (deeplx.convertToGoogleFormat "Hello, world!"
                             {| deeplx.Success := true;
                                deeplx.TranslatedText := "你好，世界！";
                                deeplx.SourceLang := "EN"; deeplx.TargetLang := "ZH";
                                deeplx.ErrorMessage := "";
                                deeplx.RawResponse := Some goodResponse |} ["t"]) |}
                _ 1700000000000 "{entry,version:1}"
                ltac:(vm_compute; do 2 right; left; reflexivity)
                eq_refl
                ltac:(vm_compute; reflexivity)
                ltac:(vm_compute; reflexivity)) as (H1 & _ & H3).
  split; [exact H1|]. split; [vm_compute; reflexivity|].
  exact (H3 (cacheHolding helloKey "{entry,version:1}") None ["bd"]
            ltac:(vm_compute; reflexivity)).
Defined.

(** X18.  The alternatives buildCachedTranslation stores are exactly the
    candidate texts of the response that are not empty and differ from the
    stored translated text; the response rebuilt from the entry lists the
    stored alternatives again, in order. *)
Theorem stored_alternatives_are_filtered c now q sl tl model resp :
  let cached := cache.buildCachedTranslation c now q sl tl model resp in
  (forall a,
      In a (cache.Alternatives cached) <->
      a <> "" /\ a <> cache.TranslatedText cached /\
      exists alt x,
        In alt (translation.AlternativeTranslations resp) /\
        In x (translation.Alternatives alt) /\
        translation.WordPostproc x = a) /\
  List.flat_map
    (fun alt => List.map translation.WordPostproc (translation.Alternatives alt))
    (translation.AlternativeTranslations (cache.buildResponseFromCache cached))
  = cache.Alternatives cached.
Proof.
  cbv zeta. split.
  - intros a.
    cbn [cache.buildCachedTranslation cache.Alternatives cache.TranslatedText].
    set (text := match translation.Sentences resp with
                 | [] => ""
                 | _ :: _ => _
                 end).
    assert (In a (cache.pickAlternatives text (translation.AlternativeTranslations resp))
            <-> a <> "" /\ a <> text /\
                exists alt x,
                  In alt (translation.AlternativeTranslations resp) /\
                  In x (translation.Alternatives alt) /\
                  translation.WordPostproc x = a) as Hpick.
    { unfold cache.pickAlternatives. rewrite in_flat_map. split.
      - intros (alt & Halt & Hin). rewrite in_flat_map in Hin.
        destruct Hin as (x & Hx & Hin).
        destruct (GoString.isEmpty (translation.WordPostproc x)) eqn:He;
          [contradiction|].
        destruct (String.eqb (translation.WordPostproc x) text) eqn:Ht;
          [contradiction|].
        destruct Hin as [<- | []].
        apply isEmpty_false in He. apply String.eqb_neq in Ht.
        repeat split; auto. now exists alt, x.
      - intros (Hne & Htext & alt & x & Halt & Hx & <-).
        exists alt. split; [exact Halt|]. rewrite in_flat_map. exists x.
        split; [exact Hx|].
        destruct (translation.WordPostproc x) eqn:Hw; [contradiction|].
        cbn [GoString.isEmpty negb andb].
        apply String.eqb_neq in Htext. rewrite Htext. now left. }
    destruct (translation.AlternativeTranslations resp) eqn:Halts; [|exact Hpick].
    split; [contradiction|]. intros (_ & _ & alt & _ & [] & _).
  - cbn [cache.buildResponseFromCache translation.AlternativeTranslations].
    destruct (cache.Alternatives _) as [|a l]; [reflexivity|].
    cbn [List.flat_map translation.Alternatives]. rewrite app_nil_r, map_map.
    cbn [translation.WordPostproc]. apply map_id.
Qed.

(** ** Keys *)

Lemma hexDigit_is_hex d : 0 <= d < 16 -> isHexDigit (sha256.hexDigit d) = true.
Proof.
  intros H.
  assert (d = 0 \/ d = 1 \/ d = 2 \/ d = 3 \/ d = 4 \/ d = 5 \/ d = 6 \/ d = 7 \/
          d = 8 \/ d = 9 \/ d = 10 \/ d = 11 \/ d = 12 \/ d = 13 \/ d = 14 \/ d = 15)
    as Hd by lia.
  repeat (destruct Hd as [-> | Hd]; [reflexivity|]). now subst d.
Qed.

Lemma EncodeToString_hex bs :
  Forall (fun b => 0 <= b < 256) bs -> allHex (sha256.EncodeToString bs) = true.
Proof.
  induction 1 as [|b bs Hb Hbs IH]; [reflexivity|].
  cbn [sha256.EncodeToString allHex].
  rewrite !hexDigit_is_hex, IH; [reflexivity | |].
  - apply Z.mod_pos_bound. lia.
  - split; [apply Z.div_pos | apply Z.div_lt_upper_bound]; lia.
Qed.

(** X19.  A key is "translate:", a scope segment, a colon, and sixteen
    lower-case hexadecimal digits.  The scope segment is the word "shared"
    in shared mode and, for a provider name of ASCII bytes, that name in
    lower case in isolated mode. *)
Theorem cache_key_has_fixed_shape g service text sl tl model :
  exists scope digest,
    cache.Generate g service text sl tl model = "translate:" ++ scope ++ ":" ++ digest /\
    String.length digest = 16%nat /\
    allHex digest = true /\
    String.length (cache.Generate g service text sl tl model)
    = (27 + String.length scope)%nat /\
    (cache.shareAcrossServices g = true -> scope = "shared") /\
    (cache.shareAcrossServices g = false -> isASCII service = true ->
     scope = GoString.ToLower service /\ isASCII scope = true).
Proof.
  exists (scopeSegment g service),
         (sha256.EncodeToString (digestPrefix text sl tl model)).
  rewrite Generate_unfold, str_app_assoc.
  assert (String.length (sha256.EncodeToString (digestPrefix text sl tl model)) = 16%nat)
    as Hlen by (now rewrite EncodeToString_length, digestPrefix_length).
  split; [reflexivity|]. split; [exact Hlen|].
  split; [apply EncodeToString_hex, digestPrefix_bytes|].
  split; [rewrite !str_length_app, Hlen; cbn [String.length]; lia|].
  unfold scopeSegment. split; intros ->; [reflexivity|].
  intros Hascii. split; [reflexivity | now apply ToLower_ascii].
Qed.

(** X20.  In shared mode the provider name does not reach the key.  In
    isolated mode two providers with names of ASCII bytes get the same key
    for the same request exactly when their names agree up to letter case.
    An isolated key of such a provider coincides with the shared key of
    the same request exactly when the provider's name, in lower case, is
    "shared". *)
Theorem cache_key_scopes text sl tl model :
  (forall service1 service2,
      cache.Generate (cache.NewKeyGenerator true) service1 text sl tl model
      = cache.Generate (cache.NewKeyGenerator true) service2 text sl tl model) /\
  (forall service1 service2,
      isASCII service1 = true -> isASCII service2 = true ->
      (cache.GenerateCacheKey service1 text sl tl model
       = cache.GenerateCacheKey service2 text sl tl model
       <-> GoString.ToLower service1 = GoString.ToLower service2)) /\
  (forall service,
      isASCII service = true ->
      (cache.GenerateCacheKey service text sl tl model
       = cache.GenerateSharedCacheKey text sl tl model
       <-> GoString.ToLower service = "shared")).
Proof.
  unfold cache.GenerateCacheKey, cache.GenerateSharedCacheKey.
  repeat split; intros;
    try (apply Generate_eq_iff; now split);
    match goal with
    | H : cache.Generate _ _ _ _ _ _ = _ |- _ =>
      apply Generate_eq_iff in H; destruct H as [H _]; exact H
    | H : GoString.ToLower _ = _ |- _ =>
      apply Generate_eq_iff; split; [exact H | reflexivity]
    end.
Qed.

(** X21.  NewCachedTranslationService without options gives a write
    timeout that is positive: the configured one, or five seconds when
    that is zero or negative.  An option is applied after the default: the
    timeout of a WithWriteTimeout that comes last is taken as it is, even
    when it is not positive. *)
Theorem write_timeout_default svc ch cfg :
  cache.writeTimeout (cache.NewCachedTranslationService svc ch cfg [])
  = (if cache.WriteTimeout cfg <=? 0 then 5 * Second else cache.WriteTimeout cfg) /\
  0 < cache.writeTimeout (cache.NewCachedTranslationService svc ch cfg []) /\
  (forall opts d,
      cache.writeTimeout
        (cache.NewCachedTranslationService svc ch cfg (opts ++ [cache.WithWriteTimeout d]))
      = d).
Proof.
  unfold cache.NewCachedTranslationService, cache.defaultCacheWriteTimeout.
  cbn [List.fold_left cache.writeTimeout]. repeat split.
  - destruct (cache.WriteTimeout cfg <=? 0) eqn:E; [reflexivity|].
    apply Z.leb_gt in E. lia.
  - intros opts d. now rewrite fold_left_app.
Qed.

(** ** The handler of POST /translate_a/single *)

Lemma isEmpty_true s : GoString.isEmpty s = true -> s = "".
Proof. destruct s; [reflexivity | discriminate]. Qed.

(** X22.  translateHandler calls the translation service at most once, and
    only for a decoded payload whose q and tl are not blank; the call
    passes q, sl and tl as they came, the requested fields (["t"] when
    none were asked for) and the request's model, or the configured one
    when the request names none; the plain Translate is used only when
    both are empty.  The handler makes no call exactly when it replies
    with status 400. *)
Theorem translateHandler_validates_before_calling service defaultModel ctx decoded :
  let out := server.translateHandler service defaultModel ctx decoded in
  (snd out = [] \/
   exists payload,
     decoded = deeplx.Ok payload /\
     GoString.TrimSpace (server.Q payload) <> "" /\
     GoString.TrimSpace (server.TL payload) <> "" /\
     snd out = [callFor defaultModel payload]) /\
  (snd out = [] <-> exists e, fst out = Return (server.ReplyError 400 e)).
Proof.
  cbv zeta. unfold server.translateHandler, callFor. cbv zeta.
  destruct decoded as [payload | err].
  2:{ split; [now left|]. split; [intros _; eexists; reflexivity | reflexivity]. }
  destruct (GoString.isEmpty (GoString.TrimSpace (server.Q payload))) eqn:Hq.
  { split; [now left|]. split; [intros _; eexists; reflexivity | reflexivity]. }
  destruct (GoString.isEmpty (GoString.TrimSpace (server.TL payload))) eqn:Htl.
  { split; [now left|]. split; [intros _; eexists; reflexivity | reflexivity]. }
  apply isEmpty_false in Hq, Htl.
  destruct (GoString.isEmpty (server.Model payload)) eqn:Hm;
    destruct (GoString.isEmpty defaultModel) eqn:Hd;
    cbn [andb negb]; rewrite ?Hm, ?Hd; cbn [negb];
    match goal with
    | |- context [deeplx.svc_Translate ?s ?c ?q ?sl ?tl ?dt] =>
      destruct (deeplx.svc_Translate s c q sl tl dt) as [[[resp|] [e|]]|msg]
    | |- context [deeplx.svc_TranslateWithModel ?s ?c ?q ?sl ?tl ?dt ?m] =>
      destruct (deeplx.svc_TranslateWithModel s c q sl tl dt m) as [[[resp|] [e|]]|msg]
    end;
    cbn [fst snd];
    (split;
     [right; exists payload; rewrite ?Hm, ?Hd; repeat split;
      solve [assumption | reflexivity]
     |split; [discriminate | intros (e' & He'); cbv in He'; discriminate He']]).
Qed.

(** X23.  The reply to a request that reached the service follows the
    service's answer alone: status 200 with the service's response exactly
    when the service returned a response and no error; status 502 exactly
    when it returned an error or neither a response nor an error; a panic
    of the service is not recovered by the handler. *)
Theorem translateHandler_reply_follows_service service defaultModel ctx decoded call :
  let out := server.translateHandler service defaultModel ctx decoded in
  In call (snd out) ->
  (forall resp,
      fst out = Return (server.ReplyOK 200 resp)
      <-> answer service ctx call = Return (Some resp, None)) /\
  ((exists e, fst out = Return (server.ReplyError 502 e))
   <-> (exists r err, answer service ctx call = Return (r, Some err))
       \/ answer service ctx call = Return (None, None)) /\
  (forall msg, fst out = Panic msg <-> answer service ctx call = Panic msg) /\
  (forall r, fst out = Return r -> replyStatus r = 200 \/ replyStatus r = 502).
Proof.
  cbv zeta. unfold server.translateHandler.
  destruct decoded as [payload | err]; [|intros []].
  destruct (GoString.isEmpty (GoString.TrimSpace (server.Q payload))); [intros []|].
  destruct (GoString.isEmpty (GoString.TrimSpace (server.TL payload))); [intros []|].
  destruct (negb (GoString.isEmpty _)) eqn:Hm;
    match goal with
    | |- context [deeplx.svc_Translate ?s ?c ?q ?sl ?tl ?dt] =>
      destruct (deeplx.svc_Translate s c q sl tl dt) as [[[resp|] [e|]]|msg] eqn:Hans
    | |- context [deeplx.svc_TranslateWithModel ?s ?c ?q ?sl ?tl ?dt ?m] =>
      destruct (deeplx.svc_TranslateWithModel s c q sl tl dt m) as [[[resp|] [e|]]|msg] eqn:Hans
    end;
    cbn [fst snd In]; (intros [<- | []]); cbn [answer]; rewrite Hans;
    (split; [intros resp'; split; intros H; inversion H; reflexivity|]);
    (split;
     [split;
      [intros (e' & He'); inversion He'; subst;
       first [right; reflexivity | left; eexists _, _; reflexivity]
      |intros [(r' & err' & H) | H]; inversion H; subst; eexists; reflexivity]
     |]);
    (split; [intros msg'; split; intros H; inversion H; reflexivity|]);
    intros r Hr; inversion Hr; subst; cbn; auto.
Qed.

(** The handler in front of the adapter and a provider that translates:
    the reply is the adapter's response, status 200. *)
Lemma translateHandler_reply_follows_service_witness :
  fst (server.translateHandler (deeplx.asService testGoogle alwaysTranslates) "" None
         (deeplx.Ok {| server.Q := "Hello, world!"; server.SL := "EN";
                       server.TL := "ZH"; server.DT := []; server.Model := "" |}))
  = Return (server.ReplyOK 200
              (deeplx.convertToGoogleFormat "Hello, world!"
                 {| deeplx.Success := true; deeplx.TranslatedText := "你好，世界！";
                    deeplx.SourceLang := "EN"; deeplx.TargetLang := "ZH";
                    deeplx.ErrorMessage := ""; deeplx.RawResponse := Some goodResponse |}
                 ["t"])).
Proof.
  apply (proj1 (translateHandler_reply_follows_service
                  (deeplx.asService testGoogle alwaysTranslates) "" None
                  (deeplx.Ok {| server.Q := "Hello, world!"; server.SL := "EN";
                                server.TL := "ZH"; server.DT := [];
                                server.Model := "" |})
                  (server.CallTranslate "Hello, world!" "EN" "ZH" ["t"])
                  ltac:(vm_compute; left; reflexivity))).
  vm_compute. reflexivity.
Defined.

Lemma adapter_always_answers g up ctx q sl tl dt call :
  call = server.CallTranslate q sl tl dt \/
  (exists model, call = server.CallTranslateWithModel q sl tl dt model) ->
  exists resp,
    answer (deeplx.asService g up) ctx call = Return (Some resp, None) /\
    translation.LDResult resp <> None.
Proof.
  intros [-> | (model & ->)]; cbn [answer deeplx.asService deeplx.svc_Translate
                                     deeplx.svc_TranslateWithModel];
    unfold deeplx.Translate, deeplx.TranslateWithModel, deeplx.doTranslate,
      deeplx.TranslateWithContext, deeplx.TranslateWithModelContext;
    destruct (_ && _);
    match goal with
    | |- context [deeplx.doRequest ?t ?u ?c ?r ?m] =>
      destruct (doRequest_shape t u c r m) as (res & k & final & -> & _)
    end;
    (destruct (deeplx.Success res); cbn;
     eexists; (split; [reflexivity | discriminate])).
Qed.

Lemma translateHandler_cases service defaultModel ctx decoded :
  (exists e,
      fst (server.translateHandler service defaultModel ctx decoded)
      = Return (server.ReplyError 400 e) /\
      forall payload,
        decoded = deeplx.Ok payload ->
        GoString.TrimSpace (server.Q payload) <> "" ->
        GoString.TrimSpace (server.TL payload) <> "" -> False) \/
  (exists payload,
      decoded = deeplx.Ok payload /\
      GoString.TrimSpace (server.Q payload) <> "" /\
      GoString.TrimSpace (server.TL payload) <> "" /\
      forall resp,
        answer service ctx (callFor defaultModel payload) = Return (Some resp, None) ->
        fst (server.translateHandler service defaultModel ctx decoded)
        = Return (server.ReplyOK 200 resp)).
Proof.
  unfold server.translateHandler, callFor. cbv zeta.
  destruct decoded as [payload | err].
  2:{ left. eexists. split; [reflexivity | discriminate]. }
  destruct (GoString.isEmpty (GoString.TrimSpace (server.Q payload))) eqn:Hq.
  { left. eexists. split; [reflexivity|]. intros p [= <-] H _.
    apply isEmpty_true in Hq. contradiction. }
  destruct (GoString.isEmpty (GoString.TrimSpace (server.TL payload))) eqn:Htl.
  { left. eexists. split; [reflexivity|]. intros p [= <-] _ H.
    apply isEmpty_true in Htl. contradiction. }
  apply isEmpty_false in Hq, Htl.
  right. exists payload. repeat split; try assumption.
  intros resp.
  destruct (GoString.isEmpty (server.Model payload)) eqn:Hm;
    destruct (GoString.isEmpty defaultModel) eqn:Hd;
    cbn [andb negb]; rewrite ?Hm, ?Hd; cbn [negb answer];
    intros ->; reflexivity.
Qed.

(** X24.  With the DeepLX adapter as its translation service the handler
    never answers 502 and never panics, whatever the provider does: every
    request with a non-blank q and a non-blank tl is answered with status
    200 and a response that carries a language-detection block, every
    other request with status 400. *)
Theorem handler_over_adapter_never_replies_502 g up defaultModel ctx decoded :
  exists r,
    fst (server.translateHandler (deeplx.asService g up) defaultModel ctx decoded)
    = Return r /\
    replyStatus r <> 502 /\
    (replyStatus r = 200 \/ replyStatus r = 400) /\
    ((exists resp, r = server.ReplyOK 200 resp /\ translation.LDResult resp <> None)
     <-> exists payload,
         decoded = deeplx.Ok payload /\
         GoString.TrimSpace (server.Q payload) <> "" /\
         GoString.TrimSpace (server.TL payload) <> "") /\
    ((exists e, r = server.ReplyError 400 e)
     <-> ~ exists payload,
           decoded = deeplx.Ok payload /\
           GoString.TrimSpace (server.Q payload) <> "" /\
           GoString.TrimSpace (server.TL payload) <> "").
Proof.
  destruct (translateHandler_cases (deeplx.asService g up) defaultModel ctx decoded)
    as [(e & He & Hno) | (payload & -> & Hq & Htl & Hcall)].
  - exists (server.ReplyError 400 e). split; [exact He|]. split; [discriminate|].
    split; [now right|]. split.
    + split; [intros (resp & Hr & _); discriminate Hr|].
      intros (payload & Hd & Hq & Htl). exfalso. exact (Hno payload Hd Hq Htl).
    + split; [|intros _; now exists e].
      intros _ (payload & Hd & Hq & Htl). exact (Hno payload Hd Hq Htl).
  - destruct (adapter_always_answers g up ctx (server.Q payload) (server.SL payload)
                (server.TL payload)
                (match server.DT payload with
                 | [] => ["t"]
                 | (_ :: _)%list => server.DT payload
                 end)
                (callFor defaultModel payload)) as (resp & Hans & Hld).
    { unfold callFor. cbv zeta.
      match goal with
      | |- context [if ?b then server.CallTranslate _ _ _ _ else _] => destruct b
      end; [now left | right; eexists; reflexivity]. }
    exists (server.ReplyOK 200 resp). split; [exact (Hcall resp Hans)|].
    split; [discriminate|]. split; [now left|]. split.
    + split; [intros _; now exists payload | intros _; now exists resp].
    + split; [intros (e & He); discriminate He|].
      intros Hno. exfalso. apply Hno. now exists payload.
Qed.

(** ** The provider factory and the choice of the service *)

Lemma CreateService_ok NewTranslatorWithConfig serviceType config g :
  deeplx.CreateService NewTranslatorWithConfig serviceType config = deeplx.Ok g <->
  exists cfg t,
    config = Some cfg /\
    deeplx.cfg_APIKey cfg <> "" /\
    GoString.ToLower serviceType = "deeplx" /\
    NewTranslatorWithConfig cfg = deeplx.Ok t /\
    g = {| deeplx.translator := t; deeplx.name := "DeepLX" |}.
Proof.
  unfold deeplx.CreateService, deeplx.createDeepLXService,
    deeplx.NewGoogleTranslatorWithConfig.
  split.
  - destruct config as [cfg|]; [|discriminate].
    destruct (GoString.isEmpty (deeplx.cfg_APIKey cfg)) eqn:Hkey; [discriminate|].
    cbv zeta.
    destruct (String.eqb (GoString.ToLower serviceType) deeplx.ServiceTypeDeepLX) eqn:Hty.
    + apply String.eqb_eq in Hty.
      destruct (NewTranslatorWithConfig cfg) as [t|e] eqn:Ht; [|discriminate].
      intros [= <-]. exists cfg, t. apply isEmpty_false in Hkey. now repeat split.
    + repeat (destruct (String.eqb _ _); [discriminate|]). discriminate.
  - intros (cfg & t & -> & Hkey & Hty & Ht & ->).
    destruct (deeplx.cfg_APIKey cfg) eqn:Hk; [contradiction|].
    cbn [GoString.isEmpty]. cbv zeta. rewrite Hty, Ht. reflexivity.
Qed.

(** X25.  The factory builds a service only for the type "deeplx" (in any
    letter case), from a configuration that is present and has a
    non-empty API key, and only when the translator itself can be built;
    the service is then the adapter named "DeepLX".  Every other request,
    the four reserved types included, is an error.  Every type listed by
    GetSupportedServices is one the factory builds. *)
Theorem CreateService_builds_deeplx_only NewTranslatorWithConfig serviceType config :
  (forall g,
      deeplx.CreateService NewTranslatorWithConfig serviceType config = deeplx.Ok g <->
      exists cfg t,
        config = Some cfg /\
        deeplx.cfg_APIKey cfg <> "" /\
        GoString.ToLower serviceType = "deeplx" /\
        NewTranslatorWithConfig cfg = deeplx.Ok t /\
        g = {| deeplx.translator := t; deeplx.name := "DeepLX" |}) /\
  (forall ty cfg t,
      In ty deeplx.GetSupportedServices ->
      deeplx.cfg_APIKey cfg <> "" ->
      NewTranslatorWithConfig cfg = deeplx.Ok t ->
      deeplx.CreateService NewTranslatorWithConfig ty (Some cfg)
      = deeplx.Ok {| deeplx.translator := t; deeplx.name := "DeepLX" |}) /\
  (forall key g,
      deeplx.CreateServiceSimple NewTranslatorWithConfig serviceType key = deeplx.Ok g ->
      key <> "" /\ GoString.ToLower serviceType = "deeplx").
Proof.
  split; [intros g; apply CreateService_ok|]. split.
  - intros ty cfg t [<- | []] Hkey Ht. apply CreateService_ok.
    exists cfg, t. now repeat split.
  - unfold deeplx.CreateServiceSimple. intros key g H.
    apply CreateService_ok in H.
    destruct H as (cfg & t & [= <-] & Hkey & Hty & _). now split.
Qed.

(** X26.  selectTranslationService returns an injected service as it is.
    Without one it asks the factory, taking a blank service type for
    "deeplx": it succeeds exactly when the API key is not empty, the
    configured type is blank or is "deeplx" up to letter case, and the
    translator can be built from the API key and the base URL; the result
    is then the adapter named "DeepLX". *)
Theorem selectTranslationService_defaults_to_deeplx NewTranslatorWithConfig cfg :
  (forall service,
      server.selectTranslationService NewTranslatorWithConfig cfg (Some service)
      = deeplx.Ok (inl service)) /\
  (forall s,
      server.selectTranslationService NewTranslatorWithConfig cfg None = deeplx.Ok s <->
      exists t,
        s = inr {| deeplx.translator := t; deeplx.name := "DeepLX" |} /\
        server.APIKey cfg <> "" /\
        (GoString.TrimSpace (server.ServiceType cfg) = "" \/
         GoString.ToLower (server.ServiceType cfg) = "deeplx") /\
        NewTranslatorWithConfig {| deeplx.cfg_APIKey := server.APIKey cfg;
                                   deeplx.cfg_BaseURL := server.BaseURL cfg;
                                   deeplx.cfg_Timeout := 0 |} = deeplx.Ok t).
Proof.
  split; [reflexivity|]. intros s.
  unfold server.selectTranslationService. cbv zeta.
  match goal with
  | |- context [deeplx.CreateService ?n ?ty ?c] =>
    pose proof (CreateService_ok n ty c) as Hok;
      destruct (deeplx.CreateService n ty c) as [g|e]
  end.
  - destruct (proj1 (Hok g) eq_refl) as (c & t & [= <-] & Hkey & Hty & Ht & ->).
    cbn [deeplx.cfg_APIKey] in Hkey. rewrite ToLower_idempotent in Hty.
    split.
    + intros [= <-]. exists t. repeat split; try assumption.
      destruct (GoString.isEmpty (GoString.TrimSpace (server.ServiceType cfg))) eqn:Hb;
        [left; now apply isEmpty_true | now right].
    + intros (t' & -> & _ & _ & Ht'). rewrite Ht in Ht'. now injection Ht' as <-.
  - split; [discriminate|]. intros (t & _ & Hkey & Hty & Ht). exfalso.
    assert (deeplx.Err e = deeplx.Ok {| deeplx.translator := t; deeplx.name := "DeepLX" |})
      as Habs; [|discriminate Habs].
    apply Hok. eexists _, t. repeat split; try eassumption.
    rewrite ToLower_idempotent.
    destruct Hty as [Hblank | Hty].
    + rewrite Hblank. reflexivity.
    + destruct (GoString.isEmpty _); [reflexivity | exact Hty].
Qed.

(** X27.  NewGoogleTranslator accepts exactly the API keys that begin with
    "sk-"; the adapter it builds is named "DeepLX", reports itself
    available, retries twice and posts to the default endpoint followed by
    the key and, when one is given, the model. *)
Theorem NewGoogleTranslator_accepts_sk_keys key :
  (forall g,
      deeplx.NewGoogleTranslator key = deeplx.Ok g ->
      deeplx.HasPrefix key "sk-" = true /\
      deeplx.GetName g = "DeepLX" /\
      deeplx.IsAvailable g = true /\
      deeplx.maxRetryAttempt (deeplx.translator g) = 2 /\
      deeplx.buildURL (deeplx.translator g) ""
      = "https://deeplx.jayogo.com/translate/" ++ key /\
      forall model,
        model <> "" ->
        deeplx.buildURL (deeplx.translator g) model
        = "https://deeplx.jayogo.com/translate/" ++ key ++ "/" ++ model) /\
  (deeplx.HasPrefix key "sk-" = true ->
   exists g, deeplx.NewGoogleTranslator key = deeplx.Ok g).
Proof.
  unfold deeplx.NewGoogleTranslator, deeplx.NewTranslator. split.
  - intros g.
    destruct (GoString.isEmpty key) eqn:Hk; [discriminate|].
    destruct (deeplx.HasPrefix key "sk-") eqn:Hp; [|discriminate].
    cbn [orb negb]. intros [= <-].
    unfold deeplx.IsAvailable, deeplx.buildURL, deeplx.GetName.
    cbn [deeplx.translator deeplx.name deeplx.apiKey deeplx.baseURL
           deeplx.maxRetryAttempt GoString.isEmpty negb].
    rewrite Hk. repeat split.
    intros model Hm. destruct model; [contradiction|]. reflexivity.
  - intros Hp. rewrite Hp.
    destruct key; [discriminate Hp|]. cbn [GoString.isEmpty orb negb].
    eexists. reflexivity.
Qed.

(** ** What the decorator writes *)

(** X28.  Every cache write the decorator schedules is keyed by the key of
    the request and stores the very response the caller was given, with a
    nil error.  The write panics (it dereferences the response) exactly
    when that response is nil: a service that returns neither a response
    nor an error makes the decorator start a write that cannot succeed. *)
Theorem scheduled_write_stores_the_answer c js ctx q sl tl dt model task now :
  In (cache.GoSave task) (snd (cache.TranslateWithModel c js ctx q sl tl dt model)) ->
  cache.wt_key task = requestKey c q sl tl model /\
  cache.wt_originalText task = q /\
  fst (cache.TranslateWithModel c js ctx q sl tl dt model)
  = Return (cache.wt_resp task, None) /\
  deeplx.svc_TranslateWithModel (cache.service c) ctx q sl tl dt model
  = Return (cache.wt_resp task, None) /\
  ((exists msg, cache.saveToCache c js now task = Panic msg)
   <-> cache.wt_resp task = None).
Proof.
  unfold cache.TranslateWithModel, requestKey.
  assert (forall t : cache.WriteTask,
             (exists msg, cache.saveToCache c js now t = Panic msg)
             <-> cache.wt_resp t = None) as Hsave.
  { intros t. unfold cache.saveToCache. destruct (cache.wt_resp t) as [resp|].
    - split; [|discriminate]. intros (msg & H).
      destruct (cache.json_Marshal js _); discriminate H.
    - split; [reflexivity | intros _; eexists; reflexivity]. }
  destruct (cache.enabled c), (cache.cache c) as [ch|];
    try (cbn [snd In]; intros [H | []]; discriminate H).
  destruct (cache.getFromCache js ch _) as [[cached|] [err|]];
    try (cbn [snd In]; intros [H | []]; discriminate H);
    (destruct (deeplx.svc_TranslateWithModel _ _ _ _ _ _ _) as [[resp [e|]]|msg];
     cbn [fst snd In];
     intros H; repeat (destruct H as [H | H]; try discriminate H); try contradiction;
     injection H as <-;
     (split; [reflexivity|]); (split; [reflexivity|]); (split; [reflexivity|]);
     (split; [reflexivity|]); apply Hsave).
Qed.

(** A service that answers (nil, nil): the decorator passes it on and
    schedules a write that panics. *)
Lemma scheduled_write_stores_the_answer_witness :
  fst (cache.TranslateWithModel silentCached stubJson None "Hello" "EN" "ZH" ["t"] "")
  = Return (None, None) /\
  exists task msg,
    In (cache.GoSave task)
       (snd (cache.TranslateWithModel silentCached stubJson None "Hello" "EN" "ZH" ["t"] "")) /\
    cache.saveToCache silentCached stubJson 1700000000000 task = Panic msg.
Proof.
  pose proof (scheduled_write_stores_the_answer
                silentCached stubJson None "Hello" "EN" "ZH" ["t"] ""
                {| cache.wt_key := requestKey silentCached "Hello" "EN" "ZH" "";
                   cache.wt_originalText := "Hello"; cache.wt_sourceLang := "EN";
                   cache.wt_targetLang := "ZH"; cache.wt_model := "";
                   cache.wt_resp := None |}
                1700000000000
                ltac:(vm_compute; do 2 right; left; reflexivity))
    as (_ & _ & Hfst & _ & Hpanic).
  split; [exact Hfst|].
  destruct (proj2 Hpanic eq_refl) as (msg & Hmsg).
  eexists _, msg. split; [|exact Hmsg].
  vm_compute. do 2 right. left. reflexivity.
Defined.

(** X29.  A failed translation is cached like a translation.  When the
    client's request fails, the adapter's degraded response (the original
    text as its own translation) comes back from the decorator with a nil
    error, and the write the decorator schedules stores an entry whose
    translated text is the original text; once those bytes are in the
    cache, the next call for the same request is a hit that answers the
    original text without calling the service. *)
Theorem failed_translation_is_cached c js g up ch ctx q sl tl dt model r now data :
  cache.service c = deeplx.asService g up ->
  cache.enabled c = true ->
  cache.cache c = Some ch ->
  cache.Get ch (requestKey c q sl tl model) = (None, None) ->
  fst (deeplx.doRequest (deeplx.translator g) up ctx (upstreamRequest q sl tl) model)
  = Some r ->
  deeplx.Success r = false ->
  cache.json_Marshal js (degradedEntry c now q sl tl model) = deeplx.Ok data ->
  cache.json_Unmarshal js data = deeplx.Ok (degradedEntry c now q sl tl model) ->
  (exists task,
      cache.TranslateWithModel c js ctx q sl tl dt model
      = (Return (Some (deeplx.buildErrorResponse q sl tl), None),
         [cache.CacheGet (requestKey c q sl tl model);
          cache.InnerCall q sl tl dt model; cache.GoSave task]) /\
      cache.saveToCache c js now task
      = Return [cache.CacheSet (requestKey c q sl tl model) data (cache.ttl c)]) /\
  cache.TranslatedText (degradedEntry c now q sl tl model) = q /\
  (forall ch' ctx' dt',
      cache.Get ch' (requestKey c q sl tl model) = (Some data, None) ->
      exists resp,
        cache.TranslateWithModel (withCache c ch') js ctx' q sl tl dt' model
        = (Return (Some resp, None), [cache.CacheGet (requestKey c q sl tl model)]) /\
        List.map translation.Trans (translation.Sentences resp) = [q]).
Proof.
  intros Hsvc Hen Hch Hget Hr Hfail Hm Hu.
  assert (cache.TranslatedText (degradedEntry c now q sl tl model) = q) as Htext.
  { unfold degradedEntry, cache.buildCachedTranslation, deeplx.buildErrorResponse.
    cbn [translation.Sentences cache.TranslatedText List.fold_left translation.Trans].
    reflexivity. }
  split; [|split; [exact Htext|]].
  - destruct (adapter_calls_doRequest g up ctx q sl tl dt model) as (r' & tr & E & Ht).
    rewrite E in Hr. cbn [fst] in Hr. injection Hr as ->.
    rewrite Hfail in Ht. cbn [negb] in Ht.
    assert (deeplx.svc_TranslateWithModel (cache.service c) ctx q sl tl dt model
            = Return (Some (deeplx.buildErrorResponse q sl tl), None)) as Hinner.
    { rewrite Hsvc. cbn [deeplx.asService deeplx.svc_TranslateWithModel].
      now rewrite Ht. }
    eexists. split.
    + unfold cache.TranslateWithModel. fold (requestKey c q sl tl model).
      rewrite Hen, Hch. unfold cache.getFromCache. rewrite Hget, Hinner. reflexivity.
    + unfold cache.saveToCache.
      cbn [cache.wt_resp cache.wt_originalText cache.wt_sourceLang cache.wt_targetLang
             cache.wt_model cache.wt_key].
      fold (degradedEntry c now q sl tl model). rewrite Hm. reflexivity.
  - intros ch' ctx' dt' Hget'.
    eexists. split.
    + apply (decorator_hit (withCache c ch') js ch' ctx' q sl tl dt' model data
                           (degradedEntry c now q sl tl model));
        [exact Hen | reflexivity | exact Hget' | exact Hu | reflexivity].
    + cbn [cache.buildResponseFromCache translation.Sentences List.map translation.Trans].
      now rewrite Htext.
Qed.

(** Scenario B behind the cache: the provider always answers 500, the echo
    of "Hello, world!" is written, and the next call is served from it. *)
Lemma failed_translation_is_cached_witness :
  let c := cachedService always500 emptyCache in
  let js := codecOf (degradedEntry c 1700000000000 "Hello, world!" "EN" "ZH" "") in
  cache.TranslatedText (degradedEntry c 1700000000000 "Hello, world!" "EN" "ZH" "")
  = "Hello, world!" /\
  exists resp,
    cache.TranslateWithModel (withCache c (cacheHolding helloKey "{entry}")) js None
                             "Hello, world!" "EN" "ZH" ["t"] ""
    = (Return (Some resp, None), [cache.CacheGet helloKey]) /\
    List.map translation.Trans (translation.Sentences resp) = ["Hello, world!"].
Proof.
  cbv zeta.
  pose proof (failed_translation_is_cached
                (cachedService always500 emptyCache)
                (codecOf (degradedEntry (cachedService always500 emptyCache)
                                        1700000000000 "Hello, world!" "EN" "ZH" ""))
                testGoogle always500 emptyCache None
                "Hello, world!" "EN" "ZH" ["t"] ""
                (deeplx.failure "HTTP 500: Internal Server Error")
                1700000000000 "{entry}"
                eq_refl eq_refl eq_refl eq_refl
                ltac:(vm_compute; reflexivity)
                eq_refl eq_refl
                ltac:(vm_compute; reflexivity)) as (_ & Htext & Hnext).
  split; [exact Htext|].
  exact (Hnext (cacheHolding helloKey "{entry}") None ["t"]
               ltac:(vm_compute; reflexivity)).
Defined.
